(** * EduManager: the student-ID allocator and the student routes

    A shallow embedding of the Express/Mongoose server of EduManager
    (the file with the Counter model, [getNextSequenceValue] and the
    [/api/students] and [/api/stats] routes), and the properties of the
    ID-allocation subsystem proved about it.  Further on come the read
    route of a student, the delete route of a course and the create
    route of the earlier revision kept in the same file, the handlers
    split at their awaits and run by turns, and the search box of the
    client.

    Modelling decisions, all of them about what lies outside the
    repository's own code:

    - MongoDB collections are finite maps keyed by [_id].  The Counter
      collection maps a sequence name to its [sequence_value]; the
      student and course collections map an ObjectId to a document, a
      finite map from field names to JavaScript values.
    - An ObjectId is the number its twelve bytes spell.  The routes of
      the first part receive the id as Mongoose casts it; the cast of
      the parameter, and the CastError of a parameter that is no
      ObjectId, come with [delete_student_route],
      [delete_course_route] and [put_student_route].
    - [sequence_value] is an integer.  MongoDB increments it on the
      server, as an integer; the model does not cut it at 2^53.
    - A route is a state transformer on the database: the handler run
      from start to end with no other handler in between.  The handlers
      split at their awaits are the [Task]s, which a [Server] runs by
      turns, so that requests overlap; a store call is one step.
    - The database is reachable.  The one failure of a store call that
      is modelled, besides the cast of an id, is the rejection of a
      write of a student document ([save], [findByIdAndUpdate]):
      validation errors and duplicate-key errors (E11000).  Which
      writes are rejected, and with which error, is decided by the
      environment: the world carries the list of verdicts the store
      will give to the coming writes.
    - Strings are byte strings; [trim] and [toLowerCase] act on the
      ASCII range.  The [toLowerCase] of the client is a parameter of
      which only what it does on ASCII strings is assumed.  Console
      output is left out; of the time stamps of Mongoose, [updatedAt]
      comes with [put_student_route].
    - A number in a request body is only ever tested for being zero,
      and a [studentId] is a counter value: both are integers.  The
      success rate of the dashboard is computed on Numbers proper, IEEE
      754 binary64, as the Standard Library specifies them. *)

From Stdlib Require Import ZArith String Ascii List Bool Lia SpecFloat.
From Stdlib Require DecimalString.
From stdpp Require Import gmap strings list fin_maps option.

Local Open Scope string_scope.
Local Open Scope Z_scope.

(** ** JavaScript values *)

Module Js.

(** The values a JSON request body can hold, plus the [Date] objects the
    handlers build from them.  [Object] stands for arrays and objects:
    truthy, and without string methods. *)
Inductive Val : Type :=
  | Undefined
  | Null
  | Bool (b : bool)
  | Num (n : Z)
  | Str (s : string)
  | Date (src : Val)
  | Object.

#[global] Instance Val_eq_dec : EqDecision Val.
Proof. solve_decision. Defined.

(** ToBoolean. *)
Definition truthy (v : Val) : bool :=
  match v with
  | Undefined | Null => false
  | Bool b => b
  | Num n => negb (Z.eqb n 0)
  | Str s => negb (String.eqb s "")
  | Date _ | Object => true
  end.

(** [a || b] on values. *)
Definition or (a b : Val) : Val := if truthy a then a else b.

(** *** String methods *)

Definition is_space (c : ascii) : bool :=
  let n := nat_of_ascii c in
  (Nat.leb 9 n && Nat.leb n 13) || Nat.eqb n 32.

Fixpoint trimStart (s : string) : string :=
  match s with
  | EmptyString => EmptyString
  | String c s' => if is_space c then trimStart s' else s
  end.

Definition rev_string (s : string) : string :=
  string_of_list_ascii (List.rev (list_ascii_of_string s)).

Definition trimEnd (s : string) : string :=
  rev_string (trimStart (rev_string s)).

Definition trim (s : string) : string := trimEnd (trimStart s).

Definition lower (c : ascii) : ascii :=
  let n := nat_of_ascii c in
  if Nat.leb 65 n && Nat.leb n 90 then ascii_of_nat (n + 32) else c.

Fixpoint toLowerCase (s : string) : string :=
  match s with
  | EmptyString => EmptyString
  | String c s' => String (lower c) (toLowerCase s')
  end.

(** [s.includes(sub)] *)
Fixpoint includes (s sub : string) : bool :=
  String.prefix sub s ||
  match s with
  | EmptyString => false
  | String _ s' => includes s' sub
  end.

(** *** Numbers

    A Number is an IEEE 754 binary64 value; the arithmetic is the
    Standard Library's specification of it ([SpecFloat], precision 53,
    exponents up to 1024), rounding to nearest, ties to even. *)

Definition Number : Type := spec_float.

Definition prec : Z := 53.
Definition emax : Z := 1024.

(** The Number nearest to an integer; exact below 2^53. *)
Definition of_Z (n : Z) : Number := binary_normalize prec emax n 0 false.
Definition of_nat (n : nat) : Number := of_Z (Z.of_nat n).

(** [x / y] and [x * y] *)
Definition div (x y : Number) : Number := SFdiv prec emax x y.
Definition mul (x y : Number) : Number := SFmul prec emax x y.

(** [Math.round(x)]: the integer nearest to [x], the larger one on a
    tie; zeros, infinities and NaN are returned as they are, and so is a
    Number without fractional bits.  A negative [x] that rounds to zero
    gives the negative zero. *)
Definition Math_round (x : Number) : Number :=
  match x with
  | S754_finite s m e =>
      if Z.leb 0 e then x
      else
        let v := if s then Z.neg m else Z.pos m in
        binary_normalize prec emax
          (Z.div (2 * v + Z.pow 2 (- e)) (Z.pow 2 (1 - e))) 0 s
  | _ => x
  end.

(** *** Errors *)

(** What the handlers read of a thrown error: [code], [keyPattern]
    (the key specification of the violated index, field to direction)
    and [message]. *)
Record Error : Type := mkError {
  code : option Z;
  keyPattern : option (gmap string Z);
  message : string
}.

(** [new Error(msg)] *)
Definition newError (msg : string) : Error :=
  {| code := None; keyPattern := None; message := msg |}.

(** [error.keyPattern && error.keyPattern.<field>], as a condition. *)
Definition keyPattern_has (e : Error) (field : string) : bool :=
  match keyPattern e with
  | None => false
  | Some kp =>
      match kp !! field with
      | None => false
      | Some dir => negb (Z.eqb dir 0)
      end
  end.

(** [error.code === 11000] *)
Definition code_is (e : Error) (n : Z) : bool :=
  match code e with
  | Some c => Z.eqb c n
  | None => false
  end.

End Js.

(** ** The database and the monad of the handlers *)

(** A document: field name to value.  Its [_id] is the key under which
    the collection holds it. *)
Abbreviation Doc := (gmap string Js.Val).

Record World : Type := mkWorld {
  counters : gmap string Z;          (* Counter: _id -> sequence_value *)
  students : gmap N Doc;             (* Student: _id -> document *)
  courses : gmap N Doc;              (* Course: _id -> document *)
  verdicts : list (option Js.Error)  (* the store's answers to the coming
                                        writes of student documents:
                                        [None] accepts, [Some e] rejects *)
}.

Definition with_counters (f : gmap string Z → gmap string Z) (w : World) : World :=
  {| counters := f (counters w); students := students w;
     courses := courses w; verdicts := verdicts w |}.

Definition with_students (f : gmap N Doc → gmap N Doc) (w : World) : World :=
  {| counters := counters w; students := f (students w);
     courses := courses w; verdicts := verdicts w |}.

Definition with_verdicts (f : list (option Js.Error) → list (option Js.Error))
    (w : World) : World :=
  {| counters := counters w; students := students w;
     courses := courses w; verdicts := f (verdicts w) |}.

(** How an awaited computation ends: with a value, or with a thrown
    error (a rejected promise). *)
Inductive Completion (A : Type) : Type :=
  | Normal (a : A)
  | Throw (e : Js.Error).
Arguments Normal {A} a.
Arguments Throw {A} e.

Definition Async (A : Type) : Type := World → Completion A * World.

Definition ret {A} (a : A) : Async A := λ w, (Normal a, w).

Definition throw {A} (e : Js.Error) : Async A := λ w, (Throw e, w).

Definition bind {A B} (m : Async A) (k : A → Async B) : Async B :=
  λ w, match m w with
       | (Normal a, w') => k a w'
       | (Throw e, w') => (Throw e, w')
       end.

(** [try { m } catch (error) { h error }] *)
Definition try_catch {A} (m : Async A) (h : Js.Error → Async A) : Async A :=
  λ w, match m w with
       | (Normal a, w') => (Normal a, w')
       | (Throw e, w') => h e w'
       end.

(** [Async] is a monad; the handlers are written with stdpp's notation,
    [x ← m; k] for [const x = await m; k] and [m;; k] for [await m; k]. *)
#[global] Instance Async_ret : MRet Async := @ret.
#[global] Instance Async_bind : MBind Async := λ A B k m, bind m k.

(** ** The Mongoose models *)

Module Counter.

(** [Counter.findOneAndUpdate({ _id: name },
      { $setOnInsert: { sequence_value: v } }, { upsert: true, ... })] *)
Definition upsert_setOnInsert (name : string) (v : Z) : Async unit :=
  λ w, match counters w !! name with
       | Some _ => (Normal tt, w)
       | None => (Normal tt, with_counters (insert name v) w)
       end.

(** [Counter.findByIdAndUpdate(name, { $inc: { sequence_value: by } },
      { new: true })]: the updated counter, [null] when there is none. *)
Definition findByIdAndUpdate_inc (name : string) (by_ : Z) : Async (option Z) :=
  λ w, match counters w !! name with
       | Some v => (Normal (Some (v + by_)),
                    with_counters (insert name (v + by_)) w)
       | None => (Normal None, w)
       end.

(** [Counter.findOneAndUpdate({ _id: name }, { sequence_value: v },
      { new: true })]: no upsert, so nothing happens without a counter. *)
Definition findOneAndUpdate_set (name : string) (v : Z) : Async (option Z) :=
  λ w, match counters w !! name with
       | Some _ => (Normal (Some v), with_counters (insert name v) w)
       | None => (Normal None, w)
       end.

End Counter.

(** The store's verdict on the next write of a student document. *)
Definition next_verdict : Async unit :=
  λ w, match verdicts w with
       | [] => (Normal tt, w)
       | None :: vs => (Normal tt, with_verdicts (λ _, vs) w)
       | Some e :: vs => (Throw e, with_verdicts (λ _, vs) w)
       end.

(** Whether a document passes an equality filter such as
    [{ status: 'Inactive' }]. *)
Definition matches (flt d : Doc) : bool := bool_decide (flt ⊆ d).

Module Student.

(** [new Student(fields)]: the document gets an [_id] no stored student
    has. *)
Definition new (fields : Doc) : Async (N * Doc) :=
  λ w, (Normal (fresh (dom (students w)), fields), w).

(** [student.save()] *)
Definition save (student : N * Doc) : Async unit :=
  next_verdict;;
  (λ w, (Normal tt, with_students (insert student.1 student.2) w)) : Async unit.

(** [Student.findByIdAndUpdate(id, updateData,
      { new: true, runValidators: true })]: the fields of [updateData]
    are set on the student, the others stay; the updated student is
    returned, or [null]. *)
Definition findByIdAndUpdate (id : N) (updateData : Doc) : Async (option Doc) :=
  next_verdict;;
  (λ w, match students w !! id with
        | Some d => (Normal (Some (updateData ∪ d)),
                     with_students (insert id (updateData ∪ d)) w)
        | None => (Normal None, w)
        end) : Async (option Doc).

(** [Student.findByIdAndDelete(id)] *)
Definition findByIdAndDelete (id : N) : Async (option Doc) :=
  λ w, match students w !! id with
       | Some d => (Normal (Some d), with_students (delete id) w)
       | None => (Normal None, w)
       end.

(** [Student.countDocuments(flt)]; [Student.countDocuments()] is the
    empty filter. *)
Definition countDocuments (flt : Doc) : Async nat :=
  λ w, (Normal (size (filter (λ kd, matches flt kd.2 = true) (students w))), w).

End Student.

Module Course.

(** [Course.countDocuments(flt)] *)
Definition countDocuments (flt : Doc) : Async nat :=
  λ w, (Normal (size (filter (λ kd, matches flt kd.2 = true) (courses w))), w).

End Course.

(** ** [getNextSequenceValue] *)

Definition INITIAL_ID_VALUE : Z := 0.

Definition getNextSequenceValue (sequenceName : string) : Async Z :=
  Counter.upsert_setOnInsert sequenceName INITIAL_ID_VALUE;;
  updatedCounter ← Counter.findByIdAndUpdate_inc sequenceName 1;
  match updatedCounter with
  | Some sequence_value => ret sequence_value
  | None =>
      throw (Js.newError "Cannot read properties of null (reading 'sequence_value')")
  end.

(** ** The routes *)

(** What [res.json] is given. *)
Inductive Json : Type :=
  | JsonError (error : string)
  | JsonMessage (message : string)
  | JsonStudent (_id : N) (student : Doc)
  | JsonStats (totalStudents activeCourses graduates : nat)
              (successRate : Js.Number).

Record Response : Type := mkResponse {
  statusCode : Z;
  body : Json
}.

(** [req.body.<name>]; a missing field reads as [undefined]. *)
Definition field (req_body : Doc) (name : string) : Js.Val :=
  default Js.Undefined (req_body !! name).

(** [<v>.trim()] for the variable called [name]: a method of strings
    only, a TypeError on any other truthy value. *)
Definition call_trim (name : string) (v : Js.Val) : Async string :=
  match v with
  | Js.Str s => ret (Js.trim s)
  | _ => throw (Js.newError (name ++ ".trim is not a function"))
  end.

(** *** POST /api/students *)

Definition MAX_RETRIES : nat := 5.

Definition required_message : string :=
  "Name, email, course, and enrollment date are required".

Definition id_exhausted_message : string :=
  "Failed to generate a unique Student ID after multiple retries.".

Definition duplicate_email_message : string :=
  "A duplicate email was found by an unexpected database index. Please restart the application to clear the index.".

(** The [catch] block inside the retry loop.  It returns (the loop goes
    on with the next [attempt]) or throws to the handler's own [catch]. *)
Definition create_catch (attempt : nat) (error : Js.Error)
    : Async (option Response) :=
  if Js.code_is error 11000 then
    if Js.keyPattern_has error "studentId" then
      if Nat.eqb attempt (MAX_RETRIES - 1)
      then throw (Js.newError id_exhausted_message)
      else ret None
    else if Js.keyPattern_has error "email" then
      throw (Js.newError duplicate_email_message)
    else ret None
  else throw error.

(** One turn of the retry loop: the [try] block and its [catch].  The
    result is [Some res] when the handler returns from inside the loop,
    [None] when the loop goes on to the next [attempt]. *)
Definition create_attempt (req_body : Doc) (attempt : nat)
    : Async (option Response) :=
  let name := field req_body "name" in
  let email := field req_body "email" in
  let course := field req_body "course" in
  let enrollmentDate := field req_body "enrollmentDate" in
  let status := field req_body "status" in
  try_catch
    (generatedStudentId ← getNextSequenceValue "studentId";
     name' ← call_trim "name" name;
     email' ← call_trim "email" email;
     course' ← call_trim "course" course;
     student ← Student.new
       (<["studentId" := Js.Num generatedStudentId]>
        (<["name" := Js.Str name']>
         (<["email" := Js.Str (Js.toLowerCase email')]>
          (<["course" := Js.Str course']>
           (<["enrollmentDate" := Js.Date enrollmentDate]>
            {["status" := Js.or status (Js.Str "Active")]})))));
     Student.save student;;
     ret (Some (mkResponse 201 (JsonStudent student.1 student.2))))
    (create_catch attempt).

(** [for (let attempt = 0; attempt < MAX_RETRIES; attempt++)], by
    recursion on the turns that are left, [MAX_RETRIES - attempt]; after
    the loop comes the handler's last [return]. *)
Fixpoint retry_loop (req_body : Doc) (turns_left attempt : nat)
    : Async Response :=
  match turns_left with
  | O => ret (mkResponse 500
                (JsonError "Internal server error during student creation."))
  | S turns_left' =>
      returned ← create_attempt req_body attempt;
      match returned with
      | Some res => ret res
      | None => retry_loop req_body turns_left' (S attempt)
      end
  end.

Definition missing_required (req_body : Doc) : bool :=
  negb (Js.truthy (field req_body "name"))
  || negb (Js.truthy (field req_body "email"))
  || negb (Js.truthy (field req_body "course"))
  || negb (Js.truthy (field req_body "enrollmentDate")).

Definition post_student (req_body : Doc) : Async Response :=
  try_catch
    (if missing_required req_body
     then ret (mkResponse 400 (JsonError required_message))
     else retry_loop req_body MAX_RETRIES 0)
    (λ error,
       if Js.includes (Js.message error) "A duplicate email was found"
       then ret (mkResponse 400 (JsonError (Js.message error)))
       else if Js.includes (Js.message error) "unique Student ID"
       then ret (mkResponse 500 (JsonError (Js.message error)))
       else ret (mkResponse 400 (JsonError (Js.message error)))).

(** *** PUT /api/students/:id *)

Definition updateData (req_body : Doc) : Async Doc :=
  name' ← call_trim "name" (field req_body "name");
  email' ← call_trim "email" (field req_body "email");
  course' ← call_trim "course" (field req_body "course");
  ret (<["name" := Js.Str name']>
       (<["email" := Js.Str (Js.toLowerCase email')]>
        (<["course" := Js.Str course']>
         (<["enrollmentDate" := Js.Date (field req_body "enrollmentDate")]>
          {["status" := Js.or (field req_body "status") (Js.Str "Active")]})))).

Definition put_student (id : N) (req_body : Doc) : Async Response :=
  try_catch
    (if missing_required req_body
     then ret (mkResponse 400 (JsonError required_message))
     else
       data ← updateData req_body;
       student ← Student.findByIdAndUpdate id data;
       match student with
       | None => ret (mkResponse 404 (JsonError "Student not found"))
       | Some d => ret (mkResponse 200 (JsonStudent id d))
       end)
    (λ error, ret (mkResponse 400 (JsonError (Js.message error)))).

(** *** DELETE /api/students/:id *)

Definition delete_student (id : N) : Async Response :=
  try_catch
    (student ← Student.findByIdAndDelete id;
     match student with
     | None => ret (mkResponse 404 (JsonError "Student not found"))
     | Some _ =>
         remainingStudents ← Student.countDocuments ∅;
         (if Nat.eqb remainingStudents 0
          then Counter.findOneAndUpdate_set "studentId" 0;; ret tt
          else ret tt);;
         ret (mkResponse 200 (JsonMessage "Student deleted successfully"))
     end)
    (λ error, ret (mkResponse 500 (JsonError (Js.message error)))).

(** *** GET /api/stats *)

Definition successRate (graduates totalStudents : nat) : Js.Number :=
  if Nat.ltb 0 totalStudents
  then Js.Math_round
         (Js.mul (Js.div (Js.of_nat graduates) (Js.of_nat totalStudents))
                 (Js.of_Z 100))
  else Js.of_Z 0.

Definition get_stats : Async Response :=
  try_catch
    (totalStudents ← Student.countDocuments ∅;
     activeCourses ← Course.countDocuments {["status" := Js.Str "Active"]};
     graduates ← Student.countDocuments {["status" := Js.Str "Inactive"]};
     ret (mkResponse 200
            (JsonStats totalStudents activeCourses graduates
                       (successRate graduates totalStudents))))
    (λ error, ret (mkResponse 500 (JsonError (Js.message error)))).

(** ** Observations and runs *)

(** The value the next allocation for [name] starts from: the stored
    [sequence_value], or the initial value when there is no counter yet. *)
Definition current_value (w : World) (name : string) : Z :=
  default INITIAL_ID_VALUE (counters w !! name).

(** What can happen to the database: the calls and requests of the
    server, and the environment queueing verdicts of the store. *)
Inductive Op : Type :=
  | CallNextId (sequenceName : string)
  | ReqPostStudent (req_body : Doc)
  | ReqPutStudent (id : N) (req_body : Doc)
  | ReqDeleteStudent (id : N)
  | ReqGetStats
  | EnvVerdicts (vs : list (option Js.Error)).

Definition exec (op : Op) (w : World) : World :=
  match op with
  | CallNextId name => (getNextSequenceValue name w).2
  | ReqPostStudent req_body => (post_student req_body w).2
  | ReqPutStudent id req_body => (put_student id req_body w).2
  | ReqDeleteStudent id => (delete_student id w).2
  | ReqGetStats => (get_stats w).2
  | EnvVerdicts vs => with_verdicts (λ _, vs) w
  end.

Fixpoint run (ops : list Op) (w : World) : World :=
  match ops with
  | [] => w
  | op :: ops' => run ops' (exec op w)
  end.

(** The one place where a counter is reset is the delete route, in the
    branch taken when the student was found and none remains
    ([remainingStudents === 0]). *)
Definition is_reset (op : Op) (w : World) : bool :=
  match op with
  | ReqDeleteStudent id =>
      match students w !! id with
      | Some _ => Nat.eqb (size (delete id (students w))) 0
      | None => false
      end
  | _ => false
  end.

Fixpoint no_reset (ops : list Op) (w : World) : bool :=
  match ops with
  | [] => true
  | op :: ops' => negb (is_reset op w) && no_reset ops' (exec op w)
  end.

(** A duplicate-key error of the store on the index of [studentId]... *)
Definition id_conflict (e : Js.Error) : bool :=
  Js.code_is e 11000 && Js.keyPattern_has e "studentId".

(** ... and one on another field. *)
Definition other_conflict (field : string) (e : Js.Error) : bool :=
  Js.code_is e 11000 && negb (Js.keyPattern_has e "studentId")
  && Js.keyPattern_has e field.

Definition is_str (v : Js.Val) : bool :=
  match v with Js.Str _ => true | _ => false end.

(** The request bodies with which the create route gets as far as
    [save]: the four required fields are there, and [name], [email] and
    [course] are strings. *)
Definition reaches_save (req_body : Doc) : bool :=
  negb (missing_required req_body)
  && is_str (field req_body "name")
  && is_str (field req_body "email")
  && is_str (field req_body "course").

(** The store accepts the next write. *)
Definition accepts_next (vs : list (option Js.Error)) : bool :=
  match vs with
  | [] | None :: _ => true
  | Some _ :: _ => false
  end.

(** The document the create route builds for the allocated id. *)
Definition new_student (req_body : Doc) (generatedStudentId : Z) : Doc :=
  <["studentId" := Js.Num generatedStudentId]>
  (<["name" := Js.Str (Js.trim (match field req_body "name" with
                                | Js.Str s => s | _ => "" end))]>
   (<["email" := Js.Str (Js.toLowerCase
                           (Js.trim (match field req_body "email" with
                                     | Js.Str s => s | _ => "" end)))]>
    (<["course" := Js.Str (Js.trim (match field req_body "course" with
                                    | Js.Str s => s | _ => "" end))]>
     (<["enrollmentDate" := Js.Date (field req_body "enrollmentDate")]>
      {["status" := Js.or (field req_body "status") (Js.Str "Active")]})))).

(** What every turn of the retry loop that gets as far as [save] does
    to the database, whatever the store answers: one id is used up, one
    verdict is consumed.  A rejected write changes nothing else. *)
Definition turn_spent (w : World) : World :=
  with_verdicts tail
    (with_counters (insert "studentId" (current_value w "studentId" + 1)) w).

(** *** A small database for the examples *)

Definition empty_world : World :=
  {| counters := ∅; students := ∅; courses := ∅; verdicts := [] |}.

Definition body_of (name email course enrollmentDate : string) : Doc :=
  <["name" := Js.Str name]>
  (<["email" := Js.Str email]>
   (<["course" := Js.Str course]>
    {["enrollmentDate" := Js.Str enrollmentDate]})).

Definition ada : Doc := body_of " Ada Lovelace" "Ada@Example.org" "Mathematics" "2024-09-01".
Definition alan : Doc := body_of "Alan Turing" "alan@example.org" "Logic " "2024-09-02".

(** The [studentId] of the student a response carries. *)
Definition studentId_of (res : Completion Response) : option Js.Val :=
  match res with
  | Normal {| body := JsonStudent _ d |} => d !! "studentId"
  | _ => None
  end.

(** The database after Ada and Alan enrolled, in that order: they are
    stored under the ids 0 and 1. *)
Definition two_students : World :=
  run [ReqPostStudent ada; ReqPostStudent alan] empty_world.

(** A duplicate-key error of the store on a stale unique index of
    [studentId]. *)
Definition studentId_index_clash : Js.Error :=
  {| Js.code := Some 11000;
     Js.keyPattern := Some {["studentId" := 1]};
     Js.message := "E11000 duplicate key error collection: students index: studentId_1" |}.

(** The response of a handler that returned; a handler that threw is
    answered by Express with 500. *)
Definition response_of (c : Completion Response) : Response :=
  match c with
  | Normal res => res
  | Throw e => mkResponse 500 (JsonError "Internal server error")
  end.

(** A duplicate-key error of the store on the index of [_id]. *)
Definition id_index_clash : Js.Error :=
  {| Js.code := Some 11000;
     Js.keyPattern := Some {["_id" := 1]};
     Js.message := "E11000 duplicate key error collection: students index: _id_" |}.

(** The fields the update route sends to the store. *)
Definition update_fields : gset string :=
  {["name"; "email"; "course"; "enrollmentDate"; "status"]}.

(** The least integer multiple of the unit that bounds a value given by
    a mantissa and the location of the rest. *)
Definition up_loc (m : Z) (l : location) : Z :=
  match l with
  | loc_Exact => m
  | loc_Inexact _ => m + 1
  end.

Definition up (mrs : shr_record) : Z :=
  up_loc (shr_m mrs) (loc_of_shr_record mrs).

(** Counters only grow from [w] to [w']: none disappears, none
    decreases. *)
Definition counters_le (w w' : World) : Prop :=
  ∀ name v, counters w !! name = Some v →
    ∃ v', counters w' !! name = Some v' ∧ v ≤ v'.

(** A computation under which counters only grow. *)
Definition keeps_counters {A} (m : Async A) : Prop :=
  ∀ w, counters_le w (m w).2.

(** The counter collection after the reset of the delete route. *)
Definition reset_counter (cs : gmap string Z) : gmap string Z :=
  match cs !! "studentId" with
  | Some _ => <["studentId" := 0]> cs
  | None => cs
  end.

(** The records of the Counter collection whose [_id] is [name]. *)
Definition records_named (name : string) (cs : gmap string Z)
    : list (string * Z) :=
  filter (λ kv : string * Z, kv.1 = name) (map_to_list cs).

(** ** The routes besides the ID allocation *)

Definition with_courses (f : gmap N Doc → gmap N Doc) (w : World) : World :=
  {| counters := counters w; students := students w;
     courses := f (courses w); verdicts := verdicts w |}.

(** [Student.findById(id)] *)
Definition Student_findById (id : N) : Async (option Doc) :=
  λ w, (Normal (students w !! id), w).

(** *** GET /api/students/:id *)

Definition get_student (id : N) : Async Response :=
  try_catch
    (student ← Student_findById id;
     match student with
     | None => ret (mkResponse 404 (JsonError "Student not found"))
     | Some d => ret (mkResponse 200 (JsonStudent id d))
     end)
    (λ error, ret (mkResponse 500 (JsonError (Js.message error)))).

(** *** POST /api/students before the student ids

    The earlier revision of the server, kept in the same source file:
    no counter, no retry, and every duplicate-key error is taken for a
    duplicate email. *)

Definition legacy_post_student (req_body : Doc) : Async Response :=
  try_catch
    (if missing_required req_body
     then ret (mkResponse 400 (JsonError required_message))
     else
       name' ← call_trim "name" (field req_body "name");
       email' ← call_trim "email" (field req_body "email");
       course' ← call_trim "course" (field req_body "course");
       student ← Student.new
         (<["name" := Js.Str name']>
          (<["email" := Js.Str (Js.toLowerCase email')]>
           (<["course" := Js.Str course']>
            (<["enrollmentDate" := Js.Date (field req_body "enrollmentDate")]>
             {["status" := Js.or (field req_body "status") (Js.Str "Active")]}))));
       Student.save student;;
       ret (mkResponse 201 (JsonStudent student.1 student.2)))
    (λ error,
       if Js.code_is error 11000
       then ret (mkResponse 400 (JsonError "Email already exists"))
       else ret (mkResponse 400 (JsonError (Js.message error)))).

(** What the routes keep true of the student ids: the counter of
    "studentId" is not negative, every numeric [studentId] of a stored
    student lies between 1 and the counter, and no two stored students
    have the same [studentId]. *)
Definition ids_in_order (w : World) : Prop :=
  0 ≤ current_value w "studentId"
  ∧ (∀ id d n, students w !! id = Some d →
       d !! "studentId" = Some (Js.Num n) →
       1 ≤ n ≤ current_value w "studentId")
  ∧ (∀ id1 id2 d1 d2 v,
       students w !! id1 = Some d1 → students w !! id2 = Some d2 →
       d1 !! "studentId" = Some v → d2 !! "studentId" = Some v →
       id1 = id2).

(** [totalStudents] of a statistics response. *)
Definition totalStudents_of (res : Completion Response) : option nat :=
  match res with
  | Normal {| body := JsonStats totalStudents _ _ _ |} => Some totalStudents
  | _ => None
  end.

(** [activeCourses] of a statistics response. *)
Definition activeCourses_of (res : Completion Response) : option nat :=
  match res with
  | Normal {| body := JsonStats _ activeCourses _ _ |} => Some activeCourses
  | _ => None
  end.

(** The status the handler's own [catch] of the create route gives to an
    error, read off its message. *)
Definition create_error_status (message : string) : Z :=
  if Js.includes message "A duplicate email was found" then 400
  else if Js.includes message "unique Student ID" then 500
  else 400.

(** What a create request may do to the database [w], as seen in the
    answer and the database [r] it leaves: courses and the other
    counters stay, the counter of "studentId" does not go down, and
    either no student changes and the answer is not 201, or the answer is
    201 with the new student, stored under an id that was free and
    carrying the last id allocated. *)
Definition create_outcome (req_body : Doc) (w : World)
    (r : Completion Response * World) : Prop :=
  courses r.2 = courses w
  ∧ (∀ name, name ≠ "studentId" → counters r.2 !! name = counters w !! name)
  ∧ current_value w "studentId" ≤ current_value r.2 "studentId"
  ∧ ((students r.2 = students w
      ∧ ∀ res, r.1 = Normal res → statusCode res ≠ 201)
     ∨ (current_value w "studentId" < current_value r.2 "studentId"
        ∧ r.1 = Normal
                  (mkResponse 201
                     (JsonStudent (fresh (dom (students w)))
                        (new_student req_body
                           (current_value r.2 "studentId"))))
        ∧ students r.2 =
          <[fresh (dom (students w)) :=
              new_student req_body (current_value r.2 "studentId")]>
            (students w))).

(** ** The id parameter of a request

    The routes above take the id as Mongoose casts it.  The handlers
    themselves pass [req.params.id], a string, and the cast is part of
    the store call: a string of 24 hexadecimal digits is an ObjectId,
    and the call throws a CastError for any other string. *)

Module ObjectId.

Definition hex_digit (c : ascii) : option N :=
  let n := N_of_ascii c in
  if ((48 <=? n) && (n <=? 57))%N then Some (n - 48)%N
  else if ((97 <=? n) && (n <=? 102))%N then Some (n - 87)%N
  else if ((65 <=? n) && (n <=? 70))%N then Some (n - 55)%N
  else None.

(** The number the digits spell, most significant first. *)
Fixpoint of_hex (acc : N) (digits : string) : option N :=
  match digits with
  | EmptyString => Some acc
  | String c digits' =>
      match hex_digit c with
      | Some d => of_hex (16 * acc + d)%N digits'
      | None => None
      end
  end.

Definition cast (value : string) : option N :=
  if Nat.eqb (String.length value) 24 then of_hex 0%N value else None.

End ObjectId.

Definition dquote : string := String (ascii_of_nat 34) EmptyString.

(** The CastError of Mongoose for the [_id] of a query on [model]; it
    has no [code]. *)
Definition CastError (value model : string) : Js.Error :=
  Js.newError
    ("Cast to ObjectId failed for value " ++ dquote ++ value ++ dquote
     ++ " (type string) at path " ++ dquote ++ "_id" ++ dquote
     ++ " for model " ++ dquote ++ model ++ dquote).

(** [Student.findByIdAndDelete(req.params.id)] *)
Definition Student_findByIdAndDelete_cast (id : string)
    : Async (option Doc) :=
  match ObjectId.cast id with
  | Some _id => Student.findByIdAndDelete _id
  | None => throw (CastError id "Student")
  end.

(** [Course.findByIdAndDelete(req.params.id)] *)
Definition Course_findByIdAndDelete_cast (id : string)
    : Async (option Doc) :=
  match ObjectId.cast id with
  | Some _id =>
      λ w, match courses w !! _id with
           | Some d => (Normal (Some d), with_courses (delete _id) w)
           | None => (Normal None, w)
           end
  | None => throw (CastError id "Course")
  end.

(** [Student.findByIdAndUpdate(req.params.id, updateData,
      { new: true, runValidators: true })] at the time [now]: the
    schema has [timestamps: true], so the update also sets
    [updatedAt]. *)
Definition Student_findByIdAndUpdate_at (now : Z) (id : string)
    (updateData : Doc) : Async (option (N * Doc)) :=
  match ObjectId.cast id with
  | Some _id =>
      student ← Student.findByIdAndUpdate _id
        (<["updatedAt" := Js.Date (Js.Num now)]> updateData);
      ret ((λ d, (_id, d)) <$> student)
  | None => throw (CastError id "Student")
  end.

(** *** DELETE /api/students/:id, from the parameter *)

Definition delete_student_route (req_params_id : string) : Async Response :=
  try_catch
    (student ← Student_findByIdAndDelete_cast req_params_id;
     match student with
     | None => ret (mkResponse 404 (JsonError "Student not found"))
     | Some _ =>
         remainingStudents ← Student.countDocuments ∅;
         (if Nat.eqb remainingStudents 0
          then Counter.findOneAndUpdate_set "studentId" 0;; ret tt
          else ret tt);;
         ret (mkResponse 200 (JsonMessage "Student deleted successfully"))
     end)
    (λ error, ret (mkResponse 500 (JsonError (Js.message error)))).

(** *** PUT /api/students/:id, from the parameter and with the time *)

Definition put_student_route (now : Z) (req_params_id : string)
    (req_body : Doc) : Async Response :=
  try_catch
    (if missing_required req_body
     then ret (mkResponse 400 (JsonError required_message))
     else
       data ← updateData req_body;
       student ← Student_findByIdAndUpdate_at now req_params_id data;
       match student with
       | None => ret (mkResponse 404 (JsonError "Student not found"))
       | Some student =>
           ret (mkResponse 200 (JsonStudent student.1 student.2))
       end)
    (λ error, ret (mkResponse 400 (JsonError (Js.message error)))).

(** *** DELETE /api/courses/:id *)

Definition delete_course_route (req_params_id : string) : Async Response :=
  try_catch
    (course ← Course_findByIdAndDelete_cast req_params_id;
     match course with
     | None => ret (mkResponse 404 (JsonError "Course not found"))
     | Some _ => ret (mkResponse 200 (JsonMessage "Course deleted successfully"))
     end)
    (λ error, ret (mkResponse 500 (JsonError (Js.message error)))).

(** The ObjectIds 0, 1 and 7 as the client sends them. *)
Definition id_0 : string := "000000000000000000000000".
Definition id_1 : string := "000000000000000000000001".
Definition id_7 : string := "000000000000000000000007".

(** ** The search box of the client *)

Section Search.

(** The string of a value of a document received as JSON, as
    [toString()] returns it and as a template literal shows it: a number
    in the notation of the engine, a string as it is.  Nothing of it is
    used but that it is a string. *)
Variable toString : Js.Val → string.

(** [new Date(v).toLocaleDateString()]: it depends on the locale of the
    browser, and it returns a string for every value. *)
Variable toLocaleDateString : Js.Val → string.

(** [s.toLowerCase()] as the browser has it: it knows Unicode, and
    outside ASCII what it does to a character depends on its
    neighbours. *)
Variable toLowerCase : string → string.

(** [student.<name>.toLowerCase().includes(searchTerm.toLowerCase())].
    [toLowerCase] is a method of strings only; reading it off
    [undefined] or [null] is a TypeError, and so is calling what another
    value has in its place. *)
Definition lower_includes (student : Doc) (name searchTerm : string)
    : Completion bool :=
  match field student name with
  | Js.Str s =>
      Normal (Js.includes (toLowerCase s) (toLowerCase searchTerm))
  | Js.Undefined =>
      Throw (Js.newError
               "Cannot read properties of undefined (reading 'toLowerCase')")
  | Js.Null =>
      Throw (Js.newError
               "Cannot read properties of null (reading 'toLowerCase')")
  | _ =>
      Throw (Js.newError ("student." ++ name ++ ".toLowerCase is not a function"))
  end.

(** The callback of [students.filter] in [filterStudents]: the four
    tests, from left to right, as far as [||] evaluates them. *)
Definition search_matches (student : Doc) (searchTerm : string)
    : Completion bool :=
  match lower_includes student "name" searchTerm with
  | Throw e => Throw e
  | Normal true => Normal true
  | Normal false =>
      match lower_includes student "email" searchTerm with
      | Throw e => Throw e
      | Normal true => Normal true
      | Normal false =>
          match lower_includes student "course" searchTerm with
          | Throw e => Throw e
          | Normal true => Normal true
          | Normal false =>
              Normal (Js.truthy (field student "studentId")
                      && Js.includes (toString (field student "studentId"))
                           searchTerm)
          end
      end
  end.

(** [filteredStudents] of [filterStudents(searchTerm)]: [filter] calls
    the callback on the students in order and stops at the first call
    that throws. *)
Fixpoint filteredStudents (students : list Doc) (searchTerm : string)
    : Completion (list Doc) :=
  match students with
  | [] => Normal []
  | student :: rest =>
      match search_matches student searchTerm with
      | Throw e => Throw e
      | Normal keep =>
          match filteredStudents rest searchTerm with
          | Throw e => Throw e
          | Normal kept => Normal (if keep then student :: kept else kept)
          end
      end
  end.

(** What [createStudentRow] puts into the holes of the row's template,
    from left to right; [name] and [_id] are used again in the
    buttons. *)
Record Row : Type := mkRow {
  row_displayId : string;
  row_name : string;
  row_course : string;
  row_enrollmentDate : string;
  row_status_class : string;
  row_status : string;
  row_id : string
}.

(** [s.substring(s.length - 8)]: a negative start counts as 0. *)
Definition last_8 (s : string) : string :=
  String.substring (String.length s - 8) 8 s.

(** [student.studentId || student._id.substring(student._id.length - 8)] *)
Definition displayId (student : Doc) : Completion Js.Val :=
  if Js.truthy (field student "studentId")
  then Normal (field student "studentId")
  else
    match field student "_id" with
    | Js.Str s => Normal (Js.Str (last_8 s))
    | Js.Undefined =>
        Throw (Js.newError
                 "Cannot read properties of undefined (reading 'substring')")
    | Js.Null =>
        Throw (Js.newError
                 "Cannot read properties of null (reading 'substring')")
    | _ => Throw (Js.newError "student._id.substring is not a function")
    end.

(** [student.status.toLowerCase()] *)
Definition status_class (student : Doc) : Completion string :=
  match field student "status" with
  | Js.Str s => Normal (toLowerCase s)
  | Js.Undefined =>
      Throw (Js.newError
               "Cannot read properties of undefined (reading 'toLowerCase')")
  | Js.Null =>
      Throw (Js.newError
               "Cannot read properties of null (reading 'toLowerCase')")
  | _ => Throw (Js.newError "student.status.toLowerCase is not a function")
  end.

Definition createStudentRow (student : Doc) : Completion Row :=
  match displayId student with
  | Throw e => Throw e
  | Normal displayId =>
      let enrollmentDate :=
        toLocaleDateString (field student "enrollmentDate") in
      match status_class student with
      | Throw e => Throw e
      | Normal class =>
          Normal {| row_displayId := toString displayId;
                    row_name := toString (field student "name");
                    row_course := toString (field student "course");
                    row_enrollmentDate := enrollmentDate;
                    row_status_class := class;
                    row_status := toString (field student "status");
                    row_id := toString (field student "_id") |}
      end
  end.

(** [filteredStudents.forEach(...)]: the rows appended to the table
    body, in order, up to the first student whose row throws. *)
Fixpoint appendRows (filteredStudents : list Doc) : Completion (list Row) :=
  match filteredStudents with
  | [] => Normal []
  | student :: rest =>
      match createStudentRow student with
      | Throw e => Throw e
      | Normal row =>
          match appendRows rest with
          | Throw e => Throw e
          | Normal rows => Normal (row :: rows)
          end
      end
  end.

(** [filterStudents(searchTerm)] on the students loaded: the rows of the
    table body afterwards.  The table body is there and is emptied
    first. *)
Definition filterStudents (students : list Doc) (searchTerm : string)
    : Completion (list Row) :=
  match filteredStudents students searchTerm with
  | Throw e => Throw e
  | Normal filtered => appendRows filtered
  end.

End Search.

(** The three fields the search reads as strings are strings. *)
Definition searchable (student : Doc) : bool :=
  is_str (field student "name")
  && is_str (field student "email")
  && is_str (field student "course").

(** A student the table can show: searchable, with a string for
    [status], and with a [studentId] or else a string for [_id]. *)
Definition displayable (student : Doc) : bool :=
  searchable student
  && is_str (field student "status")
  && (Js.truthy (field student "studentId") || is_str (field student "_id")).

(** Strings of the ASCII range. *)
Definition is_ascii (s : string) : bool :=
  forallb (λ c, Nat.ltb (nat_of_ascii c) 128) (list_ascii_of_string s).

(** What is known of the [toLowerCase] of the browser: on strings of the
    ASCII range it is [Js.toLowerCase], character by character. *)
Definition ascii_lowering (toLowerCase : string → string) : Prop :=
  ∀ s, is_ascii s = true → toLowerCase s = Js.toLowerCase s.

(** The strings of the values of the examples: numbers in decimal. *)
Definition id_toString (v : Js.Val) : string :=
  match v with
  | Js.Num n => DecimalString.NilZero.string_of_int (Z.to_int n)
  | Js.Str s => s
  | _ => "[object Object]"
  end.


(** The dates of the examples, as they are. *)
Definition id_toLocaleDateString (v : Js.Val) : string :=
  match v with
  | Js.Str s => s
  | Js.Date (Js.Str s) => s
  | _ => "Invalid Date"
  end.

(** Ada and Alan as the client receives them. *)
Definition loaded_students : list Doc :=
  [ <["_id" := Js.Str "000000000000000000000000"]>
      (<["status" := Js.Str "Active"]> (new_student ada 1));
    <["_id" := Js.Str "000000000000000000000001"]>
      (<["status" := Js.Str "Active"]> (new_student alan 2)) ].

(** ** The handlers at their awaits

    A handler runs without interruption up to its next [await], where
    it hands one call to the store; it goes on, at some later turn of
    the event loop, with what the call returned or threw.  Between the
    two, other handlers take their turns.  The routes above are these
    handlers run from start to end without another one in between. *)

Inductive Task (A : Type) : Type :=
  | Settled (c : Completion A)
  | Await {X : Type} (call : Async X) (k : Completion X → Task A).
Arguments Settled {A} c.
Arguments Await {A X} call k.

(** [await call] *)
Definition await {X} (call : Async X) : Task X := Await call Settled.

Fixpoint task_bind {A B} (t : Task A) (k : A → Task B) : Task B :=
  match t with
  | Settled (Normal a) => k a
  | Settled (Throw e) => Settled (Throw e)
  | Await call k' => Await call (λ c, task_bind (k' c) k)
  end.

(** [try { t } catch (error) { h error }] *)
Fixpoint task_try_catch {A} (t : Task A) (h : Js.Error → Task A) : Task A :=
  match t with
  | Settled (Normal a) => Settled (Normal a)
  | Settled (Throw e) => h e
  | Await call k => Await call (λ c, task_try_catch (k c) h)
  end.

#[global] Instance Task_ret : MRet Task := λ A a, Settled (Normal a).
#[global] Instance Task_bind : MBind Task := λ A B k t, task_bind t k.

Definition task_throw {A} (e : Js.Error) : Task A := Settled (Throw e).

(** A task run from where it stands to its end, with nothing in
    between. *)
Fixpoint run_task {A} (t : Task A) (w : World) : Completion A * World :=
  match t with
  | Settled c => (c, w)
  | Await call k => let r := call w in run_task (k r.1) r.2
  end.

(** A task does what an [Async] computation does when nothing comes in
    between. *)
Definition simulates {A} (t : Task A) (m : Async A) : Prop :=
  ∀ w, run_task t w = m w.

Module Tasks.

Definition getNextSequenceValue (sequenceName : string) : Task Z :=
  await (Counter.upsert_setOnInsert sequenceName INITIAL_ID_VALUE);;
  updatedCounter ← await (Counter.findByIdAndUpdate_inc sequenceName 1);
  match updatedCounter with
  | Some sequence_value => mret sequence_value
  | None =>
      task_throw
        (Js.newError "Cannot read properties of null (reading 'sequence_value')")
  end.

Definition call_trim (name : string) (v : Js.Val) : Task string :=
  match v with
  | Js.Str s => mret (Js.trim s)
  | _ => task_throw (Js.newError (name ++ ".trim is not a function"))
  end.

Definition create_catch (attempt : nat) (error : Js.Error)
    : Task (option Response) :=
  if Js.code_is error 11000 then
    if Js.keyPattern_has error "studentId" then
      if Nat.eqb attempt (MAX_RETRIES - 1)
      then task_throw (Js.newError id_exhausted_message)
      else mret None
    else if Js.keyPattern_has error "email" then
      task_throw (Js.newError duplicate_email_message)
    else mret None
  else task_throw error.

(** [new Student(fields)] and [await student.save()]: nothing comes
    between the two. *)
Definition create_attempt (req_body : Doc) (attempt : nat)
    : Task (option Response) :=
  let name := field req_body "name" in
  let email := field req_body "email" in
  let course := field req_body "course" in
  let enrollmentDate := field req_body "enrollmentDate" in
  let status := field req_body "status" in
  task_try_catch
    (generatedStudentId ← getNextSequenceValue "studentId";
     name' ← call_trim "name" name;
     email' ← call_trim "email" email;
     course' ← call_trim "course" course;
     student ← await
       (student ← Student.new
          (<["studentId" := Js.Num generatedStudentId]>
           (<["name" := Js.Str name']>
            (<["email" := Js.Str (Js.toLowerCase email')]>
             (<["course" := Js.Str course']>
              (<["enrollmentDate" := Js.Date enrollmentDate]>
               {["status" := Js.or status (Js.Str "Active")]})))));
        Student.save student;;
        ret student);
     mret (Some (mkResponse 201 (JsonStudent student.1 student.2))))
    (create_catch attempt).

Fixpoint retry_loop (req_body : Doc) (turns_left attempt : nat)
    : Task Response :=
  match turns_left with
  | O => mret (mkResponse 500
                 (JsonError "Internal server error during student creation."))
  | S turns_left' =>
      returned ← create_attempt req_body attempt;
      match returned with
      | Some res => mret res
      | None => retry_loop req_body turns_left' (S attempt)
      end
  end.

Definition post_student (req_body : Doc) : Task Response :=
  task_try_catch
    (if missing_required req_body
     then mret (mkResponse 400 (JsonError required_message))
     else retry_loop req_body MAX_RETRIES 0)
    (λ error,
       if Js.includes (Js.message error) "A duplicate email was found"
       then mret (mkResponse 400 (JsonError (Js.message error)))
       else if Js.includes (Js.message error) "unique Student ID"
       then mret (mkResponse 500 (JsonError (Js.message error)))
       else mret (mkResponse 400 (JsonError (Js.message error)))).

Definition updateData (req_body : Doc) : Task Doc :=
  name' ← call_trim "name" (field req_body "name");
  email' ← call_trim "email" (field req_body "email");
  course' ← call_trim "course" (field req_body "course");
  mret (<["name" := Js.Str name']>
        (<["email" := Js.Str (Js.toLowerCase email')]>
         (<["course" := Js.Str course']>
          (<["enrollmentDate" := Js.Date (field req_body "enrollmentDate")]>
           {["status" := Js.or (field req_body "status") (Js.Str "Active")]})))).

Definition put_student (now : Z) (req_params_id : string) (req_body : Doc)
    : Task Response :=
  task_try_catch
    (if missing_required req_body
     then mret (mkResponse 400 (JsonError required_message))
     else
       data ← updateData req_body;
       student ← await (Student_findByIdAndUpdate_at now req_params_id data);
       match student with
       | None => mret (mkResponse 404 (JsonError "Student not found"))
       | Some student =>
           mret (mkResponse 200 (JsonStudent student.1 student.2))
       end)
    (λ error, mret (mkResponse 400 (JsonError (Js.message error)))).

Definition delete_student (req_params_id : string) : Task Response :=
  task_try_catch
    (student ← await (Student_findByIdAndDelete_cast req_params_id);
     match student with
     | None => mret (mkResponse 404 (JsonError "Student not found"))
     | Some _ =>
         remainingStudents ← await (Student.countDocuments ∅);
         (if Nat.eqb remainingStudents 0
          then await (Counter.findOneAndUpdate_set "studentId" 0);; mret tt
          else mret tt);;
         mret (mkResponse 200 (JsonMessage "Student deleted successfully"))
     end)
    (λ error, mret (mkResponse 500 (JsonError (Js.message error)))).

Definition get_student (id : N) : Task Response :=
  task_try_catch
    (student ← await (Student_findById id);
     match student with
     | None => mret (mkResponse 404 (JsonError "Student not found"))
     | Some d => mret (mkResponse 200 (JsonStudent id d))
     end)
    (λ error, mret (mkResponse 500 (JsonError (Js.message error)))).

Definition get_stats : Task Response :=
  task_try_catch
    (totalStudents ← await (Student.countDocuments ∅);
     activeCourses ←
       await (Course.countDocuments {["status" := Js.Str "Active"]});
     graduates ←
       await (Student.countDocuments {["status" := Js.Str "Inactive"]});
     mret (mkResponse 200
             (JsonStats totalStudents activeCourses graduates
                        (successRate graduates totalStudents))))
    (λ error, mret (mkResponse 500 (JsonError (Js.message error)))).

Definition delete_course (req_params_id : string) : Task Response :=
  task_try_catch
    (course ← await (Course_findByIdAndDelete_cast req_params_id);
     match course with
     | None => mret (mkResponse 404 (JsonError "Course not found"))
     | Some _ =>
         mret (mkResponse 200 (JsonMessage "Course deleted successfully"))
     end)
    (λ error, mret (mkResponse 500 (JsonError (Js.message error)))).

End Tasks.

(** *** The server under overlapping requests *)

Inductive Request : Type :=
  | PostStudent (req_body : Doc)
  | PutStudent (now : Z) (req_params_id : string) (req_body : Doc)
  | DeleteStudent (req_params_id : string)
  | GetStudent (id : N)
  | GetStats
  | DeleteCourse (req_params_id : string).

Definition handler (req : Request) : Task Response :=
  match req with
  | PostStudent req_body => Tasks.post_student req_body
  | PutStudent now id req_body => Tasks.put_student now id req_body
  | DeleteStudent id => Tasks.delete_student id
  | GetStudent id => Tasks.get_student id
  | GetStats => Tasks.get_stats
  | DeleteCourse id => Tasks.delete_course id
  end.

(** The same request with nothing in between. *)
Definition route (req : Request) : Async Response :=
  match req with
  | PostStudent req_body => post_student req_body
  | PutStudent now id req_body => put_student_route now id req_body
  | DeleteStudent id => delete_student_route id
  | GetStudent id => get_student id
  | GetStats => get_stats
  | DeleteCourse id => delete_course_route id
  end.

(** The database and the requests that arrived, each where it stands:
    at an [await], or answered. *)
Record Server : Type := mkServer {
  database : World;
  requests : list (Task Response)
}.

(** What happens next: a request arrives, or the store answers the call
    of the [i]-th request and that handler runs to its next [await]. *)
Inductive Turn : Type :=
  | Arrives (req : Request)
  | Resumes (i : nat).

Definition resume {A} (t : Task A) (w : World) : Task A * World :=
  match t with
  | Settled c => (Settled c, w)
  | Await call k => let r := call w in (k r.1, r.2)
  end.

Definition turn (t : Turn) (s : Server) : Server :=
  match t with
  | Arrives req =>
      {| database := database s;
         requests := (requests s ++ [handler req])%list |}
  | Resumes i =>
      match requests s !! i with
      | Some task =>
          let r := resume task (database s) in
          {| database := r.2; requests := <[i := r.1]> (requests s) |}
      | None => s
      end
  end.

Fixpoint turns (ts : list Turn) (s : Server) : Server :=
  match ts with
  | [] => s
  | t :: ts' => turns ts' (turn t s)
  end.

Definition settled {A} (t : Task A) : bool :=
  match t with Settled _ => true | Await _ _ => false end.

(** Every request that arrived is answered. *)
Definition idle (s : Server) : bool := forallb settled (requests s).

(** No two requests overlap: a request arrives only when the earlier
    ones are answered. *)
Fixpoint one_at_a_time (ts : list Turn) (s : Server) : bool :=
  match ts with
  | [] => true
  | t :: ts' =>
      match t with Arrives _ => idle s | Resumes _ => true end
      && one_at_a_time ts' (turn t s)
  end.

(** The server starts on an empty database; [vs] are the verdicts of the
    store on the writes to come. *)
Definition start (vs : list (option Js.Error)) : Server :=
  {| database := with_verdicts (λ _, vs) empty_world; requests := [] |}.

(** A create, then the delete of that student, the last one; a second
    create comes between the count and the reset of the delete, and two
    more creates follow. *)
Definition reset_race : list Turn :=
  [ Arrives (PostStudent ada); Resumes 0; Resumes 0; Resumes 0;
    Arrives (DeleteStudent id_0); Resumes 1; Resumes 1;
    Arrives (PostStudent alan); Resumes 2; Resumes 2; Resumes 2;
    Resumes 1;
    Arrives (PostStudent ada); Resumes 3; Resumes 3; Resumes 3;
    Arrives (PostStudent alan); Resumes 4; Resumes 4; Resumes 4 ].

(** What holds of the server while requests come one at a time: at most
    one request is not answered yet, and the ids will be in order once
    it has run to its end. *)
Definition one_running (s : Server) : Prop :=
  (requests s = [] ∧ ids_in_order (database s))
  ∨ ∃ l1 t l2,
      requests s = (l1 ++ t :: l2)%list
      ∧ forallb settled l1 = true
      ∧ forallb settled l2 = true
      ∧ ids_in_order (run_task t (database s)).2.

(** *** More examples *)

(** An error of the store that is no duplicate-key error: a validation
    error of the schema. *)
Definition validation_error : Js.Error :=
  Js.newError "Student validation failed: email: Please enter a valid email".

(** A duplicate-key error of the store on the unique index of [email]. *)
Definition email_index_clash : Js.Error :=
  {| Js.code := Some 11000;
     Js.keyPattern := Some {["email" := 1]};
     Js.message := "E11000 duplicate key error collection: students index: email_1" |}.

(** A request body whose [name] is a number. *)
Definition numeric_name : Doc := <["name" := Js.Num 7]> ada.

(** The database of Ada and Alan with the two courses they enrolled in,
    one of them active. *)
Definition two_courses : World :=
  with_courses
    (λ _, <[0%N := {["title" := Js.Str "Mathematics";
                     "status" := Js.Str "Active"]} ]>
          {[1%N := {["title" := Js.Str "Logic";
                     "status" := Js.Str "Inactive"]} ]})
    two_students.

(** * Properties *)

(** ** Unfolding the monad *)

Ltac async_unfold :=
  unfold mbind, Async_bind, bind, ret, throw, try_catch in *.

Lemma bind_normal {A B} (m : Async A) (k : A → Async B) w a w' :
  m w = (Normal a, w') → (m ≫= k) w = k a w'.
Proof. intros H. async_unfold. by rewrite H. Qed.

Lemma bind_throw {A B} (m : Async A) (k : A → Async B) w e w' :
  m w = (Throw e, w') → (m ≫= k) w = (Throw e, w').
Proof. intros H. async_unfold. by rewrite H. Qed.

Lemma try_catch_normal {A} (m : Async A) h w a w' :
  m w = (Normal a, w') → try_catch m h w = (Normal a, w').
Proof. intros H. unfold try_catch. by rewrite H. Qed.

Lemma try_catch_throw {A} (m : Async A) h w e w' :
  m w = (Throw e, w') → try_catch m h w = h e w'.
Proof. intros H. unfold try_catch. by rewrite H. Qed.

(** ** The allocator *)

Lemma getNextSequenceValue_eq name w :
  getNextSequenceValue name w =
  (Normal (current_value w name + 1),
   with_counters (insert name (current_value w name + 1)) w).
Proof.
  unfold getNextSequenceValue, current_value, INITIAL_ID_VALUE.
  unfold Counter.upsert_setOnInsert, Counter.findByIdAndUpdate_inc.
  async_unfold. destruct w as [cs st co vs]; simpl.
  destruct (cs !! name) as [v|] eqn:Hv; simpl.
  - by rewrite Hv.
  - rewrite lookup_insert_eq. unfold with_counters; simpl.
    by rewrite insert_insert_eq.
Qed.

Lemma current_value_after_next name name' w :
  current_value (getNextSequenceValue name w).2 name' =
  if decide (name = name') then current_value w name + 1
  else current_value w name'.
Proof.
  rewrite getNextSequenceValue_eq. unfold current_value; simpl.
  rewrite lookup_insert. by case_decide.
Qed.

(** ** Counters only grow, except in the reset *)

Lemma counters_le_refl w : counters_le w w.
Proof. intros name v Hv. exists v. split; [done | lia]. Qed.

Lemma counters_le_trans w1 w2 w3 :
  counters_le w1 w2 → counters_le w2 w3 → counters_le w1 w3.
Proof.
  intros H12 H23 name v Hv.
  destruct (H12 name v Hv) as (v2 & Hv2 & Hle2).
  destruct (H23 name v2 Hv2) as (v3 & Hv3 & Hle3).
  exists v3. split; [done | lia].
Qed.

Lemma counters_le_same w w' : counters w' = counters w → counters_le w w'.
Proof. intros Heq name v Hv. exists v. rewrite Heq. split; [done | lia]. Qed.

Create HintDb keeps discriminated.

Lemma keeps_ret {A} (a : A) : keeps_counters (ret a).
Proof. intros w. apply counters_le_refl. Qed.

Lemma keeps_throw {A} e : keeps_counters (@throw A e).
Proof. intros w. apply counters_le_refl. Qed.

Lemma keeps_bind {A B} (m : Async A) (k : A → Async B) :
  keeps_counters m → (∀ a, keeps_counters (k a)) → keeps_counters (m ≫= k).
Proof.
  intros Hm Hk w. async_unfold. specialize (Hm w).
  destruct (m w) as [[a|e] w1]; simpl in *; [|done].
  eapply counters_le_trans; [exact Hm | apply Hk].
Qed.

Lemma keeps_try_catch {A} (m : Async A) h :
  keeps_counters m → (∀ e, keeps_counters (h e)) →
  keeps_counters (try_catch m h).
Proof.
  intros Hm Hh w. unfold try_catch. specialize (Hm w).
  destruct (m w) as [[a|e] w1]; simpl in *; [done|].
  eapply counters_le_trans; [exact Hm | apply Hh].
Qed.

Lemma keeps_if {A} (b : bool) (m1 m2 : Async A) :
  keeps_counters m1 → keeps_counters m2 →
  keeps_counters (if b then m1 else m2).
Proof. by destruct b. Qed.

Lemma keeps_upsert_setOnInsert name v :
  keeps_counters (Counter.upsert_setOnInsert name v).
Proof.
  intros w n x Hx. unfold Counter.upsert_setOnInsert.
  destruct (counters w !! name) eqn:Hn; simpl.
  - exists x. split; [done | lia].
  - exists x. split; [|lia].
    rewrite lookup_insert_ne; [done | congruence].
Qed.

Lemma keeps_findByIdAndUpdate_inc name by_ :
  0 ≤ by_ → keeps_counters (Counter.findByIdAndUpdate_inc name by_).
Proof.
  intros Hby w n x Hx. unfold Counter.findByIdAndUpdate_inc.
  destruct (counters w !! name) as [v|] eqn:Hn; simpl.
  - destruct (decide (name = n)) as [->|Hne].
    + exists (v + by_). rewrite lookup_insert_eq.
      split; [done|]. rewrite Hx in Hn. injection Hn as ->. lia.
    + exists x. rewrite lookup_insert_ne; [|done]. split; [done | lia].
  - exists x. split; [done | lia].
Qed.

Lemma keeps_next_verdict : keeps_counters next_verdict.
Proof.
  intros w. unfold next_verdict.
  destruct (verdicts w) as [|[e|] vs]; apply counters_le_same; done.
Qed.

Lemma keeps_Student_new fields : keeps_counters (Student.new fields).
Proof. intros w. apply counters_le_refl. Qed.

Lemma keeps_Student_save student : keeps_counters (Student.save student).
Proof.
  unfold Student.save. apply keeps_bind; [apply keeps_next_verdict|].
  intros _ w. by apply counters_le_same.
Qed.

Lemma keeps_Student_findByIdAndUpdate id data :
  keeps_counters (Student.findByIdAndUpdate id data).
Proof.
  unfold Student.findByIdAndUpdate.
  apply keeps_bind; [apply keeps_next_verdict|].
  intros _ w. destruct (students w !! id); by apply counters_le_same.
Qed.

Lemma keeps_Student_findByIdAndDelete id :
  keeps_counters (Student.findByIdAndDelete id).
Proof.
  intros w. unfold Student.findByIdAndDelete.
  destruct (students w !! id); by apply counters_le_same.
Qed.

Lemma keeps_Student_countDocuments flt :
  keeps_counters (Student.countDocuments flt).
Proof. intros w. apply counters_le_refl. Qed.

Lemma keeps_Course_countDocuments flt :
  keeps_counters (Course.countDocuments flt).
Proof. intros w. apply counters_le_refl. Qed.

Lemma keeps_call_trim name v : keeps_counters (call_trim name v).
Proof. destruct v; simpl; first [apply keeps_ret | apply keeps_throw]. Qed.

#[local] Hint Resolve keeps_ret keeps_throw keeps_if
  keeps_upsert_setOnInsert keeps_findByIdAndUpdate_inc keeps_next_verdict
  keeps_Student_new keeps_Student_save keeps_Student_findByIdAndUpdate
  keeps_Student_findByIdAndDelete keeps_Student_countDocuments
  keeps_Course_countDocuments keeps_call_trim : keeps.
#[local] Hint Extern 1 (_ ≤ _) => lia : keeps.

(** Walks through a handler, one bind, [try] or branch at a time. *)
Ltac keeps_step :=
  lazymatch goal with
  | |- keeps_counters (_ ≫= _) => apply keeps_bind; [|intros ?]
  | |- keeps_counters (try_catch _ _) => apply keeps_try_catch; [|intros ?]
  | |- keeps_counters (match ?x with _ => _ end) => destruct x
  | |- _ => solve [eauto with keeps]
  end.

Lemma keeps_getNextSequenceValue name :
  keeps_counters (getNextSequenceValue name).
Proof. unfold getNextSequenceValue. repeat keeps_step. Qed.

Lemma keeps_create_attempt req_body attempt :
  keeps_counters (create_attempt req_body attempt).
Proof.
  unfold create_attempt, create_catch.
  pose proof keeps_getNextSequenceValue. repeat keeps_step.
Qed.

Lemma keeps_retry_loop req_body turns_left attempt :
  keeps_counters (retry_loop req_body turns_left attempt).
Proof.
  revert attempt. induction turns_left as [|n IH]; intros attempt; simpl.
  - apply keeps_ret.
  - pose proof keeps_create_attempt. repeat keeps_step.
Qed.

Lemma keeps_post_student req_body : keeps_counters (post_student req_body).
Proof.
  unfold post_student. pose proof keeps_retry_loop. repeat keeps_step.
Qed.

Lemma keeps_put_student id req_body :
  keeps_counters (put_student id req_body).
Proof. unfold put_student, updateData. repeat keeps_step. Qed.

Lemma keeps_get_stats : keeps_counters get_stats.
Proof. unfold get_stats. repeat keeps_step. Qed.

(** ** The delete route *)

Lemma matches_empty d : matches ∅ d = true.
Proof. unfold matches. apply bool_decide_eq_true, map_empty_subseteq. Qed.

Lemma count_all (m : gmap N Doc) :
  size (filter (λ kd : N * Doc, matches ∅ kd.2 = true) m) = size m.
Proof.
  f_equal. apply map_filter_id. intros i d _. apply matches_empty.
Qed.

Lemma delete_student_eq id w :
  delete_student id w =
  match students w !! id with
  | None => (Normal (mkResponse 404 (JsonError "Student not found")), w)
  | Some _ =>
      (Normal (mkResponse 200 (JsonMessage "Student deleted successfully")),
       if Nat.eqb (size (delete id (students w))) 0
       then with_counters reset_counter (with_students (delete id) w)
       else with_students (delete id) w)
  end.
Proof.
  unfold delete_student, Student.findByIdAndDelete, Student.countDocuments,
    Counter.findOneAndUpdate_set, reset_counter.
  async_unfold. destruct w as [cs st co vs]; simpl.
  destruct (st !! id) as [d|] eqn:Hd; simpl; [|done].
  rewrite count_all.
  destruct (Nat.eqb (size (delete id st)) 0); simpl; [|done].
  unfold with_counters; simpl. by destruct (cs !! "studentId").
Qed.

Lemma reset_counter_lookup cs name :
  reset_counter cs !! name =
  if decide (name = "studentId") then (λ _, 0) <$> cs !! name
  else cs !! name.
Proof.
  unfold reset_counter. case_decide as Hn.
  - subst name. destruct (cs !! "studentId") as [v|] eqn:Hv; simpl.
    + by rewrite lookup_insert_eq.
    + by rewrite Hv.
  - destruct (cs !! "studentId"); [|done].
    by rewrite lookup_insert_ne.
Qed.

(** C6: a delete request for a stored student succeeds (200) and removes
    that student.  When no student remains, the counter of "studentId" is
    set to 0 (a counter that was never created stays absent, and then the
    baseline 0 is the value the allocator starts from all the same) and
    no other counter changes; when a student remains, the counter
    collection is unchanged. *)
Theorem delete_resets_counter_iff_last id w d :
  students w !! id = Some d →
  ∃ w',
    delete_student id w =
    (Normal (mkResponse 200 (JsonMessage "Student deleted successfully")), w')
    ∧ students w' = delete id (students w)
    ∧ (students w' = ∅ →
         counters w' !! "studentId" = (λ _, 0) <$> counters w !! "studentId"
         ∧ current_value w' "studentId" = 0
         ∧ ∀ name, name ≠ "studentId" →
             counters w' !! name = counters w !! name)
    ∧ (students w' ≠ ∅ → counters w' = counters w).
Proof.
  intros Hd. rewrite delete_student_eq, Hd.
  destruct (Nat.eqb (size (delete id (students w))) 0) eqn:Hsz.
  - eexists. split; [reflexivity|]. simpl. split; [done|].
    apply Nat.eqb_eq, map_size_empty_iff in Hsz. split.
    + intros _. unfold current_value. simpl.
      rewrite !reset_counter_lookup. rewrite decide_True by done.
      split; [done|]. split.
      * by destruct (counters w !! "studentId").
      * intros name Hne. rewrite reset_counter_lookup.
        by rewrite decide_False.
    + intros Hne. by destruct Hne.
  - eexists. split; [reflexivity|]. simpl. split; [done|].
    apply Nat.eqb_neq in Hsz. split; [|done].
    intros Hempty. rewrite Hempty in Hsz. by rewrite map_size_empty in Hsz.
Qed.

(** ** Monotonicity of the allocator *)

(** [is_reset] says when the delete route resets: then, and only then,
    can the counter of "studentId" go down, to 0. *)
Lemma is_reset_resets op w :
  is_reset op w = true →
  counters (exec op w) = reset_counter (counters w).
Proof.
  destruct op as [name|req_body|id req_body|id| |vs]; simpl; try discriminate.
  rewrite delete_student_eq.
  destruct (students w !! id); [|discriminate].
  by intros ->.
Qed.

Lemma exec_counters_le op w : is_reset op w = false → counters_le w (exec op w).
Proof.
  destruct op as [name|req_body|id req_body|id| |vs]; simpl; intros Hreset.
  - apply keeps_getNextSequenceValue.
  - apply keeps_post_student.
  - apply keeps_put_student.
  - rewrite delete_student_eq.
    destruct (students w !! id); [|apply counters_le_refl].
    rewrite Hreset. by apply counters_le_same.
  - apply keeps_get_stats.
  - by apply counters_le_same.
Qed.

Lemma run_counters_le ops w : no_reset ops w = true → counters_le w (run ops w).
Proof.
  revert w. induction ops as [|op ops IH]; intros w; simpl.
  - intros _. apply counters_le_refl.
  - intros [Hop Hops]%andb_true_iff. apply negb_true_iff in Hop.
    eapply counters_le_trans; [by apply exec_counters_le | by apply IH].
Qed.

(** C3: [getNextSequenceValue] always returns, and for every sequence
    name a later call returns a strictly larger integer than an earlier
    one, whatever calls and requests ran in between, as long as none of
    them reset the counter; so no value is handed out twice. *)
Theorem nextId_strictly_increasing name ops w :
  no_reset ops (getNextSequenceValue name w).2 = true →
  ∃ v1 w1 v2 w2,
    getNextSequenceValue name w = (Normal v1, w1)
    ∧ getNextSequenceValue name (run ops w1) = (Normal v2, w2)
    ∧ v1 < v2 ∧ v1 ≠ v2.
Proof.
  intros Hops. rewrite getNextSequenceValue_eq in Hops. simpl in Hops.
  set (v1 := current_value w name + 1) in *.
  set (w1 := with_counters (insert name v1) w) in *.
  apply run_counters_le in Hops.
  destruct (Hops name v1) as (v' & Hv' & Hle).
  { simpl. apply lookup_insert_eq. }
  exists v1, w1. do 2 eexists.
  split; [apply getNextSequenceValue_eq|].
  split; [apply getNextSequenceValue_eq|].
  replace (current_value (run ops w1) name) with v'
    by (unfold current_value; by rewrite Hv').
  lia.
Qed.

(** ** Initialization and reset of a sequence *)

Lemma no_record_without_key {V} (l : list (string * V)) k :
  k ∉ l.*1 → filter (λ kv : string * V, kv.1 = k) l = [].
Proof.
  induction l as [|[k' v'] l IH]; simpl; intros Hk; [done|].
  apply not_elem_of_cons in Hk as [Hne Hk].
  rewrite filter_cons_False by (simpl; congruence). by apply IH.
Qed.

Lemma one_record_per_key {V} (l : list (string * V)) k v :
  NoDup l.*1 → (k, v) ∈ l →
  length (filter (λ kv : string * V, kv.1 = k) l) = 1%nat.
Proof.
  induction l as [|[k' v'] l IH]; simpl; intros Hnd Hin.
  - by apply elem_of_nil in Hin.
  - pose proof (NoDup_cons_1_1 _ _ Hnd) as Hk'.
    apply NoDup_cons_1_2 in Hnd.
    destruct (decide (k' = k)) as [->|Hne].
    + rewrite filter_cons_True by done. simpl.
      by rewrite no_record_without_key.
    + rewrite filter_cons_False by done.
      apply elem_of_cons in Hin as [Heq|Hin]; [congruence|].
      by apply IH.
Qed.

(** C7: the initialization step of [getNextSequenceValue] (the upsert
    with [$setOnInsert]) always succeeds; afterwards there is exactly one
    counter record with that name, holding the value it held before when
    it existed and 0 when it was created; no other counter changes; an
    existing counter means the step changes nothing at all; and running
    the step a second time changes nothing. *)
Theorem initialization_idempotent name w :
  let init := Counter.upsert_setOnInsert name INITIAL_ID_VALUE in
  ∃ w',
    init w = (Normal tt, w')
    ∧ length (records_named name (counters w')) = 1%nat
    ∧ (∀ v, counters w !! name = Some v →
         w' = w ∧ records_named name (counters w') = [(name, v)])
    ∧ (counters w !! name = None →
         counters w' = <[name := 0]> (counters w)
         ∧ records_named name (counters w') = [(name, 0)])
    ∧ (∀ name', name' ≠ name → counters w' !! name' = counters w !! name')
    ∧ init w' = (Normal tt, w').
Proof.
  assert (Hone : ∀ cs v, cs !! name = Some v →
                   records_named name cs = [(name, v)]).
  { intros cs v Hv. unfold records_named.
    pose proof (one_record_per_key (map_to_list cs) name v
                  (NoDup_fst_map_to_list cs)) as Hlen.
    specialize (Hlen ltac:(by apply elem_of_map_to_list)).
    assert (Hin : (name, v) ∈ filter (λ kv : string * Z, kv.1 = name)
                                    (map_to_list cs)).
    { apply list_elem_of_filter. split; [done|].
      by apply elem_of_map_to_list. }
    destruct (filter _ (map_to_list cs)) as [|r [|r' l]]; simpl in Hlen;
      try discriminate.
    apply list_elem_of_singleton in Hin. by subst r. }
  simpl. unfold Counter.upsert_setOnInsert, INITIAL_ID_VALUE.
  destruct (counters w !! name) as [v|] eqn:Hv.
  - exists w. rewrite Hv. split; [done|].
    split; [by rewrite (Hone _ v)|].
    split; [intros v' [= <-]; split; [done | by apply Hone]|].
    split; [done|]. by split.
  - eexists. split; [reflexivity|]. simpl.
    rewrite lookup_insert_eq.
    split; [by rewrite (Hone _ 0); [|apply lookup_insert_eq]|].
    split; [done|].
    split; [intros _; split; [done | apply Hone, lookup_insert_eq]|].
    split; [|done].
    intros name' Hne. by rewrite lookup_insert_ne.
Qed.

(** C4: the first allocation after a reset to 0 returns 1.  In detail:
    a counter holding 0 yields 1; so does any counter after the reset
    update the delete route issues; a sequence that was never
    initialized yields 1 and then 2; after a delete that leaves no
    student the next "studentId" is 1; and the scenario of the
    specification runs as told: two students get 1 and 2, deleting the
    first leaves the counter at 2, deleting the second resets it, and the
    next student gets 1 again. *)
Theorem first_id_after_reset_is_1 :
  (∀ name w, counters w !! name = Some 0 →
     (getNextSequenceValue name w).1 = Normal 1)
  ∧ (∀ name w,
       (getNextSequenceValue name
          (Counter.findOneAndUpdate_set name 0 w).2).1 = Normal 1)
  ∧ (∀ name w, counters w !! name = None →
       ∃ w1 w2, getNextSequenceValue name w = (Normal 1, w1)
                ∧ getNextSequenceValue name w1 = (Normal 2, w2))
  ∧ (∀ id w d, students w !! id = Some d → delete id (students w) = ∅ →
       (getNextSequenceValue "studentId" (delete_student id w).2).1
       = Normal 1)
  ∧ (studentId_of (post_student ada empty_world).1 = Some (Js.Num 1)
     ∧ studentId_of
         (post_student alan (exec (ReqPostStudent ada) empty_world)).1
       = Some (Js.Num 2)
     ∧ dom (students two_students) = {[0%N; 1%N]}
     ∧ counters (exec (ReqDeleteStudent 0) two_students) !! "studentId"
       = Some 2
     ∧ counters (run [ReqDeleteStudent 0; ReqDeleteStudent 1] two_students)
         !! "studentId" = Some 0
     ∧ studentId_of
         (post_student ada
            (run [ReqDeleteStudent 0; ReqDeleteStudent 1] two_students)).1
       = Some (Js.Num 1)).
Proof.
  assert (Hzero : ∀ name w, current_value w name = 0 →
                    (getNextSequenceValue name w).1 = Normal 1).
  { intros name w Hcur. rewrite getNextSequenceValue_eq. simpl.
    by rewrite Hcur. }
  split; [|split; [|split; [|split]]].
  - intros name w Hv. apply Hzero. unfold current_value. by rewrite Hv.
  - intros name w. apply Hzero.
    unfold Counter.findOneAndUpdate_set, current_value.
    destruct (counters w !! name) as [v|] eqn:Hv; simpl.
    + by rewrite lookup_insert_eq.
    + by rewrite Hv.
  - intros name w Hv. do 2 eexists.
    rewrite !getNextSequenceValue_eq. unfold current_value at 1 2.
    rewrite Hv. simpl. split; [reflexivity|].
    unfold current_value. simpl. by rewrite lookup_insert_eq.
  - intros id w d Hd Hempty.
    rewrite delete_student_eq, Hd, Hempty, map_size_empty. simpl.
    apply Hzero. unfold current_value. simpl.
    rewrite reset_counter_lookup, decide_True by done.
    by destruct (counters w !! "studentId").
  - repeat split; vm_compute; reflexivity.
Qed.

(** ** The create route *)

Lemma reaches_save_fields req_body :
  reaches_save req_body = true →
  missing_required req_body = false
  ∧ ∃ name email course,
      field req_body "name" = Js.Str name
      ∧ field req_body "email" = Js.Str email
      ∧ field req_body "course" = Js.Str course.
Proof.
  unfold reaches_save, is_str.
  intros [[[Hreq Hn]%andb_true_iff He]%andb_true_iff Hc]%andb_true_iff.
  split; [by apply negb_true_iff|].
  destruct (field req_body "name") as [| | | |name| |]; try discriminate.
  destruct (field req_body "email") as [| | | |email| |]; try discriminate.
  destruct (field req_body "course") as [| | | |course| |]; try discriminate.
  by exists name, email, course.
Qed.

(** A turn whose write the store rejects: the id is used up, nothing is
    stored, and the [catch] block decides. *)
Lemma create_attempt_rejected req_body attempt w e vs :
  reaches_save req_body = true →
  verdicts w = Some e :: vs →
  create_attempt req_body attempt w =
  create_catch attempt e (turn_spent w).
Proof.
  intros (_ & name & email & course & Hn & He & Hc)%reaches_save_fields Hvs.
  unfold create_attempt. rewrite Hn, He, Hc.
  apply try_catch_throw.
  erewrite bind_normal by apply getNextSequenceValue_eq.
  unfold call_trim, Student.new, Student.save, next_verdict.
  async_unfold. destruct w as [cs st co vs0]; simpl in *. by subst vs0.
Qed.

(** A turn whose write the store accepts: the student is stored under a
    new id and the handler returns 201 with it. *)
Lemma create_attempt_accepted req_body attempt w :
  reaches_save req_body = true →
  accepts_next (verdicts w) = true →
  create_attempt req_body attempt w =
  let _id := fresh (dom (students w)) in
  let student := new_student req_body (current_value w "studentId" + 1) in
  (Normal (Some (mkResponse 201 (JsonStudent _id student))),
   with_students (insert _id student) (turn_spent w)).
Proof.
  intros (_ & name & email & course & Hn & He & Hc)%reaches_save_fields Hvs.
  unfold create_attempt, new_student. rewrite Hn, He, Hc.
  apply try_catch_normal.
  erewrite bind_normal by apply getNextSequenceValue_eq.
  unfold call_trim, Student.new, Student.save, next_verdict.
  async_unfold. destruct w as [cs st co vs0]; simpl in *.
  by destruct vs0 as [|[e|] vs0].
Qed.

Lemma turns_spent_students k w :
  students (Nat.iter k turn_spent w) = students w.
Proof. induction k as [|k IH]; simpl; [done | exact IH]. Qed.

Lemma turns_spent_courses k w :
  courses (Nat.iter k turn_spent w) = courses w.
Proof. induction k as [|k IH]; simpl; [done | exact IH]. Qed.

Lemma drop_S_tail {A} k (l : list A) : drop (S k) l = tail (drop k l).
Proof. revert k. induction l as [|x l IH]; intros [|k]; simpl; done. Qed.

Lemma turns_spent_verdicts k w :
  verdicts (Nat.iter k turn_spent w) = drop k (verdicts w).
Proof.
  induction k as [|k IH]; simpl; [by rewrite drop_0|].
  by rewrite IH, <- drop_S_tail.
Qed.

Lemma turn_spent_counters w :
  counters (turn_spent w) =
  <["studentId" := current_value w "studentId" + 1]> (counters w).
Proof. reflexivity. Qed.

Lemma turns_spent_counters k w :
  counters (Nat.iter (S k) turn_spent w) =
  <["studentId" := current_value w "studentId" + Z.of_nat (S k)]> (counters w).
Proof.
  induction k as [|k IH].
  - apply turn_spent_counters.
  - rewrite Nat.iter_succ, turn_spent_counters.
    unfold current_value at 1. rewrite IH, lookup_insert_eq. simpl default.
    rewrite insert_insert_eq. f_equal. lia.
Qed.

(** The turns whose writes collide on [studentId], short of the last
    turn of the loop: each goes on to the next. *)
Lemma retry_loop_collisions req_body errs :
  reaches_save req_body = true →
  ∀ turns_left attempt w rest,
    Forall (λ e, id_conflict e = true) errs →
    verdicts w = ((Some <$> errs) ++ rest)%list →
    (length errs ≤ turns_left)%nat →
    (attempt + length errs ≤ MAX_RETRIES - 1)%nat →
    retry_loop req_body turns_left attempt w =
    retry_loop req_body (turns_left - length errs) (attempt + length errs)
      (Nat.iter (length errs) turn_spent w).
Proof.
  intros Hreq. induction errs as [|e errs IH];
    intros turns_left attempt w rest Herrs Hvs Hturns Hlast.
  - simpl. by rewrite Nat.sub_0_r, Nat.add_0_r.
  - apply Forall_cons_1 in Herrs as [He Herrs]. simpl in Hvs, Hturns, Hlast.
    destruct turns_left as [|turns_left]; [lia|].
    cbn [retry_loop].
    erewrite bind_normal; cycle 1.
    { rewrite (create_attempt_rejected _ _ _ e ((Some <$> errs) ++ rest)%list)
        by done.
      unfold create_catch, id_conflict in *.
      apply andb_true_iff in He as [-> ->].
      replace (Nat.eqb attempt (MAX_RETRIES - 1)) with false
        by (symmetry; apply Nat.eqb_neq; unfold MAX_RETRIES in *; lia).
      reflexivity. }
    cbv beta iota.
    rewrite (IH turns_left (S attempt) (turn_spent w) rest);
      [|done| |simpl; lia|unfold MAX_RETRIES in *; lia].
    + simpl length. rewrite Nat.sub_succ, Nat.add_succ_r.
      by rewrite Nat.iter_succ_r.
    + unfold turn_spent. simpl. by rewrite Hvs.
Qed.

Lemma post_student_valid req_body w :
  reaches_save req_body = true →
  post_student req_body w =
  try_catch (retry_loop req_body MAX_RETRIES 0)
    (λ error,
       if Js.includes (Js.message error) "A duplicate email was found"
       then ret (mkResponse 400 (JsonError (Js.message error)))
       else if Js.includes (Js.message error) "unique Student ID"
       then ret (mkResponse 500 (JsonError (Js.message error)))
       else ret (mkResponse 400 (JsonError (Js.message error)))) w.
Proof.
  intros [Hreq _]%reaches_save_fields. unfold post_student.
  by rewrite Hreq.
Qed.

(** C1: when the store rejects all five writes of a create request with
    a duplicate-key error on [studentId], the retry loop throws the
    error "Failed to generate a unique Student ID after multiple
    retries.", the response is 500 with that message, and no student is
    stored: the student collection is what it was.  The five ids are
    used up. *)
Theorem create_exhausted req_body w errs rest :
  reaches_save req_body = true →
  length errs = MAX_RETRIES →
  Forall (λ e, id_conflict e = true) errs →
  verdicts w = ((Some <$> errs) ++ rest)%list →
  ∃ w',
    retry_loop req_body MAX_RETRIES 0 w =
      (Throw (Js.newError id_exhausted_message), w')
    ∧ post_student req_body w =
      (Normal (mkResponse 500 (JsonError id_exhausted_message)), w')
    ∧ students w' = students w
    ∧ courses w' = courses w
    ∧ verdicts w' = rest
    ∧ counters w' =
      <["studentId" := current_value w "studentId" + 5]> (counters w).
Proof.
  intros Hreq Hlen Herrs Hvs.
  destruct errs as [|e1 [|e2 [|e3 [|e4 [|e5 [|? ?]]]]]]; try discriminate.
  clear Hlen.
  assert (Hfirst : Forall (λ e, id_conflict e = true) [e1; e2; e3; e4]).
  { by repeat (apply Forall_cons_1 in Herrs as [? Herrs]);
      repeat constructor. }
  assert (He5 : id_conflict e5 = true).
  { by repeat (apply Forall_cons_1 in Herrs as [? Herrs]). }
  pose proof (retry_loop_collisions req_body [e1; e2; e3; e4] Hreq
                MAX_RETRIES 0%nat w (Some e5 :: rest) Hfirst Hvs) as Hloop.
  simpl length in Hloop. unfold MAX_RETRIES in Hloop at 1 2 3.
  specialize (Hloop ltac:(lia) ltac:(lia)).
  set (w4 := Nat.iter 4 turn_spent w) in *.
  assert (Hvs4 : verdicts w4 = Some e5 :: rest).
  { unfold w4. by rewrite turns_spent_verdicts, Hvs. }
  assert (Hthrow : retry_loop req_body MAX_RETRIES 0 w =
                   (Throw (Js.newError id_exhausted_message),
                    turn_spent w4)).
  { unfold MAX_RETRIES at 1. rewrite Hloop. simpl Nat.sub. simpl Nat.add.
    cbn [retry_loop]. apply bind_throw.
    rewrite (create_attempt_rejected _ _ _ e5 rest) by done.
    unfold create_catch, id_conflict in *.
    apply andb_true_iff in He5 as [-> ->]. reflexivity. }
  exists (turn_spent w4). split; [exact Hthrow|].
  split.
  { rewrite post_student_valid by done.
    erewrite try_catch_throw by exact Hthrow. reflexivity. }
  change (turn_spent w4) with (Nat.iter 5 turn_spent w).
  rewrite turns_spent_students, turns_spent_courses,
    turns_spent_verdicts, turns_spent_counters, Hvs.
  done.
Qed.

(** C5: for every [k < 5], when the store rejects the first [k] writes
    of a create request with a duplicate-key error on [studentId] and
    accepts the next one, the response is 201 with the stored student:
    the student built from the request with the [k+1]-th id allocated,
    stored under an id that was free.  Nothing is thrown, and no other
    student changes. *)
Theorem create_retry_transparent req_body w errs rest :
  reaches_save req_body = true →
  (length errs < MAX_RETRIES)%nat →
  Forall (λ e, id_conflict e = true) errs →
  verdicts w = ((Some <$> errs) ++ rest)%list →
  accepts_next rest = true →
  let generatedStudentId :=
    current_value w "studentId" + Z.of_nat (length errs) + 1 in
  let _id := fresh (dom (students w)) in
  let student := new_student req_body generatedStudentId in
  ∃ w',
    post_student req_body w =
      (Normal (mkResponse 201 (JsonStudent _id student)), w')
    ∧ students w !! _id = None
    ∧ students w' = <[_id := student]> (students w)
    ∧ student !! "studentId" = Some (Js.Num generatedStudentId)
    ∧ courses w' = courses w
    ∧ verdicts w' = tail rest
    ∧ counters w' = <["studentId" := generatedStudentId]> (counters w).
Proof.
  intros Hreq Hlen Herrs Hvs Hrest. simpl.
  pose proof (retry_loop_collisions req_body errs Hreq
                MAX_RETRIES 0%nat w rest Herrs Hvs) as Hloop.
  specialize (Hloop ltac:(lia) ltac:(unfold MAX_RETRIES in *; lia)).
  set (k := length errs) in *.
  set (wk := Nat.iter k turn_spent w) in *.
  assert (Hvsk : verdicts wk = rest).
  { unfold wk, k. rewrite turns_spent_verdicts, Hvs.
    rewrite drop_app_length'; [done | by rewrite length_fmap]. }
  assert (Hcur : current_value wk "studentId" =
                 current_value w "studentId" + Z.of_nat k).
  { unfold wk. destruct k as [|k']; [simpl; lia|].
    unfold current_value at 1.
    by rewrite turns_spent_counters, lookup_insert_eq. }
  destruct (MAX_RETRIES - k)%nat as [|turns] eqn:Hturns; [lia|].
  eexists. split.
  { rewrite post_student_valid by done.
    apply try_catch_normal. rewrite Hloop. cbn [retry_loop].
    erewrite bind_normal; cycle 1.
    { apply create_attempt_accepted; [done | by rewrite Hvsk]. }
    cbv beta iota zeta. unfold ret.
    rewrite Hcur. unfold wk. rewrite turns_spent_students.
    reflexivity. }
  cbn [students courses verdicts counters with_students].
  change (turn_spent (Nat.iter k turn_spent w))
    with (Nat.iter (S k) turn_spent w).
  rewrite turns_spent_students, turns_spent_courses,
    turns_spent_verdicts, turns_spent_counters, Hvs.
  split.
  { apply not_elem_of_dom, is_fresh. }
  split; [done|]. split; [apply lookup_insert_eq|]. split; [done|].
  split.
  - rewrite drop_S_tail, drop_app_length'; [done|].
    by rewrite length_fmap.
  - f_equal. lia.
Qed.

(** What the [catch] block does with a duplicate-key error that names
    neither [studentId] nor [email]: the loop goes on. *)
Lemma create_attempt_other_field req_body attempt w e vs :
  reaches_save req_body = true →
  verdicts w = Some e :: vs →
  Js.code_is e 11000 = true →
  Js.keyPattern_has e "studentId" = false →
  Js.keyPattern_has e "email" = false →
  create_attempt req_body attempt w = (Normal None, turn_spent w).
Proof.
  intros Hreq Hvs Hcode Hid Hemail.
  rewrite (create_attempt_rejected _ _ _ e vs) by done.
  unfold create_catch. by rewrite Hcode, Hid, Hemail.
Qed.

(** A duplicate-key error on [email] at the first write ends the request
    at once: 400 with the message about the stale index, one id used
    up, nothing stored, no further write. *)
Lemma create_email_conflict_aborts req_body w e vs :
  reaches_save req_body = true →
  verdicts w = Some e :: vs →
  other_conflict "email" e = true →
  post_student req_body w =
  (Normal (mkResponse 400 (JsonError duplicate_email_message)),
   turn_spent w).
Proof.
  intros Hreq Hvs [[Hcode Hid%negb_true_iff]%andb_true_iff Hemail]%andb_true_iff.
  assert (Hthrow : retry_loop req_body MAX_RETRIES 0 w =
                   (Throw (Js.newError duplicate_email_message),
                    turn_spent w)).
  { unfold MAX_RETRIES. cbn [retry_loop]. apply bind_throw.
    rewrite (create_attempt_rejected _ _ _ e vs) by done.
    unfold create_catch. by rewrite Hcode, Hid, Hemail. }
  rewrite post_student_valid by done.
  erewrite try_catch_throw by exact Hthrow. reflexivity.
Qed.

(** C2, on the code: a duplicate-key error on a field that is neither
    [studentId] nor [email] (here the index of [_id]) does not end the
    request.  After one such error the route allocates a second id,
    writes again and answers 201; after five of them it answers 500 from
    the line after the loop, with five ids used up. *)
Theorem other_field_conflict_is_retried :
  other_conflict "_id" id_index_clash = true
  ∧ (let w := with_verdicts (λ _, [Some id_index_clash]) empty_world in
     statusCode <$> (match (post_student ada w).1 with
                     | Normal res => Some res | Throw _ => None end)
       = Some 201
     ∧ studentId_of (post_student ada w).1 = Some (Js.Num 2)
     ∧ counters (post_student ada w).2 !! "studentId" = Some 2
     ∧ size (students (post_student ada w).2) = 1%nat
     ∧ verdicts (post_student ada w).2 = [])
  ∧ (let w := with_verdicts (λ _, replicate 5 (Some id_index_clash))
                empty_world in
     (post_student ada w).1 =
       Normal (mkResponse 500
                 (JsonError "Internal server error during student creation."))
     ∧ counters (post_student ada w).2 !! "studentId" = Some 5
     ∧ students (post_student ada w).2 = ∅).
Proof.
  split; [reflexivity|]. split.
  - cbv zeta. repeat split; vm_compute; reflexivity.
  - cbv zeta. repeat split; vm_compute; reflexivity.
Qed.

(** ** The update route *)

Lemma updateData_dom req_body w data w' :
  updateData req_body w = (Normal data, w') →
  w' = w ∧ dom data = update_fields.
Proof.
  unfold updateData, call_trim. async_unfold.
  destruct (field req_body "name"); try discriminate.
  destruct (field req_body "email"); try discriminate.
  destruct (field req_body "course"); try discriminate.
  intros [= <- <-]. split; [done|].
  rewrite !dom_insert_L, dom_singleton_L. unfold update_fields.
  set_solver.
Qed.

(** C9: when an update request is answered with 200, the student was
    stored, the payload sent to the store has exactly the fields [name],
    [email], [course], [enrollmentDate] and [status], the stored student
    is the old one with these fields overwritten, and so its [studentId]
    is what it was (present or absent); no counter changes either. *)
Theorem update_keeps_studentId id req_body w res w' :
  put_student id req_body w = (Normal res, w') →
  statusCode res = 200 →
  ∃ d data,
    students w !! id = Some d
    ∧ (updateData req_body w).1 = Normal data
    ∧ dom data = update_fields
    ∧ ("studentId" ∉ dom data)
    ∧ body res = JsonStudent id (data ∪ d)
    ∧ students w' = <[id := data ∪ d]> (students w)
    ∧ (data ∪ d) !! "studentId" = d !! "studentId"
    ∧ counters w' = counters w.
Proof.
  unfold put_student, try_catch.
  destruct (missing_required req_body); [by intros [= <- <-]|].
  unfold mbind at 1, Async_bind, bind.
  destruct (updateData req_body w) as [[data|e] w1] eqn:Hdata;
    [|by intros [= <- <-]].
  apply updateData_dom in Hdata as [-> Hdom].
  assert (Hnot : "studentId" ∉ dom data).
  { rewrite Hdom. unfold update_fields.
    rewrite !elem_of_union, !elem_of_singleton. intros H.
    repeat (destruct H as [H|H]); discriminate. }
  unfold Student.findByIdAndUpdate, next_verdict. async_unfold.
  destruct w as [cs st co vs]; simpl.
  destruct vs as [|[e|] vs]; simpl; try (by intros [= <- <-]).
  - destruct (st !! id) as [d|] eqn:Hd; simpl; [|by intros [= <- <-]].
    intros [= <- <-] _. exists d, data.
    repeat split; try done.
    apply lookup_union_r. by apply not_elem_of_dom.
  - destruct (st !! id) as [d|] eqn:Hd; simpl; [|by intros [= <- <-]].
    intros [= <- <-] _. exists d, data.
    repeat split; try done.
    apply lookup_union_r. by apply not_elem_of_dom.
Qed.

(** ** The dashboard statistics *)

Lemma digits2_pos_bounds p :
  2 ^ (Z.pos (digits2_pos p) - 1) ≤ Z.pos p < 2 ^ Z.pos (digits2_pos p).
Proof.
  induction p as [p IH|p IH|]; simpl digits2_pos.
  - rewrite Pos2Z.inj_succ, Z.pow_succ_r by lia.
    replace (Z.succ (Z.pos (digits2_pos p)) - 1)
      with (Z.succ (Z.pos (digits2_pos p) - 1)) by lia.
    rewrite Z.pow_succ_r by lia. lia.
  - rewrite Pos2Z.inj_succ, Z.pow_succ_r by lia.
    replace (Z.succ (Z.pos (digits2_pos p)) - 1)
      with (Z.succ (Z.pos (digits2_pos p) - 1)) by lia.
    rewrite Z.pow_succ_r by lia. lia.
  - simpl. lia.
Qed.

Lemma Zdigits2_nonneg m : 0 ≤ Zdigits2 m.
Proof. destruct m; simpl; lia. Qed.

Lemma Zdigits2_le m k : 0 ≤ m → 0 ≤ k → m < 2 ^ k → Zdigits2 m ≤ k.
Proof.
  intros Hm Hk Hlt. destruct m as [|p|p]; simpl; [lia| |lia].
  destruct (digits2_pos_bounds p) as [Hlo _].
  destruct (Z_le_gt_dec (Z.pos (digits2_pos p)) k) as [|Hgt]; [done|].
  assert (2 ^ k ≤ 2 ^ (Z.pos (digits2_pos p) - 1))
    by (apply Z.pow_le_mono_r; lia).
  lia.
Qed.

Lemma Zdigits2_lt_pow m : 0 ≤ m → m < 2 ^ Zdigits2 m.
Proof.
  intros Hm. destruct m as [|p|p]; simpl; [lia| |lia].
  apply digits2_pos_bounds.
Qed.

Lemma shr_1_up mrs c :
  0 ≤ shr_m mrs → up mrs ≤ 2 * c →
  0 ≤ shr_m (shr_1 mrs) ∧ up (shr_1 mrs) ≤ c.
Proof.
  destruct mrs as [m r s]. unfold up. simpl.
  destruct m as [|[p|p|]|p]; destruct r, s; simpl; lia.
Qed.

Lemma iter_shr_1_up p : ∀ mrs c,
  0 ≤ shr_m mrs → up mrs ≤ 2 ^ Z.pos p * c →
  0 ≤ shr_m (SpecFloat.iter_pos shr_1 p mrs) ∧ up (SpecFloat.iter_pos shr_1 p mrs) ≤ c.
Proof.
  induction p as [p IH|p IH|]; intros mrs c Hm Hup; simpl SpecFloat.iter_pos.
  - change (Z.pos p~1) with (2 * Z.pos p + 1) in Hup.
    rewrite Z.pow_add_r, Z.pow_twice_r, Z.pow_1_r in Hup by lia.
    destruct (shr_1_up mrs (2 ^ Z.pos p * (2 ^ Z.pos p * c))) as [H1 H2];
      [done | lia |].
    destruct (IH _ (2 ^ Z.pos p * c) H1 H2) as [H3 H4].
    by apply IH.
  - change (Z.pos p~0) with (2 * Z.pos p) in Hup.
    rewrite Z.pow_twice_r in Hup.
    destruct (IH mrs (2 ^ Z.pos p * c)) as [H1 H2]; [done | lia |].
    by apply IH.
  - apply shr_1_up; [done | lia].
Qed.

Lemma shr_up mrs e n c :
  0 ≤ shr_m mrs → up mrs ≤ 2 ^ Z.max n 0 * c →
  0 ≤ shr_m (shr mrs e n).1 ∧ up (shr mrs e n).1 ≤ c
  ∧ (shr mrs e n).2 = e + Z.max n 0.
Proof.
  intros Hm Hup. unfold shr. destruct n as [|p|p]; simpl.
  - rewrite Z.mul_1_l in Hup. lia.
  - rewrite Z.max_l in Hup by lia.
    destruct (iter_shr_1_up p mrs c Hm Hup). lia.
  - rewrite Z.mul_1_l in Hup. lia.
Qed.

Lemma round_nearest_even_up mrs :
  0 ≤ shr_m mrs →
  0 ≤ round_nearest_even (shr_m mrs) (loc_of_shr_record mrs) ≤ up mrs.
Proof.
  destruct mrs as [m r s]. unfold up. simpl.
  destruct r, s; simpl; try lia. destruct (Z.even m); lia.
Qed.

Lemma fexp_mono e1 e2 :
  e1 ≤ e2 → fexp Js.prec Js.emax e1 ≤ fexp Js.prec Js.emax e2.
Proof. unfold fexp. lia. Qed.

Lemma bound_split b a c :
  0 ≤ a → 0 ≤ c → b * 2 ^ (a + c) = 2 ^ a * (b * 2 ^ c).
Proof. intros Ha Hc. rewrite Z.pow_add_r by lia. ring. Qed.

(** The sum of the digits and the exponent of a mantissa under a bound
    [b * 2 ^ (eb - e)] is at most that of the bound. *)
Lemma digits_under_bound m e b eb :
  0 ≤ m → 0 < b → e ≤ eb → m ≤ b * 2 ^ (eb - e) →
  Zdigits2 m + e ≤ Zdigits2 b + eb.
Proof.
  intros Hm Hb He Hle.
  assert (Hd : Zdigits2 m ≤ Zdigits2 b + (eb - e)).
  { pose proof (Zdigits2_nonneg b). apply Zdigits2_le; [done | lia |].
    rewrite Z.pow_add_r by lia.
    pose proof (Zdigits2_lt_pow b ltac:(lia)).
    assert (0 < 2 ^ (eb - e)) by (apply Z.pow_pos_nonneg; lia). nia. }
  lia.
Qed.

(** Rounding to nearest never goes above a bound that lies on the grid:
    a value of at most [b * 2 ^ eb] is rounded to zero or to a finite
    number of at most [b * 2 ^ eb], whose exponent is bounded too. *)
Lemma binary_round_aux_le s mx ex lx b eb :
  0 ≤ mx → 0 < b → ex ≤ eb →
  fexp Js.prec Js.emax (Zdigits2 b + eb) ≤ eb →
  eb ≤ Js.emax - Js.prec →
  up_loc mx lx ≤ b * 2 ^ (eb - ex) →
  binary_round_aux Js.prec Js.emax s mx ex lx = S754_zero s
  ∨ ∃ m e,
      binary_round_aux Js.prec Js.emax s mx ex lx = S754_finite s m e
      ∧ e ≤ Z.max ex (fexp Js.prec Js.emax (Zdigits2 b + eb))
      ∧ Z.pos m ≤ b * 2 ^ (eb - e).
Proof.
  intros Hmx Hb Hex Hgrid Hmax Hup.
  set (E := Z.max ex (fexp Js.prec Js.emax (Zdigits2 b + eb))).
  assert (HE : E ≤ eb) by (unfold E; lia).
  unfold binary_round_aux, shr_fexp.
  set (mrs0 := shr_record_of_loc mx lx).
  assert (Hm0 : shr_m mrs0 = mx) by (unfold mrs0; by destruct lx as [|[]]).
  assert (Hup0 : up mrs0 = up_loc mx lx).
  { unfold up, mrs0. by destruct lx as [|[]]. }
  set (n1 := fexp Js.prec Js.emax (Zdigits2 mx + ex) - ex).
  assert (Hmx_le : mx ≤ b * 2 ^ (eb - ex)) by (destruct lx; simpl in Hup; lia).
  assert (Hn1 : ex + Z.max n1 0 ≤ E).
  { pose proof (digits_under_bound mx ex b eb Hmx Hb Hex Hmx_le) as Hd.
    apply fexp_mono in Hd. unfold n1, E. lia. }
  destruct (shr_up mrs0 ex n1 (b * 2 ^ (eb - (ex + Z.max n1 0))))
    as (Hm1 & Hup1 & He1).
  { by rewrite Hm0. }
  { rewrite Hup0, <- bound_split by lia.
    replace (Z.max n1 0 + (eb - (ex + Z.max n1 0))) with (eb - ex) by lia.
    done. }
  destruct (shr mrs0 ex n1) as [mrs1 e1]. simpl in Hm1, Hup1, He1.
  pose proof (round_nearest_even_up mrs1 Hm1) as [Hr0 Hr].
  set (m' := round_nearest_even (shr_m mrs1) (loc_of_shr_record mrs1)) in *.
  set (mrs2 := shr_record_of_loc m' loc_Exact).
  set (n2 := fexp Js.prec Js.emax (Zdigits2 m' + e1) - e1).
  assert (Hm'_le : m' ≤ b * 2 ^ (eb - e1)) by (subst e1; lia).
  assert (Hn2 : e1 + Z.max n2 0 ≤ E).
  { pose proof (digits_under_bound m' e1 b eb Hr0 Hb ltac:(lia) Hm'_le) as Hd.
    apply fexp_mono in Hd. unfold n2, E in *. lia. }
  destruct (shr_up mrs2 e1 n2 (b * 2 ^ (eb - (e1 + Z.max n2 0))))
    as (Hm2 & Hup2 & He2).
  { done. }
  { unfold up. simpl. rewrite <- bound_split by lia.
    replace (Z.max n2 0 + (eb - (e1 + Z.max n2 0))) with (eb - e1) by lia.
    done. }
  destruct (shr mrs2 e1 n2) as [mrs3 e2]. simpl in Hm2, Hup2, He2.
  assert (Hm3 : shr_m mrs3 ≤ up mrs3).
  { unfold up. destruct (loc_of_shr_record mrs3); simpl; lia. }
  destruct (shr_m mrs3) as [|m|m] eqn:Hm3eq; [by left| |lia].
  right. exists m, e2.
  replace (e2 <=? Js.emax - Js.prec) with true
    by (symmetry; apply Z.leb_le; lia).
  split; [done|]. split; [lia|]. subst e2. lia.
Qed.

(** A mantissa that already has its exponent is left as it is. *)
Lemma binary_round_aux_exact s m e :
  fexp Js.prec Js.emax (Z.pos (digits2_pos m) + e) = e →
  e ≤ Js.emax - Js.prec →
  binary_round_aux Js.prec Js.emax s (Z.pos m) e loc_Exact = S754_finite s m e.
Proof.
  intros Hcanon Hmax. unfold binary_round_aux, shr_fexp.
  simpl Zdigits2. rewrite Hcanon, Z.sub_diag. simpl.
  rewrite Hcanon, Z.sub_diag. simpl.
  by replace (e <=? Js.emax - Js.prec) with true
    by (symmetry; apply Z.leb_le; lia).
Qed.

Lemma iter_xO_value k p : Z.pos (Pos.iter xO p k) = Z.pos p * 2 ^ Z.pos k.
Proof.
  induction k as [|k IH] using Pos.peano_ind.
  - simpl. lia.
  - rewrite Pos.iter_succ, Pos2Z.inj_succ, Z.pow_succ_r by lia.
    change (Z.pos (Pos.iter xO p k)~0) with (2 * Z.pos (Pos.iter xO p k)).
    rewrite IH. ring.
Qed.

Lemma iter_xO_digits k p :
  Z.pos (digits2_pos (Pos.iter xO p k)) = Z.pos (digits2_pos p) + Z.pos k.
Proof.
  induction k as [|k IH] using Pos.peano_ind.
  - simpl. lia.
  - rewrite Pos.iter_succ. simpl digits2_pos.
    rewrite !Pos2Z.inj_succ, IH. lia.
Qed.

(** The Number of a positive integer below 2^53 is that integer. *)
Lemma of_Z_exact n :
  0 < n < 2 ^ 53 →
  ∃ m e, Js.of_Z n = S754_finite false m e
         ∧ -52 ≤ e ≤ 0 ∧ Z.pos m = n * 2 ^ (- e)
         ∧ Z.pos (digits2_pos m) = 53.
Proof.
  intros [Hpos Hlt]. destruct n as [|p|p]; try lia.
  unfold Js.of_Z, binary_normalize, binary_round.
  pose proof (digits2_pos_bounds p) as [Hlo Hhi].
  assert (Hd : 1 ≤ Z.pos (digits2_pos p) ≤ 53).
  { split; [lia|]. apply (Zdigits2_le (Z.pos p)); lia. }
  assert (Hfexp : fexp Js.prec Js.emax (Z.pos (digits2_pos p) + 0)
                  = Z.pos (digits2_pos p) - 53).
  { unfold fexp, emin, Js.prec, Js.emax. lia. }
  rewrite Hfexp. unfold shl_align.
  destruct (Z.pos (digits2_pos p) - 53 - 0) as [|k|k] eqn:Hk; try lia.
  - exists p, 0. split; [|simpl; lia].
    apply binary_round_aux_exact; [|unfold Js.emax, Js.prec; lia].
    rewrite Hfexp. lia.
  - exists (Pos.iter xO p k), (Z.pos (digits2_pos p) - 53).
    split; [|split; [lia|split]].
    + apply binary_round_aux_exact; [|unfold Js.emax, Js.prec; lia].
      rewrite iter_xO_digits. unfold fexp, emin, Js.prec, Js.emax. lia.
    + rewrite iter_xO_value. f_equal. f_equal. lia.
    + rewrite iter_xO_digits. lia.
Qed.

Lemma new_location_exact n r :
  new_location n r = loc_Exact ∨
  (r ≠ 0 ∧ ∃ c, new_location n r = loc_Inexact c).
Proof.
  unfold new_location, new_location_even, new_location_odd.
  destruct (Z.even n); destruct (Z.eqb_spec r 0); eauto.
Qed.

(** The quotient the division starts from, with the location of the
    rest: its exponent, and a bound on it in units of that exponent. *)
Lemma SFdiv_core_binary_up m1 e1 m2 e2 c :
  let '(q, e', l) :=
    SFdiv_core_binary Js.prec Js.emax (Z.pos m1) e1 (Z.pos m2) e2 in
  e' = Z.min (fexp Js.prec Js.emax
                (Z.pos (digits2_pos m1) + e1 - (Z.pos (digits2_pos m2) + e2)))
             (e1 - e2)
  ∧ 0 ≤ q
  ∧ (Z.pos m1 * 2 ^ (e1 - e2 - e') ≤ c * Z.pos m2 → up_loc q l ≤ c).
Proof.
  unfold SFdiv_core_binary. simpl Zdigits2.
  set (e' := Z.min _ _).
  set (m' := match e1 - e2 - e' with
             | 0 => Z.pos m1
             | Z.pos _ => Z.shiftl (Z.pos m1) (e1 - e2 - e')
             | Z.neg _ => 0
             end).
  assert (Hm' : m' = Z.pos m1 * 2 ^ (e1 - e2 - e')).
  { unfold m'. assert (0 ≤ e1 - e2 - e') by (unfold e'; lia).
    destruct (e1 - e2 - e') as [|s|s] eqn:Hs; [simpl; lia| |lia].
    by rewrite Z.shiftl_mul_pow2. }
  assert (H0 : 0 ≤ m').
  { rewrite Hm'. apply Z.mul_nonneg_nonneg; [lia|].
    apply Z.pow_nonneg. lia. }
  pose proof (Z_div_mod m' (Z.pos m2) ltac:(lia)) as Hdiv.
  destruct (Z.div_eucl m' (Z.pos m2)) as [q r].
  destruct Hdiv as [Hq Hr].
  split; [done|]. split; [nia|].
  rewrite <- Hm'. intros Hc.
  destruct (new_location_exact (Z.pos m2) r) as [->|[Hr0 [cmp ->]]]; simpl; nia.
Qed.

(** [Math.round] of a Number between 0 and 100 that has fractional
    bits. *)
Lemma round_to_percent m e :
  e < 0 → Z.pos m ≤ 25 * 2 ^ (2 - e) →
  0 ≤ (2 * Z.pos m + 2 ^ (- e)) / 2 ^ (1 - e) ≤ 100.
Proof.
  intros He Hm.
  replace (2 - e) with (2 + - e) in Hm by lia.
  replace (1 - e) with (1 + - e) by lia.
  rewrite Z.pow_add_r in * by lia.
  assert (Hp : 0 < 2 ^ (- e)) by (apply Z.pow_pos_nonneg; lia).
  change (2 ^ 2) with 4 in Hm. change (2 ^ 1) with 2.
  split.
  - apply Z.div_pos; lia.
  - apply Z.lt_succ_r, Z.div_lt_upper_bound; lia.
Qed.

Lemma of_Z_100 : Js.of_Z 100 = S754_finite false (25 * 2 ^ 48) (-46).
Proof. reflexivity. Qed.

(** The quotient of two counts, the smaller over the larger, is a Number
    between 0 and 1. *)
Lemma div_counts_le_1 g t :
  0 < g ≤ t → t < 2 ^ 53 →
  Js.div (Js.of_Z g) (Js.of_Z t) = S754_zero false
  ∨ ∃ m e, Js.div (Js.of_Z g) (Js.of_Z t) = S754_finite false m e
           ∧ e ≤ 0 ∧ Z.pos m ≤ 2 ^ (- e).
Proof.
  intros Hg Ht.
  destruct (of_Z_exact g ltac:(lia)) as (mg & eg & -> & Heg & Hmg & Hdg).
  destruct (of_Z_exact t ltac:(lia)) as (mt & et & -> & Het & Hmt & Hdt).
  unfold Js.div, SFdiv.
  pose proof (SFdiv_core_binary_up mg eg mt et
                (2 ^ (- (eg - et - 53)))) as Hcore.
  destruct (SFdiv_core_binary Js.prec Js.emax (Z.pos mg) eg (Z.pos mt) et)
    as [[q e'] l].
  destruct Hcore as (He' & Hq & Hup).
  rewrite Hdg, Hdt in He'.
  assert (He'eq : e' = eg - et - 53).
  { rewrite He'. unfold fexp, emin, Js.prec, Js.emax. lia. }
  clear He'. subst e'.
  assert (Hupq : up_loc q l ≤ 1 * 2 ^ (0 - (eg - et - 53))).
  { rewrite Z.mul_1_l. apply Hup.
    replace (eg - et - (eg - et - 53)) with 53 by lia.
    rewrite Hmg, Hmt.
    replace (- (eg - et - 53)) with (53 + - eg + et) by lia.
    replace (- et) with (- et + 0) at 1 by lia.
    assert (0 < 2 ^ (- eg)) by (apply Z.pow_pos_nonneg; lia).
    assert (0 < 2 ^ (- et)) by (apply Z.pow_pos_nonneg; lia).
    assert (Hsplit : 2 ^ (53 + - eg + et) * 2 ^ (- et) = 2 ^ 53 * 2 ^ (- eg)).
    { rewrite <- !Z.pow_add_r by lia. f_equal. lia. }
    rewrite Z.add_0_r.
    replace (2 ^ (53 + - eg + et) * (t * 2 ^ (- et)))
      with (t * (2 ^ (53 + - eg + et) * 2 ^ (- et))) by ring.
    rewrite Hsplit.
    replace (g * 2 ^ (- eg) * 2 ^ 53) with (g * (2 ^ 53 * 2 ^ (- eg))) by ring.
    apply Z.mul_le_mono_nonneg_r; [|lia].
    apply Z.mul_nonneg_nonneg; lia. }
  assert (Hgrid : fexp Js.prec Js.emax (Zdigits2 1 + 0) ≤ 0)
    by (unfold fexp, emin, Js.prec, Js.emax; simpl; lia).
  assert (Hmax : 0 ≤ Js.emax - Js.prec) by (unfold Js.emax, Js.prec; lia).
  destruct (binary_round_aux_le (xorb false false) q (eg - et - 53) l 1 0
              Hq ltac:(lia) ltac:(lia) Hgrid Hmax Hupq)
    as [Hz|(m & e & Hf & He & Hm)]; [by left|].
  right. exists m, e. split; [done|].
  assert (He0 : e ≤ 0).
  { revert He. unfold fexp, emin, Js.prec, Js.emax. simpl Zdigits2. lia. }
  split; [done|]. by rewrite Z.mul_1_l, Z.sub_0_l in Hm.
Qed.

(** The percentage computed for [graduates] out of [totalStudents]. *)
Lemma successRate_is_percent g t :
  (0 < t)%nat → (g ≤ t)%nat → Z.of_nat t < 2 ^ 53 →
  ∃ n, 0 ≤ n ≤ 100 ∧ successRate g t = Js.of_Z n.
Proof.
  intros Ht Hg Hsafe. unfold successRate.
  replace (Nat.ltb 0 t) with true by (symmetry; apply Nat.ltb_lt; lia).
  assert (Hzero : Js.Math_round (Js.mul (S754_zero false) (Js.of_Z 100))
                  = Js.of_Z 0) by reflexivity.
  unfold Js.of_nat.
  destruct (Nat.eq_dec g 0%nat) as [->|Hg0].
  { exists 0. split; [lia|].
    destruct (of_Z_exact (Z.of_nat t) ltac:(lia)) as (mt & et & -> & _).
    exact Hzero. }
  destruct (div_counts_le_1 (Z.of_nat g) (Z.of_nat t) ltac:(lia) Hsafe)
    as [->|(m & e & -> & He & Hm)].
  { exists 0. split; [lia | exact Hzero]. }
  rewrite of_Z_100. unfold Js.mul, SFmul.
  assert (Hgrid : fexp Js.prec Js.emax (Zdigits2 25 + 2) ≤ 2)
    by (unfold fexp, emin, Js.prec, Js.emax; simpl; lia).
  assert (Hmax : 2 ≤ Js.emax - Js.prec) by (unfold Js.emax, Js.prec; lia).
  assert (Hup : up_loc (Z.pos (m * (25 * 2 ^ 48))) loc_Exact
                ≤ 25 * 2 ^ (2 - (e + -46))).
  { simpl up_loc. rewrite Pos2Z.inj_mul.
    replace (2 - (e + -46)) with (- e + 48) by lia.
    rewrite Z.pow_add_r by lia.
    change (Z.pos (25 * 2 ^ 48)) with (25 * 2 ^ 48).
    replace (25 * (2 ^ (- e) * 2 ^ 48)) with (2 ^ (- e) * (25 * 2 ^ 48))
      by ring.
    apply Z.mul_le_mono_nonneg_r; [|done].
    apply Z.mul_nonneg_nonneg; [lia|]. apply Z.pow_nonneg. lia. }
  destruct (binary_round_aux_le (xorb false false)
              (Z.pos (m * (25 * 2 ^ 48))) (e + -46) loc_Exact 25 2
              ltac:(lia) ltac:(lia) ltac:(lia) Hgrid Hmax Hup)
    as [Hz|(m' & e' & Hf & He' & Hm')].
  { exists 0. split; [lia|]. by rewrite Hz. }
  rewrite Hf. unfold Js.Math_round.
  assert (He'neg : e' < 0).
  { revert He'. unfold fexp, emin, Js.prec, Js.emax. simpl Zdigits2. lia. }
  replace (0 <=? e') with false by (symmetry; apply Z.leb_gt; lia).
  eexists. split; [|reflexivity].
  by apply round_to_percent.
Qed.

Lemma count_le_all flt (m : gmap N Doc) :
  (size (filter (λ kd : N * Doc, matches flt kd.2 = true) m) ≤ size m)%nat.
Proof. apply map_subseteq_size, map_filter_subseteq. Qed.

Lemma get_stats_eq w :
  get_stats w =
  (Normal
     (mkResponse 200
        (JsonStats
           (size (students w))
           (size (filter (λ kd : N * Doc,
                            matches {["status" := Js.Str "Active"]} kd.2 = true)
                         (courses w)))
           (size (filter (λ kd : N * Doc,
                            matches {["status" := Js.Str "Inactive"]} kd.2 = true)
                         (students w)))
           (successRate
              (size (filter (λ kd : N * Doc,
                               matches {["status" := Js.Str "Inactive"]} kd.2
                               = true)
                            (students w)))
              (size (students w))))),
   w).
Proof.
  unfold get_stats, Student.countDocuments, Course.countDocuments.
  async_unfold. by rewrite count_all.
Qed.

(** C10: the statistics route always answers 200, with the number of
    students, the number of them that are inactive (at most the former)
    and the success rate computed from the two.  Without students the
    rate is 0: the division is not reached.  With [totalStudents > 0] and
    [graduates ≤ totalStudents] the rate, computed in binary64 as the
    source does, is an integer between 0 and 100.  Counts are integers a
    Number holds exactly, below 2^53. *)
Theorem stats_success_rate_in_percent :
  (∀ w, ∃ activeCourses graduates,
     get_stats w =
     (Normal (mkResponse 200
                (JsonStats (size (students w)) activeCourses graduates
                   (successRate graduates (size (students w))))), w)
     ∧ (graduates ≤ size (students w))%nat)
  ∧ (∀ graduates, successRate graduates 0 = Js.of_Z 0)
  ∧ (∀ graduates totalStudents,
       (0 < totalStudents)%nat → (graduates ≤ totalStudents)%nat →
       Z.of_nat totalStudents < 2 ^ 53 →
       ∃ n, 0 ≤ n ≤ 100 ∧ successRate graduates totalStudents = Js.of_Z n).
Proof.
  split; [|split].
  - intros w. do 2 eexists. split; [apply get_stats_eq|].
    apply count_le_all.
  - reflexivity.
  - apply successRate_is_percent.
Qed.

(** The bound on the counts is needed: a count that a Number cannot
    hold gives infinity, and the rate of infinity over infinity is NaN. *)
Lemma successRate_beyond_numbers :
  successRate (Z.to_nat (2 ^ 1024)) (Z.to_nat (2 ^ 1024)) = S754_nan.
Proof.
  unfold successRate, Js.of_nat.
  replace (Nat.ltb 0 (Z.to_nat (2 ^ 1024))) with true.
  - rewrite Z2Nat.id by (apply Z.pow_nonneg; lia). by vm_compute.
  - symmetry. apply Nat.ltb_lt.
    change 0%nat with (Z.to_nat 0). apply Z2Nat.inj_lt; [lia| |].
    + apply Z.pow_nonneg. lia.
    + apply Z.pow_pos_nonneg; lia.
Qed.

(** ** What a create request can do *)

Lemma turn_spent_verdicts w : verdicts (turn_spent w) = tail (verdicts w).
Proof. reflexivity. Qed.

(** An error that is not a duplicate-key error goes through the [catch]
    block of the loop unchanged. *)
Lemma create_catch_rethrows (m : Async (option Response)) attempt w e w' :
  m w = (Throw e, w') → Js.code_is e 11000 = false →
  try_catch m (create_catch attempt) w = (Throw e, w').
Proof.
  intros Hm Hcode. erewrite try_catch_throw by exact Hm.
  unfold create_catch. by rewrite Hcode.
Qed.

(** A body that passes the check of the required fields and does not
    reach [save] has a [name], [email] or [course] that is not a string:
    the turn allocates its id and then throws a TypeError. *)
Lemma create_attempt_type_error req_body attempt w :
  missing_required req_body = false →
  reaches_save req_body = false →
  ∃ var,
    (var = "name" ∨ var = "email" ∨ var = "course")
    ∧ create_attempt req_body attempt w =
      (Throw (Js.newError (var ++ ".trim is not a function")),
       with_counters (insert "studentId" (current_value w "studentId" + 1)) w).
Proof.
  intros Hreq Hreach. unfold reaches_save in Hreach. rewrite Hreq in Hreach.
  simpl in Hreach. unfold create_attempt.
  destruct (field req_body "name") as [| | | |name| |];
    try (exists "name"; split; [by left|]; apply create_catch_rethrows; [|reflexivity];
         erewrite bind_normal by apply getNextSequenceValue_eq; reflexivity).
  destruct (field req_body "email") as [| | | |email| |];
    try (exists "email"; split; [by right; left|]; apply create_catch_rethrows; [|reflexivity];
         erewrite bind_normal by apply getNextSequenceValue_eq; reflexivity).
  destruct (field req_body "course") as [| | | |course| |];
    try (exists "course"; split; [by right; right|]; apply create_catch_rethrows; [|reflexivity];
         erewrite bind_normal by apply getNextSequenceValue_eq; reflexivity).
  discriminate.
Qed.

(** Every turn of the retry loop uses up one id, whatever else happens;
    it stores nothing and goes on or throws, or it stores the new
    student under a free id and returns 201. *)
Lemma create_attempt_effect req_body attempt w :
  missing_required req_body = false →
  let r := create_attempt req_body attempt w in
  counters r.2 = <["studentId" := current_value w "studentId" + 1]> (counters w)
  ∧ courses r.2 = courses w
  ∧ ((students r.2 = students w ∧ ∀ res, r.1 ≠ Normal (Some res))
     ∨ (r.1 = Normal (Some (mkResponse 201
                              (JsonStudent (fresh (dom (students w)))
                                 (new_student req_body
                                    (current_value w "studentId" + 1)))))
        ∧ students r.2 =
          <[fresh (dom (students w)) :=
              new_student req_body (current_value w "studentId" + 1)]>
            (students w))).
Proof.
  intros Hreq. destruct (reaches_save req_body) eqn:Hreach.
  - destruct (accepts_next (verdicts w)) eqn:Hacc.
    + rewrite create_attempt_accepted by done. simpl.
      split; [done|]. split; [done|]. by right.
    + destruct (verdicts w) as [|[e|] vs] eqn:Hvs; try discriminate.
      rewrite (create_attempt_rejected _ _ _ e vs) by done.
      unfold create_catch. async_unfold.
      repeat (match goal with |- context [if ?b then _ else _] =>
                destruct b end); simpl;
        (split; [done|]; split; [done|]; left; split; [done|];
         intros res; discriminate).
  - destruct (create_attempt_type_error req_body attempt w Hreq Hreach)
      as (var & _ & ->). simpl.
    split; [done|]. split; [done|]. left. split; [done|]. intros res.
    discriminate.
Qed.

Lemma current_value_insert cs co st vs v :
  current_value
    {| counters := <["studentId" := v]> cs; students := st;
       courses := co; verdicts := vs |} "studentId" = v.
Proof. unfold current_value. simpl. by rewrite lookup_insert_eq. Qed.

Lemma retry_loop_outcome req_body turns_left :
  missing_required req_body = false →
  ∀ attempt w,
    create_outcome req_body w (retry_loop req_body turns_left attempt w).
Proof.
  intros Hreq. induction turns_left as [|n IH]; intros attempt w.
  - simpl. unfold create_outcome, ret. simpl.
    split; [done|]. split; [done|]. split; [lia|]. left.
    split; [done|]. intros res [= <-]. simpl. lia.
  - cbn [retry_loop].
    pose proof (create_attempt_effect req_body attempt w Hreq) as Heff.
    cbv zeta in Heff. async_unfold.
    destruct (create_attempt req_body attempt w) as [[[res|]|e] w1] eqn:Hrun;
      simpl in Heff; destruct Heff as (Hcs & Hco & Hst).
    + destruct Hst as [[_ Hno]|[Hres Hst]]; [by destruct (Hno res)|].
      injection Hres as ->.
      assert (Hcur : current_value w1 "studentId"
                     = current_value w "studentId" + 1).
      { unfold current_value at 1. by rewrite Hcs, lookup_insert_eq. }
      unfold create_outcome. simpl. rewrite Hcur.
      split; [done|]. split.
      { intros name Hne. by rewrite Hcs, lookup_insert_ne. }
      split; [lia|]. right. split; [lia|]. by split.
    + destruct Hst as [[Hst _]|[Hres _]]; [|discriminate].
      assert (Hcur : current_value w1 "studentId"
                     = current_value w "studentId" + 1).
      { unfold current_value at 1. by rewrite Hcs, lookup_insert_eq. }
      specialize (IH (S attempt) w1).
      destruct IH as (Hco' & Hcs' & Hle & Hcase).
      unfold create_outcome.
      split; [congruence|]. split.
      { intros name Hne. rewrite Hcs' by done.
        by rewrite Hcs, lookup_insert_ne. }
      split; [lia|].
      rewrite Hst in Hcase.
      destruct Hcase as [Hsame|(Hlt & Hres & Hins)]; [by left|].
      right. split; [lia|]. by split.
    + destruct Hst as [[Hst _]|[Hres _]]; [|discriminate].
      unfold create_outcome. simpl.
      split; [done|]. split.
      { intros name Hne. by rewrite Hcs, lookup_insert_ne. }
      split.
      { unfold current_value at 2. rewrite Hcs, lookup_insert_eq. simpl. lia. }
      left. split; [done|]. intros res. discriminate.
Qed.

Lemma post_student_outcome req_body w :
  create_outcome req_body w (post_student req_body w).
Proof.
  unfold post_student, try_catch.
  destruct (missing_required req_body) eqn:Hreq.
  - unfold ret. unfold create_outcome. simpl.
    split; [done|]. split; [done|]. split; [lia|]. left.
    split; [done|]. intros res [= <-]. simpl. lia.
  - pose proof (retry_loop_outcome req_body MAX_RETRIES Hreq 0%nat w) as Hloop.
    destruct (retry_loop req_body MAX_RETRIES 0 w) as [[res|e] w1]; [done|].
    destruct Hloop as (Hco & Hcs & Hle & Hcase). simpl in *.
    destruct Hcase as [[Hst _]|(_ & Hres & _)]; [|discriminate].
    assert (Hout : ∀ st msg,
              create_outcome req_body w
                (Normal (mkResponse st (JsonError msg)), w1) ∨ st = 201).
    { intros st msg. destruct (decide (st = 201)) as [|Hne]; [by right|].
      left. unfold create_outcome. simpl.
      split; [done|]. split; [done|]. split; [done|]. left.
      split; [done|]. by intros res [= <-]. }
    unfold ret.
    repeat (match goal with |- context [if ?b then _ else _] =>
              destruct b end);
      match goal with
      | |- create_outcome _ _ (Normal (mkResponse ?st (JsonError ?msg)), _) =>
          destruct (Hout st msg) as [H|H]; [exact H | discriminate H]
      end.
Qed.

(** X1. A create request with a required field missing (absent, null,
    empty, false or 0) is answered 400 before anything happens: no id is
    allocated.  A body whose required fields are all there but whose
    [name], [email] or [course] is not a string is answered 400 too, but
    only after the first id was allocated: that id is lost.  In both
    cases nothing is stored and no write reaches the store. *)
Theorem create_bad_body req_body w :
  reaches_save req_body = false →
  ∃ message w',
    post_student req_body w = (Normal (mkResponse 400 (JsonError message)), w')
    ∧ students w' = students w
    ∧ courses w' = courses w
    ∧ verdicts w' = verdicts w
    ∧ counters w' =
      (if missing_required req_body then counters w
       else <["studentId" := current_value w "studentId" + 1]> (counters w))
    ∧ (missing_required req_body = true →
         message = required_message ∧ w' = w).
Proof.
  intros Hreach. unfold post_student.
  destruct (missing_required req_body) eqn:Hreq.
  - exists required_message, w. by repeat split.
  - destruct (create_attempt_type_error req_body 0 w Hreq Hreach)
      as (var & Hvar & Hthrow).
    assert (Hstatus : create_error_status (var ++ ".trim is not a function")
                      = 400).
    { destruct Hvar as [-> | [-> | ->]]; reflexivity. }
    do 2 eexists. split.
    { erewrite try_catch_throw; cycle 1.
      { unfold MAX_RETRIES. cbn [retry_loop]. apply bind_throw.
        exact Hthrow. }
      cbn [Js.message Js.newError]. unfold create_error_status in Hstatus.
      destruct (Js.includes _ "A duplicate email was found"); [reflexivity|].
      destruct (Js.includes _ "unique Student ID"); [discriminate|].
      reflexivity. }
    simpl. by repeat split.
Qed.

(** After any number of collisions on [studentId] short of five, a
    rejected write whose error makes the [catch] block throw ends the
    request: the route answers with the status its own [catch] reads off
    the message; nothing is stored and no further write is tried. *)
Lemma create_aborts req_body w errs e thrown rest :
  reaches_save req_body = true →
  (length errs < MAX_RETRIES)%nat →
  Forall (λ e, id_conflict e = true) errs →
  verdicts w = ((Some <$> errs) ++ Some e :: rest)%list →
  (∀ w1, create_catch (length errs) e w1 = (Throw thrown, w1)) →
  ∃ w',
    post_student req_body w =
      (Normal (mkResponse (create_error_status (Js.message thrown))
                 (JsonError (Js.message thrown))), w')
    ∧ students w' = students w
    ∧ courses w' = courses w
    ∧ verdicts w' = rest
    ∧ counters w' =
      <["studentId" :=
          current_value w "studentId" + Z.of_nat (length errs) + 1]>
        (counters w).
Proof.
  intros Hreq Hlen Herrs Hvs Hcatch.
  pose proof (retry_loop_collisions req_body errs Hreq
                MAX_RETRIES 0%nat w (Some e :: rest) Herrs Hvs) as Hloop.
  specialize (Hloop ltac:(lia) ltac:(unfold MAX_RETRIES in *; lia)).
  set (k := length errs) in *.
  set (wk := Nat.iter k turn_spent w) in *.
  assert (Hvsk : verdicts wk = Some e :: rest).
  { unfold wk, k. rewrite turns_spent_verdicts, Hvs.
    rewrite drop_app_length'; [done | by rewrite length_fmap]. }
  assert (Hthrow : retry_loop req_body MAX_RETRIES 0 w =
                   (Throw thrown, turn_spent wk)).
  { rewrite Hloop.
    destruct (MAX_RETRIES - k)%nat as [|turns] eqn:Hturns; [lia|].
    cbn [retry_loop]. apply bind_throw.
    rewrite (create_attempt_rejected _ _ _ e rest) by done.
    simpl. apply Hcatch. }
  exists (turn_spent wk). split.
  { rewrite post_student_valid by done.
    erewrite try_catch_throw by exact Hthrow.
    unfold create_error_status.
    destruct (Js.includes _ "A duplicate email was found"); [reflexivity|].
    destruct (Js.includes _ "unique Student ID"); reflexivity. }
  change (turn_spent wk) with (Nat.iter (S k) turn_spent w).
  rewrite turns_spent_students, turns_spent_courses,
    turns_spent_verdicts, turns_spent_counters, Hvs.
  split; [done|]. split; [done|]. split.
  - rewrite drop_S_tail, drop_app_length'; [done|]. by rewrite length_fmap.
  - f_equal. lia.
Qed.

(** X2. A write rejected with an error that is not a duplicate-key error
    (a validation error, say) is not retried, wherever in the loop it
    comes: the route answers with the message of that error, with status
    400 unless the message contains "unique Student ID" and not "A
    duplicate email was found", when it is 500.  Nothing is stored, the
    ids allocated so far are lost, and the store sees no further write. *)
Theorem create_other_error_not_retried req_body w errs e rest :
  reaches_save req_body = true →
  (length errs < MAX_RETRIES)%nat →
  Forall (λ e, id_conflict e = true) errs →
  verdicts w = ((Some <$> errs) ++ Some e :: rest)%list →
  Js.code_is e 11000 = false →
  ∃ w',
    post_student req_body w =
      (Normal (mkResponse (create_error_status (Js.message e))
                 (JsonError (Js.message e))), w')
    ∧ students w' = students w
    ∧ courses w' = courses w
    ∧ verdicts w' = rest
    ∧ counters w' =
      <["studentId" :=
          current_value w "studentId" + Z.of_nat (length errs) + 1]>
        (counters w).
Proof.
  intros Hreq Hlen Herrs Hvs Hcode.
  apply (create_aborts req_body w errs e e rest); try done.
  intros w1. unfold create_catch. by rewrite Hcode.
Qed.

(** X3. A duplicate-key error on [email] (and not on [studentId]) ends
    the request at once, wherever in the loop it comes: 400 with the
    message about the stale index.  Nothing is stored, and the store sees
    no further write. *)
Theorem create_email_conflict_not_retried req_body w errs e rest :
  reaches_save req_body = true →
  (length errs < MAX_RETRIES)%nat →
  Forall (λ e, id_conflict e = true) errs →
  verdicts w = ((Some <$> errs) ++ Some e :: rest)%list →
  other_conflict "email" e = true →
  ∃ w',
    post_student req_body w =
      (Normal (mkResponse 400 (JsonError duplicate_email_message)), w')
    ∧ students w' = students w
    ∧ courses w' = courses w
    ∧ verdicts w' = rest
    ∧ counters w' =
      <["studentId" :=
          current_value w "studentId" + Z.of_nat (length errs) + 1]>
        (counters w).
Proof.
  intros Hreq Hlen Herrs Hvs
    [[Hcode Hid%negb_true_iff]%andb_true_iff Hemail]%andb_true_iff.
  apply (create_aborts req_body w errs e
           (Js.newError duplicate_email_message) rest); try done.
  intros w1. unfold create_catch. by rewrite Hcode, Hid, Hemail.
Qed.

(** ** The student ids stay in order *)

Lemma ids_in_order_same w w' :
  students w' = students w → counters w' = counters w →
  ids_in_order w → ids_in_order w'.
Proof.
  intros Hst Hcs. unfold ids_in_order, current_value. by rewrite Hst, Hcs.
Qed.

Lemma ids_in_order_grow w w' :
  students w' = students w →
  current_value w "studentId" ≤ current_value w' "studentId" →
  ids_in_order w → ids_in_order w'.
Proof.
  intros Hst Hle (H0 & Hrange & Huniq). unfold ids_in_order.
  rewrite Hst. split; [lia|]. split; [|done].
  intros id d n Hd Hn. specialize (Hrange id d n Hd Hn). lia.
Qed.

Lemma new_student_studentId req_body n :
  new_student req_body n !! "studentId" = Some (Js.Num n).
Proof. unfold new_student. apply lookup_insert_eq. Qed.

Lemma ids_in_order_post req_body w :
  ids_in_order w → ids_in_order (post_student req_body w).2.
Proof.
  intros Hinv. pose proof (post_student_outcome req_body w) as Hout.
  destruct Hout as (_ & _ & Hle & [[Hst _]|(Hlt & _ & Hst)]).
  { by apply (ids_in_order_grow w). }
  destruct Hinv as (H0 & Hrange & Huniq).
  set (w' := (post_student req_body w).2) in *.
  set (n := current_value w' "studentId") in *.
  set (k := fresh (dom (students w))) in *.
  assert (Hk : students w !! k = None) by apply not_elem_of_dom, is_fresh.
  unfold ids_in_order. fold n. rewrite Hst.
  split; [lia|]. split.
  - intros id d m Hd Hm.
    destruct (decide (id = k)) as [->|Hne].
    + rewrite lookup_insert_eq in Hd. injection Hd as <-.
      rewrite new_student_studentId in Hm. injection Hm as <-. lia.
    + rewrite lookup_insert_ne in Hd by done.
      specialize (Hrange id d m Hd Hm). lia.
  - assert (Hclash : ∀ id d v, students w !! id = Some d →
              d !! "studentId" = Some v →
              new_student req_body n !! "studentId" = Some v → False).
    { intros id d v Hd Hv Hnew. rewrite new_student_studentId in Hnew.
      injection Hnew as <-. specialize (Hrange id d n Hd Hv). lia. }
    intros id1 id2 d1 d2 v Hd1 Hd2 Hv1 Hv2.
    destruct (decide (id1 = k)) as [->|Hne1];
      destruct (decide (id2 = k)) as [->|Hne2]; try done.
    + rewrite lookup_insert_eq in Hd1. injection Hd1 as <-.
      rewrite lookup_insert_ne in Hd2 by done.
      by destruct (Hclash id2 d2 v).
    + rewrite lookup_insert_eq in Hd2. injection Hd2 as <-.
      rewrite lookup_insert_ne in Hd1 by done.
      by destruct (Hclash id1 d1 v).
    + rewrite lookup_insert_ne in Hd1, Hd2 by done.
      by apply (Huniq id1 id2 d1 d2 v).
Qed.

Lemma ids_in_order_delete id w :
  ids_in_order w → ids_in_order (delete_student id w).2.
Proof.
  intros (H0 & Hrange & Huniq). rewrite delete_student_eq.
  destruct (students w !! id) as [d|] eqn:Hd; simpl; [|done].
  destruct (Nat.eqb (size (delete id (students w))) 0) eqn:Hsz.
  - apply Nat.eqb_eq, map_size_empty_iff in Hsz.
    unfold ids_in_order, current_value. simpl. rewrite Hsz.
    rewrite reset_counter_lookup, decide_True by done.
    split; [by destruct (counters w !! "studentId")|].
    split; intros *; by rewrite lookup_empty.
  - unfold ids_in_order, current_value. simpl.
    fold (current_value w "studentId").
    split; [done|]. split.
    + intros id' d' n [_ Hd']%lookup_delete_Some. by apply (Hrange id' d').
    + intros id1 id2 d1 d2 v [_ Hd1]%lookup_delete_Some
        [_ Hd2]%lookup_delete_Some. by apply (Huniq id1 id2 d1 d2 v).
Qed.

Lemma get_student_eq id w :
  get_student id w =
  (Normal (match students w !! id with
           | Some d => mkResponse 200 (JsonStudent id d)
           | None => mkResponse 404 (JsonError "Student not found")
           end), w).
Proof.
  unfold get_student, Student_findById. async_unfold.
  by destruct (students w !! id).
Qed.

Lemma ids_in_order_empty : ids_in_order empty_world.
Proof.
  unfold ids_in_order, current_value, INITIAL_ID_VALUE. simpl.
  rewrite lookup_empty. simpl.
  split; [lia|]. split; intros *; by rewrite lookup_empty.
Qed.

(** ** Requests one after the other *)

(** X5. Create, then read: when a create request is answered 201, the
    response carries an id under which nothing was stored before (a read
    of it before the request is answered 404), no student stored before
    is changed, and a read of that id afterwards is answered 200 with the
    very student of the 201 response, leaving the database as it is. *)
Theorem create_then_get req_body w res w' :
  post_student req_body w = (Normal res, w') →
  statusCode res = 201 →
  ∃ _id student,
    body res = JsonStudent _id student
    ∧ get_student _id w =
      (Normal (mkResponse 404 (JsonError "Student not found")), w)
    ∧ get_student _id w' =
      (Normal (mkResponse 200 (JsonStudent _id student)), w')
    ∧ students w ⊆ students w'
    ∧ size (students w') = S (size (students w)).
Proof.
  intros Hrun Hstatus.
  pose proof (post_student_outcome req_body w) as Hout.
  rewrite Hrun in Hout.
  destruct Hout as (_ & _ & _ & [[_ Hno]|(_ & Hres & Hst)]).
  { by destruct (Hno res). }
  simpl in Hres, Hst. injection Hres as ->.
  assert (Hfree : students w !! fresh (dom (students w)) = None)
    by apply not_elem_of_dom, is_fresh.
  do 2 eexists. split; [reflexivity|].
  rewrite !get_student_eq, Hfree, Hst, lookup_insert_eq.
  split; [done|]. split; [done|]. split.
  - by apply insert_subseteq.
  - by apply map_size_insert_None.
Qed.

(** X6. Delete, then read or delete again: after a delete request
    answered 200, a read of the same id is answered 404 and a second
    delete of it is answered 404 and changes nothing. *)
Theorem delete_then_gone id w res w' :
  delete_student id w = (Normal res, w') →
  statusCode res = 200 →
  get_student id w' =
    (Normal (mkResponse 404 (JsonError "Student not found")), w')
  ∧ delete_student id w' =
    (Normal (mkResponse 404 (JsonError "Student not found")), w')
  ∧ S (size (students w')) = size (students w).
Proof.
  rewrite delete_student_eq.
  destruct (students w !! id) as [d|] eqn:Hd; [|by intros [= <- <-]].
  intros [= <- <-] _.
  assert (Hgone : students
                    (if Nat.eqb (size (delete id (students w))) 0
                     then with_counters reset_counter
                            (with_students (delete id) w)
                     else with_students (delete id) w) !! id = None).
  { destruct (Nat.eqb _ 0); simpl; apply lookup_delete_eq. }
  rewrite get_student_eq, delete_student_eq, Hgone.
  split; [done|]. split; [done|].
  destruct (Nat.eqb _ 0); simpl;
    pose proof (map_size_delete id (students w)) as Hsz;
    rewrite Hd in Hsz; rewrite Hsz;
    assert (size (students w) ≠ 0%nat)
      by (apply map_size_ne_0_lookup_2 with id; by rewrite Hd); lia.
Qed.

(** X7. An update request that is not answered 200 (a required field
    missing, a field that is not a string, a write the store rejects, an
    id that matches no student) changes no student, no course and no
    counter; and an update request is always answered. *)
Theorem update_failure_changes_nothing id req_body w :
  ∃ res w',
    put_student id req_body w = (Normal res, w')
    ∧ counters w' = counters w
    ∧ courses w' = courses w
    ∧ (statusCode res ≠ 200 → students w' = students w)
    ∧ (statusCode res = 200 ∨ statusCode res = 400 ∨ statusCode res = 404).
Proof.
  unfold put_student, try_catch.
  destruct (missing_required req_body).
  { do 2 eexists. split; [reflexivity|]. simpl. repeat split; auto. }
  unfold mbind at 1, Async_bind, bind.
  destruct (updateData req_body w) as [[data|e] w1] eqn:Hdata.
  2: { assert (w1 = w) as ->.
       { revert Hdata. unfold updateData, call_trim. async_unfold.
         destruct (field req_body "name"); try (by intros [= _ <-]);
         destruct (field req_body "email"); try (by intros [= _ <-]);
         destruct (field req_body "course"); by intros [= _ <-]. }
       do 2 eexists. split; [reflexivity|]. simpl. repeat split; auto. }
  destruct (updateData_dom _ _ _ _ Hdata) as [-> _].
  unfold Student.findByIdAndUpdate, next_verdict. async_unfold.
  destruct w as [cs st co vs]; simpl in *.
  destruct vs as [|[e|] vs]; simpl;
    try (destruct (st !! id) as [d|] eqn:Hd; simpl);
    do 2 eexists; (split; [reflexivity|]); simpl;
    repeat split; auto; intros Hne; by destruct Hne.
Qed.

(** X9. The statistics follow the student routes: the [totalStudents] a
    statistics request reports goes up by exactly one with a create
    request answered 201 and down by exactly one with a delete request
    answered 200. *)
Theorem stats_follow_students :
  (∀ req_body w res w',
     post_student req_body w = (Normal res, w') → statusCode res = 201 →
     totalStudents_of (get_stats w').1
     = S <$> totalStudents_of (get_stats w).1)
  ∧ (∀ id w res w',
       delete_student id w = (Normal res, w') → statusCode res = 200 →
       S <$> totalStudents_of (get_stats w').1
       = totalStudents_of (get_stats w).1).
Proof.
  split.
  - intros req_body w res w' Hrun Hstatus.
    pose proof (post_student_outcome req_body w) as Hout.
    rewrite Hrun in Hout.
    destruct Hout as (_ & _ & _ & [[_ Hno]|(_ & _ & Hst)]).
    { by destruct (Hno res). }
    simpl in Hst. rewrite !get_stats_eq. simpl. f_equal.
    rewrite Hst. apply map_size_insert_None, not_elem_of_dom, is_fresh.
  - intros id w res w' Hrun Hstatus.
    revert Hrun. rewrite delete_student_eq.
    destruct (students w !! id) as [d|] eqn:Hd;
      [|intros [= <- <-]; discriminate].
    intros [= <- <-]. rewrite !get_stats_eq. simpl. f_equal.
    assert (Hsz : S (size (delete id (students w))) = size (students w)).
    { pose proof (map_size_delete id (students w)) as Hsz.
      rewrite Hd in Hsz.
      assert (size (students w) ≠ 0%nat)
        by (apply map_size_ne_0_lookup_2 with id; by rewrite Hd).
      lia. }
    by destruct (Nat.eqb _ 0).
Qed.

(** ** The ends of the success rate *)

Lemma SFdiv_core_binary_same m e :
  Z.pos (digits2_pos m) = 53 →
  SFdiv_core_binary Js.prec Js.emax (Z.pos m) e (Z.pos m) e
  = (2 ^ 53, -53, loc_Exact).
Proof.
  intros Hd. unfold SFdiv_core_binary. simpl Zdigits2. rewrite Hd.
  replace (53 + e - (53 + e)) with 0 by lia. rewrite Z.sub_diag.
  change (Z.min (fexp Js.prec Js.emax 0) 0) with (-53).
  change (0 - -53) with 53.
  rewrite Z.shiftl_mul_pow2 by lia.
  pose proof (Z_div_mod (Z.pos m * 2 ^ 53) (Z.pos m) ltac:(lia)) as Hdiv.
  destruct (Z.div_eucl (Z.pos m * 2 ^ 53) (Z.pos m)) as [q r].
  destruct Hdiv as [Hq Hr].
  assert (Hq' : q = 2 ^ 53) by nia.
  assert (Hr' : r = 0) by nia.
  subst q r. unfold new_location, new_location_even, new_location_odd.
  by destruct (Z.even (Z.pos m)).
Qed.

(** X10. The ends of the scale: with students but no inactive one the
    success rate is exactly 0, and when every student is inactive it is
    exactly 100, for every number of students a Number holds exactly. *)
Theorem successRate_none_and_all totalStudents :
  (0 < totalStudents)%nat → Z.of_nat totalStudents < 2 ^ 53 →
  successRate 0 totalStudents = Js.of_Z 0
  ∧ successRate totalStudents totalStudents = Js.of_Z 100.
Proof.
  intros Hpos Hsafe. unfold successRate.
  replace (Nat.ltb 0 totalStudents) with true
    by (symmetry; apply Nat.ltb_lt; lia).
  unfold Js.of_nat.
  destruct (of_Z_exact (Z.of_nat totalStudents) ltac:(lia))
    as (m & e & -> & _ & _ & Hd).
  split; [reflexivity|].
  unfold Js.div, SFdiv. rewrite (SFdiv_core_binary_same m e Hd).
  reflexivity.
Qed.

(** ** Deleting a course *)

Lemma count_after_delete flt id (m : gmap N Doc) d :
  m !! id = Some d →
  size (filter (λ kd : N * Doc, matches flt kd.2 = true) m)
  = ((if matches flt d then 1 else 0)
     + size (filter (λ kd : N * Doc, matches flt kd.2 = true) (delete id m)))%nat.
Proof.
  intros Hd. rewrite map_filter_delete.
  destruct (matches flt d) eqn:Hm.
  - assert (Hin : filter (λ kd : N * Doc, matches flt kd.2 = true) m !! id
                  = Some d) by (by apply map_lookup_filter_Some_2).
    rewrite map_size_delete_Some by (by rewrite Hin).
    assert (size (filter (λ kd : N * Doc, matches flt kd.2 = true) m) ≠ 0%nat)
      by (apply map_size_ne_0_lookup_2 with id; by rewrite Hin).
    lia.
  - rewrite map_size_delete_None; [done|].
    apply map_lookup_filter_None_2. right. intros d' Hd'. simpl.
    rewrite Hd in Hd'. injection Hd' as <-. by rewrite Hm.
Qed.

(** ** The create route before the student ids *)

Lemma legacy_post_student_valid req_body w :
  reaches_save req_body = true →
  legacy_post_student req_body w =
  match verdicts w with
  | Some e :: rest =>
      (Normal (mkResponse 400
                 (JsonError (if Js.code_is e 11000
                             then "Email already exists"
                             else Js.message e))),
       with_verdicts (λ _, rest) w)
  | _ =>
      (Normal (mkResponse 201
                 (JsonStudent (fresh (dom (students w)))
                    (delete "studentId" (new_student req_body 0)))),
       with_students
         (insert (fresh (dom (students w)))
            (delete "studentId" (new_student req_body 0)))
         (with_verdicts tail w))
  end.
Proof.
  intros (Hreq & name & email & course & Hn & He & Hc)%reaches_save_fields.
  unfold legacy_post_student, new_student. rewrite Hreq, Hn, He, Hc.
  rewrite delete_insert_eq.
  assert (Hfree :
    delete "studentId"
      (<["name":=Js.Str (Js.trim name)]>
         (<["email":=Js.Str (Js.toLowerCase (Js.trim email))]>
            (<["course":=Js.Str (Js.trim course)]>
               (<["enrollmentDate":=Js.Date (field req_body "enrollmentDate")]>
                  ({["status":=Js.or (field req_body "status")
                                 (Js.Str "Active")]} : Doc)))))
    = <["name":=Js.Str (Js.trim name)]>
         (<["email":=Js.Str (Js.toLowerCase (Js.trim email))]>
            (<["course":=Js.Str (Js.trim course)]>
               (<["enrollmentDate":=Js.Date (field req_body "enrollmentDate")]>
                  {["status":=Js.or (field req_body "status")
                                (Js.Str "Active")]})))).
  { apply delete_id.
    rewrite !lookup_insert_ne by done. by rewrite lookup_singleton_ne. }
  rewrite Hfree.
  unfold call_trim, Student.new, Student.save, next_verdict.
  async_unfold. destruct w as [cs st co vs]; simpl.
  destruct vs as [|[e|] vs]; simpl; try done.
  by destruct (Js.code_is e 11000).
Qed.

(** X12. The create route of the earlier revision, for a request that
    reaches [save].  A rejected write is answered 400, never 500, and any
    duplicate-key error, whatever field it names, is reported as "Email
    already exists".  An accepted write is answered 201 with the student
    the present route stores for the same request, less its [studentId],
    under the same id.  No counter is read or changed. *)
Theorem legacy_create_is_create_without_id req_body w :
  reaches_save req_body = true →
  ∃ res w',
    legacy_post_student req_body w = (Normal res, w')
    ∧ counters w' = counters w
    ∧ courses w' = courses w
    ∧ verdicts w' = tail (verdicts w)
    ∧ (∀ e rest, verdicts w = Some e :: rest →
         students w' = students w
         ∧ res = mkResponse 400
                   (JsonError (if Js.code_is e 11000
                               then "Email already exists"
                               else Js.message e)))
    ∧ (accepts_next (verdicts w) = true →
         ∃ _id student,
           (post_student req_body w).1
           = Normal (mkResponse 201 (JsonStudent _id student))
           ∧ res = mkResponse 201 (JsonStudent _id (delete "studentId" student))
           ∧ students w' = <[_id := delete "studentId" student]> (students w)
           ∧ students (post_student req_body w).2
             = <[_id := student]> (students w)).
Proof.
  intros Hreach. rewrite legacy_post_student_valid by done.
  assert (Hpost : accepts_next (verdicts w) = true →
            post_student req_body w =
            (Normal (mkResponse 201
                       (JsonStudent (fresh (dom (students w)))
                          (new_student req_body
                             (current_value w "studentId" + 1)))),
             with_students
               (insert (fresh (dom (students w)))
                  (new_student req_body (current_value w "studentId" + 1)))
               (turn_spent w))).
  { intros Hacc. rewrite post_student_valid by done.
    apply try_catch_normal. unfold MAX_RETRIES. cbn [retry_loop].
    erewrite bind_normal by (by apply create_attempt_accepted).
    reflexivity. }
  assert (Hsame : ∀ n, delete "studentId" (new_student req_body n)
                       = delete "studentId" (new_student req_body 0)).
  { intros n. unfold new_student. by rewrite !delete_insert_eq. }
  destruct (verdicts w) as [|[e|] vs] eqn:Hvs.
  - do 2 eexists. split; [reflexivity|]. simpl. rewrite Hvs.
    repeat split; try done. intros _.
    rewrite (Hpost eq_refl). do 2 eexists. split; [reflexivity|].
    cbn [fst snd students with_students].
    by rewrite (Hsame (current_value w "studentId" + 1)).
  - do 2 eexists. split; [reflexivity|]. simpl.
    split_and!; try done.
    by intros e' rest' [= <- <-].
  - do 2 eexists. split; [reflexivity|]. simpl. rewrite Hvs.
    repeat split; try done. intros _.
    rewrite (Hpost eq_refl). do 2 eexists. split; [reflexivity|].
    cbn [fst snd students with_students].
    by rewrite (Hsame (current_value w "studentId" + 1)).
Qed.

(** ** The delete routes, from the parameter *)

Lemma delete_student_route_eq req_params_id w :
  delete_student_route req_params_id w =
  match ObjectId.cast req_params_id with
  | Some _id => delete_student _id w
  | None =>
      (Normal (mkResponse 500
                 (JsonError (Js.message (CastError req_params_id "Student")))),
       w)
  end.
Proof.
  unfold delete_student_route, delete_student, Student_findByIdAndDelete_cast.
  by destruct (ObjectId.cast req_params_id).
Qed.

(** C8, amended: a delete request whose id parameter matches no student
    leaves the database exactly as it was (the students, the counters,
    no reset on this path).  It is answered 404 "Student not found" when
    the parameter is a well-formed ObjectId, and 500 with the message of
    the cast error when it is not. *)
Theorem delete_unknown_is_not_found req_params_id w :
  (∀ _id, ObjectId.cast req_params_id = Some _id → students w !! _id = None) →
  delete_student_route req_params_id w =
  (Normal
     (match ObjectId.cast req_params_id with
      | Some _ => mkResponse 404 (JsonError "Student not found")
      | None =>
          mkResponse 500
            (JsonError (Js.message (CastError req_params_id "Student")))
      end), w).
Proof.
  intros Hnone. rewrite delete_student_route_eq.
  destruct (ObjectId.cast req_params_id) as [_id|]; [|done].
  rewrite delete_student_eq. by rewrite (Hnone _id eq_refl).
Qed.

(** C8, as the claim states it, fails: the parameter "abc" matches no
    student, and the request is answered 500, not 404. *)
Lemma delete_unknown_malformed_is_500 :
  ¬ (∀ req_params_id w,
       (∀ _id, ObjectId.cast req_params_id = Some _id →
               students w !! _id = None) →
       ∃ res w',
         delete_student_route req_params_id w = (Normal res, w')
         ∧ statusCode res = 404).
Proof.
  intros Hclaim.
  destruct (Hclaim "abc" two_students) as (res & w' & Hrun & Hstatus).
  { intros _id Hcast. vm_compute in Hcast. discriminate. }
  rewrite delete_student_route_eq in Hrun.
  change (ObjectId.cast "abc") with (@None N) in Hrun.
  injection Hrun as <- _. discriminate Hstatus.
Qed.

(** ** Deleting a course *)

Lemma delete_course_route_eq req_params_id w :
  delete_course_route req_params_id w =
  match ObjectId.cast req_params_id with
  | None =>
      (Normal (mkResponse 500
                 (JsonError (Js.message (CastError req_params_id "Course")))),
       w)
  | Some _id =>
      match courses w !! _id with
      | None => (Normal (mkResponse 404 (JsonError "Course not found")), w)
      | Some _ =>
          (Normal (mkResponse 200 (JsonMessage "Course deleted successfully")),
           with_courses (delete _id) w)
      end
  end.
Proof.
  unfold delete_course_route, Course_findByIdAndDelete_cast.
  destruct (ObjectId.cast req_params_id) as [_id|]; [|done].
  async_unfold. by destruct (courses w !! _id).
Qed.

(** X11. Deleting a course touches the courses only: students, counters
    and the [totalStudents] of the statistics stay.  A malformed id
    parameter is answered 500 and a well-formed one that matches no
    course 404, both without any change; otherwise the answer is 200,
    that course alone is removed, and the [activeCourses] of the
    statistics goes down by one exactly when its status was "Active". *)
Theorem delete_course_touches_courses_only req_params_id w :
  ∃ res w',
    delete_course_route req_params_id w = (Normal res, w')
    ∧ students w' = students w
    ∧ counters w' = counters w
    ∧ verdicts w' = verdicts w
    ∧ totalStudents_of (get_stats w').1 = totalStudents_of (get_stats w).1
    ∧ match ObjectId.cast req_params_id with
      | None =>
          res = mkResponse 500
                  (JsonError (Js.message (CastError req_params_id "Course")))
          ∧ w' = w
      | Some _id =>
          courses w' = delete _id (courses w)
          ∧ match courses w !! _id with
            | None =>
                res = mkResponse 404 (JsonError "Course not found") ∧ w' = w
            | Some course =>
                res = mkResponse 200
                        (JsonMessage "Course deleted successfully")
                ∧ activeCourses_of (get_stats w).1
                  = (λ n, if matches {["status" := Js.Str "Active"]} course
                          then S n else n)
                    <$> activeCourses_of (get_stats w').1
            end
      end.
Proof.
  rewrite delete_course_route_eq.
  destruct (ObjectId.cast req_params_id) as [_id|].
  2: { do 2 eexists. by split_and!. }
  destruct (courses w !! _id) as [course|] eqn:Hc.
  - do 2 eexists. split; [reflexivity|]. rewrite !get_stats_eq.
    simpl. split_and!; try done. f_equal.
    rewrite (count_after_delete _ _id (courses w) course Hc).
    by destruct (matches _ course).
  - do 2 eexists. split; [reflexivity|]. split_and!; try done.
    symmetry. by apply delete_id.
Qed.

(** ** Updating twice *)

Lemma updateData_pure req_body w c w' :
  updateData req_body w = (c, w') →
  w' = w ∧ ∀ w0, updateData req_body w0 = (c, w0).
Proof.
  unfold updateData, call_trim. async_unfold.
  destruct (field req_body "name"); try (by intros [= <- <-]);
  destruct (field req_body "email"); try (by intros [= <- <-]);
  destruct (field req_body "course"); by intros [= <- <-].
Qed.

(** X8. Updating twice is updating once, but for the time stamp: when an
    update request is answered 200 and the store accepts the same
    request again, the second answer is 200 with the same student, and
    the database is left as the first request left it, except that
    [updatedAt] of that student is the time of the second update.  No
    counter changes. *)
Theorem update_idempotent now1 now2 req_params_id req_body w res w1 :
  put_student_route now1 req_params_id req_body w = (Normal res, w1) →
  statusCode res = 200 →
  accepts_next (verdicts w1) = true →
  ∃ _id student w2,
    ObjectId.cast req_params_id = Some _id
    ∧ res = mkResponse 200 (JsonStudent _id student)
    ∧ students w1 !! _id = Some student
    ∧ student !! "updatedAt" = Some (Js.Date (Js.Num now1))
    ∧ put_student_route now2 req_params_id req_body w1 =
      (Normal (mkResponse 200
                 (JsonStudent _id
                    (<["updatedAt" := Js.Date (Js.Num now2)]> student))), w2)
    ∧ students w2 =
      <[_id := <["updatedAt" := Js.Date (Js.Num now2)]> student]> (students w1)
    ∧ counters w2 = counters w1
    ∧ courses w2 = courses w1.
Proof.
  unfold put_student_route, try_catch.
  destruct (missing_required req_body); [by intros [= <- <-]|].
  unfold mbind at 1 3, Async_bind, bind.
  destruct (updateData req_body w) as [[data|e] w0] eqn:Hdata.
  2: { destruct (updateData_pure _ _ _ _ Hdata) as [-> _].
       by intros [= <- <-]. }
  destruct (updateData_pure _ _ _ _ Hdata) as [-> Hpure].
  rewrite (Hpure w1). unfold Student_findByIdAndUpdate_at.
  destruct (ObjectId.cast req_params_id) as [_id|];
    [|async_unfold; by intros [= <- <-]].
  unfold Student.findByIdAndUpdate, next_verdict. async_unfold.
  destruct w as [cs st co vs]; simpl.
  assert (Hup : ∀ t d,
            <["updatedAt" := Js.Date (Js.Num t)]>
              ((<["updatedAt" := Js.Date (Js.Num now1)]> data) ∪ d)
            = (<["updatedAt" := Js.Date (Js.Num t)]> data)
              ∪ ((<["updatedAt" := Js.Date (Js.Num now1)]> data) ∪ d)).
  { intros t d. apply map_eq. intros k.
    destruct (decide (k = "updatedAt")) as [->|Hk].
    - rewrite lookup_insert_eq. symmetry.
      apply lookup_union_Some_l, lookup_insert_eq.
    - rewrite lookup_insert_ne by done.
      rewrite !lookup_union, !lookup_insert_ne by done.
      destruct (data !! k), (d !! k); done. }
  destruct vs as [|[e|] vs]; simpl;
    try (by intros [= <- <-]);
    (destruct (st !! _id) as [d|] eqn:Hd; simpl; [|by intros [= <- <-]]);
    intros [= <- <-] _; simpl.
  - intros _. do 3 eexists. split; [done|]. split; [done|].
    rewrite lookup_insert_eq. split; [done|]. split.
    { apply lookup_union_Some_l, lookup_insert_eq. }
    rewrite <- Hup. by split_and!.
  - destruct vs as [|[e|] vs]; simpl; try done; intros _;
      do 3 eexists; (split; [done|]); (split; [done|]);
      rewrite lookup_insert_eq; (split; [done|]);
      (split; [apply lookup_union_Some_l, lookup_insert_eq|]);
      rewrite <- Hup; by split_and!.
Qed.

(** ** The search box *)

Lemma append_nil_l (s : string) : "" ++ s = s.
Proof. reflexivity. Qed.

Lemma append_cons (c : ascii) (a b : string) :
  String c a ++ b = String c (a ++ b).
Proof. reflexivity. Qed.

Lemma prefix_app sub s :
  String.prefix sub s = true ↔ ∃ b, s = sub ++ b.
Proof.
  revert s. induction sub as [|c sub IH]; intros s.
  - split; [intros _; by exists s | by destruct s].
  - destruct s as [|c' s]; simpl.
    + split; [done | by intros [b Hb]].
    + destruct (Ascii.ascii_dec c c') as [<-|Hne].
      * rewrite IH. split; intros [b Hb]; exists b.
        -- by rewrite append_cons, Hb.
        -- rewrite append_cons in Hb. by injection Hb.
      * split; [done|]. intros [b Hb]. rewrite append_cons in Hb.
        injection Hb as <- _. done.
Qed.

Lemma includes_app s sub :
  Js.includes s sub = true ↔ ∃ a b, s = a ++ sub ++ b.
Proof.
  induction s as [|c s IH].
  - cbn [Js.includes]. rewrite orb_false_r, prefix_app. split.
    + intros [b Hb]. by exists "", b.
    + intros (a & b & Hab). destruct a; [by exists b|discriminate].
  - cbn [Js.includes]. rewrite orb_true_iff, prefix_app, IH. split.
    + intros [[b Hb]|(a & b & Hab)].
      * by exists "", b.
      * exists (String c a), b. by rewrite append_cons, Hab.
    + intros (a & b & Hab). destruct a as [|c' a].
      * left. by exists b.
      * right. exists a, b. rewrite append_cons in Hab. by injection Hab.
Qed.



Lemma includes_empty s : Js.includes s "" = true.
Proof. apply includes_app. by exists "", s. Qed.





Section SearchLemmas.

Variables (toString toLocaleDateString : Js.Val → string).
Variable toLowerCase : string → string.
Hypothesis toLowerCase_ascii : ascii_lowering toLowerCase.

Lemma lower_includes_searchable student name searchTerm :
  is_str (field student name) = true →
  ∃ b, lower_includes toLowerCase student name searchTerm = Normal b
       ∧ (searchTerm = "" → b = true).
Proof.
  unfold lower_includes. destruct (field student name); try done.
  intros _. eexists. split; [done|]. intros ->.
  rewrite (toLowerCase_ascii "") by done. apply includes_empty.
Qed.



Lemma filteredStudents_sublist students searchTerm shown :
  filteredStudents toString toLowerCase students searchTerm = Normal shown →
  shown `sublist_of` students.
Proof.
  revert shown. induction students as [|student rest IH]; intros shown; simpl.
  - by intros [= <-].
  - destruct (search_matches toString toLowerCase student searchTerm)
      as [keep|]; [|done].
    destruct (filteredStudents toString toLowerCase rest searchTerm)
      as [kept|]; [|done].
    intros [= <-]. destruct keep.
    + by apply sublist_skip, IH.
    + by apply sublist_cons, IH.
Qed.

Lemma search_matches_searchable student searchTerm :
  searchable student = true →
  ∃ keep, search_matches toString toLowerCase student searchTerm
          = Normal keep
          ∧ (searchTerm = "" → keep = true).
Proof.
  intros [[Hn He]%andb_true_iff Hc]%andb_true_iff.
  unfold search_matches.
  destruct (lower_includes_searchable student "name" searchTerm Hn)
    as (b1 & -> & Hb1).
  destruct b1; [by exists true|].
  destruct (lower_includes_searchable student "email" searchTerm He)
    as (b2 & -> & Hb2).
  destruct b2; [by exists true|].
  destruct (lower_includes_searchable student "course" searchTerm Hc)
    as (b3 & -> & Hb3).
  destruct b3; [by exists true|].
  eexists. split; [done|]. intros Ht. by specialize (Hb1 Ht).
Qed.

Lemma filteredStudents_searchable students searchTerm :
  Forall (λ student, searchable student = true) students →
  ∃ shown,
    filteredStudents toString toLowerCase students searchTerm = Normal shown
    ∧ (searchTerm = "" → shown = students).
Proof.
  induction 1 as [|student rest Hstr _ (kept & IH & Hkept)]; simpl.
  { by exists []. }
  destruct (search_matches_searchable student searchTerm Hstr)
    as (keep & -> & Hkeep).
  rewrite IH. eexists. split; [done|]. intros Ht.
  by rewrite (Hkeep Ht), (Hkept Ht).
Qed.


Lemma createStudentRow_displayable student :
  displayable student = true →
  ∃ row, createStudentRow toString toLocaleDateString toLowerCase student
         = Normal row.
Proof.
  intros [[_ Hstatus]%andb_true_iff Hid]%andb_true_iff.
  unfold createStudentRow, displayId, status_class.
  destruct (field student "status"); try done.
  destruct (Js.truthy (field student "studentId")); [by eexists|].
  destruct (field student "_id"); try done. by eexists.
Qed.

(** The rows of a list of students that can all be shown, and those of
    any part of the list. *)
Lemma appendRows_displayable students :
  Forall (λ student, displayable student = true) students →
  ∃ rows,
    appendRows toString toLocaleDateString toLowerCase students = Normal rows
    ∧ Forall2 (λ student row,
                 createStudentRow toString toLocaleDateString toLowerCase
                   student = Normal row) students rows.
Proof.
  induction 1 as [|student rest Hd _ (rows & IH & Hrows)]; simpl.
  { exists []. by split. }
  destruct (createStudentRow_displayable student Hd) as (row & Hrow).
  rewrite Hrow, IH. exists (row :: rows). split; [done|]. by constructor.
Qed.


End SearchLemmas.

Lemma Forall_sublist_of {A} (P : A → Prop) (l l' : list A) :
  l `sublist_of` l' → Forall P l' → Forall P l.
Proof.
  induction 1 as [|x l l' _ IH|x l l' _ IH]; intros Hall.
  - done.
  - apply Forall_cons_1 in Hall as [Hx Hall]. constructor; auto.
  - apply Forall_cons_1 in Hall as [_ Hall]. auto.
Qed.

Lemma displayable_searchable students :
  Forall (λ student, displayable student = true) students →
  Forall (λ student, searchable student = true) students.
Proof.
  induction 1 as [|student rest Hd _ IH]; constructor; [|done].
  by apply andb_true_iff in Hd as [[? _]%andb_true_iff _].
Qed.

(** X13. With students the table can show ([name], [email], [course] and
    [status] are strings, and there is a [studentId] or a string [_id])
    a search never throws, whatever the term: the table shows the rows
    of some of the students, in the order of the list, and for the empty
    term the rows of all of them. *)
Theorem search_total_on_strings toString toLocaleDateString toLowerCase
    students searchTerm :
  ascii_lowering toLowerCase →
  Forall (λ student, displayable student = true) students →
  ∃ shown rows,
    filterStudents toString toLocaleDateString toLowerCase students searchTerm
    = Normal rows
    ∧ Forall2 (λ student row,
                 createStudentRow toString toLocaleDateString toLowerCase
                   student = Normal row) shown rows
    ∧ shown `sublist_of` students
    ∧ (searchTerm = "" → shown = students).
Proof.
  intros Hlower Hall.
  destruct (filteredStudents_searchable toString toLowerCase Hlower
              students searchTerm (displayable_searchable _ Hall))
    as (shown & Hrun & Hempty).
  pose proof (filteredStudents_sublist _ _ _ _ _ Hrun) as Hsub.
  destruct (appendRows_displayable toString toLocaleDateString toLowerCase
              shown) as (rows & Hrows & Hall2).
  { by eapply Forall_sublist_of. }
  exists shown, rows. unfold filterStudents. rewrite Hrun. by split_and!.
Qed.


(** ** The handlers at their awaits *)

Lemma simulates_ret {A} (a : A) : simulates (mret a) (ret a).
Proof. by intros w. Qed.

Lemma simulates_throw {A} e : simulates (@task_throw A e) (throw e).
Proof. by intros w. Qed.

Lemma simulates_await {X} (call : Async X) : simulates (await call) call.
Proof. intros w. simpl. by destruct (call w). Qed.

Lemma simulates_bind {A B} (t : Task A) (k : A → Task B) m f :
  simulates t m → (∀ a, simulates (k a) (f a)) →
  simulates (t ≫= k) (m ≫= f).
Proof.
  intros Ht Hk w. unfold mbind, Task_bind, Async_bind, bind.
  rewrite <- (Ht w). clear Ht m. revert w.
  induction t as [[a|e]|X call k' IH]; intros w; simpl.
  - apply Hk.
  - done.
  - apply IH.
Qed.

Lemma simulates_try_catch {A} (t : Task A) h m g :
  simulates t m → (∀ e, simulates (h e) (g e)) →
  simulates (task_try_catch t h) (try_catch m g).
Proof.
  intros Ht Hh w. unfold try_catch. rewrite <- (Ht w). clear Ht m. revert w.
  induction t as [[a|e]|X call k' IH]; intros w; simpl.
  - done.
  - apply Hh.
  - apply IH.
Qed.

Lemma simulates_if {A} (b : bool) (t1 t2 : Task A) m1 m2 :
  simulates t1 m1 → simulates t2 m2 →
  simulates (if b then t1 else t2) (if b then m1 else m2).
Proof. by destruct b. Qed.

Lemma simulates_ext {A} (t : Task A) m m' :
  simulates t m → (∀ w, m w = m' w) → simulates t m'.
Proof. intros Ht Hm w. by rewrite <- Hm. Qed.

Ltac sim_step :=
  repeat first
    [ progress intros
    | apply simulates_try_catch
    | apply simulates_bind
    | apply simulates_if
    | apply simulates_await
    | apply simulates_ret
    | apply simulates_throw
    | match goal with
      | |- simulates (match ?x with _ => _ end) _ => destruct x
      end ].

Lemma simulates_getNextSequenceValue name :
  simulates (Tasks.getNextSequenceValue name) (getNextSequenceValue name).
Proof. unfold Tasks.getNextSequenceValue, getNextSequenceValue. sim_step. Qed.

Lemma simulates_call_trim name v :
  simulates (Tasks.call_trim name v) (call_trim name v).
Proof. unfold Tasks.call_trim, call_trim. sim_step. Qed.

Lemma simulates_create_catch attempt error :
  simulates (Tasks.create_catch attempt error) (create_catch attempt error).
Proof. unfold Tasks.create_catch, create_catch. sim_step. Qed.

Lemma simulates_create_attempt req_body attempt :
  simulates (Tasks.create_attempt req_body attempt)
            (create_attempt req_body attempt).
Proof.
  unfold Tasks.create_attempt, create_attempt. cbv zeta.
  apply simulates_try_catch; [|apply simulates_create_catch].
  apply simulates_bind; [apply simulates_getNextSequenceValue|].
  intros generatedStudentId.
  apply simulates_bind; [apply simulates_call_trim|]. intros name'.
  apply simulates_bind; [apply simulates_call_trim|]. intros email'.
  apply simulates_bind; [apply simulates_call_trim|]. intros course'.
  eapply simulates_ext.
  { apply simulates_bind; [apply simulates_await|].
    intros student. apply simulates_ret. }
  intros w. unfold Student.new, Student.save, next_verdict. async_unfold.
  by destruct (verdicts w) as [|[e|] vs].
Qed.

Lemma simulates_retry_loop req_body turns_left attempt :
  simulates (Tasks.retry_loop req_body turns_left attempt)
            (retry_loop req_body turns_left attempt).
Proof.
  revert attempt. induction turns_left as [|turns_left IH]; intros attempt;
    cbn [Tasks.retry_loop retry_loop].
  - apply simulates_ret.
  - apply simulates_bind; [apply simulates_create_attempt|].
    intros [res|]; [apply simulates_ret | apply IH].
Qed.

Lemma simulates_updateData req_body :
  simulates (Tasks.updateData req_body) (updateData req_body).
Proof. unfold Tasks.updateData, updateData. sim_step; apply simulates_call_trim. Qed.

(** Every handler, run with nothing in between, is its route. *)
Lemma handler_simulates_route req : simulates (handler req) (route req).
Proof.
  destruct req as [req_body|now id req_body|id|id| |id];
    cbn [handler route].
  - unfold Tasks.post_student, post_student.
    apply simulates_try_catch; [|sim_step].
    apply simulates_if; [apply simulates_ret | apply simulates_retry_loop].
  - unfold Tasks.put_student, put_student_route.
    apply simulates_try_catch; [|sim_step].
    apply simulates_if; [apply simulates_ret|].
    apply simulates_bind; [apply simulates_updateData|]. sim_step.
  - unfold Tasks.delete_student, delete_student_route. sim_step.
  - unfold Tasks.get_student, get_student. sim_step.
  - unfold Tasks.get_stats, get_stats. sim_step.
  - unfold Tasks.delete_course, delete_course_route. sim_step.
Qed.

(** ** The student ids under requests one at a time, and otherwise *)

Lemma put_student_route_effect now req_params_id req_body w :
  ∃ res w',
    put_student_route now req_params_id req_body w = (Normal res, w')
    ∧ counters w' = counters w
    ∧ courses w' = courses w
    ∧ (students w' = students w
       ∨ ∃ _id d data,
           students w !! _id = Some d
           ∧ dom data = update_fields
           ∧ students w' =
             <[_id := (<["updatedAt" := Js.Date (Js.Num now)]> data) ∪ d]>
               (students w)).
Proof.
  unfold put_student_route, try_catch.
  destruct (missing_required req_body).
  { do 2 eexists. split; [reflexivity|]. split_and!; auto. }
  unfold mbind at 1, Async_bind, bind.
  destruct (updateData req_body w) as [[data|e] w0] eqn:Hdata.
  2: { destruct (updateData_pure _ _ _ _ Hdata) as [-> _].
       do 2 eexists. split; [reflexivity|]. split_and!; auto. }
  destruct (updateData_dom _ _ _ _ Hdata) as [-> Hdom].
  unfold Student_findByIdAndUpdate_at.
  destruct (ObjectId.cast req_params_id) as [_id|].
  2: { async_unfold. do 2 eexists. split; [reflexivity|]. split_and!; auto. }
  unfold Student.findByIdAndUpdate, next_verdict. async_unfold.
  destruct w as [cs st co vs]; simpl.
  destruct vs as [|[e|] vs]; simpl;
    try (destruct (st !! _id) as [d|] eqn:Hd; simpl);
    do 2 eexists; (split; [reflexivity|]); simpl; split_and!; auto;
    right; by exists _id, d, data.
Qed.

Lemma ids_in_order_put_route now req_params_id req_body w :
  ids_in_order w →
  ids_in_order (put_student_route now req_params_id req_body w).2.
Proof.
  intros Hinv.
  destruct (put_student_route_effect now req_params_id req_body w)
    as (res & w' & -> & Hcs & _ & [Hst|Hupd]); simpl.
  { by apply (ids_in_order_same w). }
  destruct Hupd as (id & d & data & Hd & Hdom & Hst).
  assert (Hkeep : ((<["updatedAt" := Js.Date (Js.Num now)]> data) ∪ d)
                    !! "studentId" = d !! "studentId").
  { apply lookup_union_r. rewrite lookup_insert_ne by done.
    apply not_elem_of_dom. rewrite Hdom. unfold update_fields.
    rewrite !elem_of_union, !elem_of_singleton. intros H.
    repeat (destruct H as [H|H]); discriminate. }
  destruct Hinv as (H0 & Hrange & Huniq).
  unfold ids_in_order, current_value. rewrite Hcs, Hst.
  fold (current_value w "studentId").
  split; [done|]. split.
  - intros id' d' n Hd' Hn.
    destruct (decide (id' = id)) as [->|Hne].
    + rewrite lookup_insert_eq in Hd'. injection Hd' as <-.
      rewrite Hkeep in Hn. by apply (Hrange id d n).
    + rewrite lookup_insert_ne in Hd' by done. by apply (Hrange id' d' n).
  - intros id1 id2 d1 d2 v Hd1 Hd2 Hv1 Hv2.
    destruct (decide (id1 = id)) as [->|Hne1];
      destruct (decide (id2 = id)) as [->|Hne2]; try done.
    + rewrite lookup_insert_eq in Hd1. injection Hd1 as <-.
      rewrite lookup_insert_ne in Hd2 by done. rewrite Hkeep in Hv1.
      by apply (Huniq id id2 d d2 v).
    + rewrite lookup_insert_eq in Hd2. injection Hd2 as <-.
      rewrite lookup_insert_ne in Hd1 by done. rewrite Hkeep in Hv2.
      by apply (Huniq id1 id d1 d v).
    + rewrite lookup_insert_ne in Hd1, Hd2 by done.
      by apply (Huniq id1 id2 d1 d2 v).
Qed.

(** Every route, run with nothing in between, keeps the ids in order. *)
Lemma ids_in_order_route req w :
  ids_in_order w → ids_in_order (route req w).2.
Proof.
  intros Hinv. destruct req as [req_body|now id req_body|id|id| |id];
    cbn [route].
  - by apply ids_in_order_post.
  - by apply ids_in_order_put_route.
  - rewrite delete_student_route_eq.
    destruct (ObjectId.cast id); [by apply ids_in_order_delete | done].
  - by rewrite get_student_eq.
  - by rewrite get_stats_eq.
  - rewrite delete_course_route_eq.
    destruct (ObjectId.cast id) as [_id|]; [|done].
    destruct (courses w !! _id); [|done]. by apply (ids_in_order_same w).
Qed.

Lemma run_task_settled {A} (t : Task A) w :
  settled t = true → (run_task t w).2 = w.
Proof. by destruct t. Qed.

Lemma resume_settled {A} (t : Task A) w :
  settled t = true → resume t w = (t, w).
Proof. by destruct t. Qed.

Lemma run_task_resume {A} (t : Task A) w :
  run_task (resume t w).1 (resume t w).2 = run_task t w.
Proof. by destruct t. Qed.

Lemma one_running_idle s :
  idle s = true → one_running s → ids_in_order (database s).
Proof.
  intros Hidle [[_ Hinv]|(l1 & t & l2 & Hreq & _ & _ & Hinv)]; [done|].
  unfold idle in Hidle. rewrite Hreq, forallb_app in Hidle.
  apply andb_true_iff in Hidle as [_ Ht]. simpl in Ht.
  apply andb_true_iff in Ht as [Ht _].
  by rewrite run_task_settled in Hinv.
Qed.

Lemma idle_one_running s :
  idle s = true → ids_in_order (database s) → one_running s.
Proof.
  intros Hidle Hinv. destruct (requests s) as [|t l] eqn:Hreq.
  { by left. }
  right. exists [], t, l. unfold idle in Hidle. rewrite Hreq in Hidle.
  simpl in Hidle. apply andb_true_iff in Hidle as [Ht Hl].
  split_and!; try done. by rewrite run_task_settled.
Qed.

Lemma one_running_arrives req s :
  idle s = true → one_running s → one_running (turn (Arrives req) s).
Proof.
  intros Hidle Hone. pose proof (one_running_idle s Hidle Hone) as Hinv.
  right. exists (requests s), (handler req), []. simpl.
  split_and!; try done.
  rewrite (handler_simulates_route req). by apply ids_in_order_route.
Qed.

Lemma one_running_resumes i s :
  one_running s → one_running (turn (Resumes i) s).
Proof.
  intros Hone. cbn [turn].
  destruct (requests s !! i) as [task|] eqn:Hi; [|done].
  destruct (settled task) eqn:Htask.
  { rewrite resume_settled by done. simpl.
    rewrite list_insert_id by done. by destruct s. }
  destruct Hone as [[Hreq _]|(l1 & t & l2 & Hreq & Hl1 & Hl2 & Hinv)].
  { by rewrite Hreq in Hi. }
  assert (Hpos : i = length l1 ∧ task = t).
  { rewrite Hreq in Hi. apply lookup_app_Some in Hi as [Hi|[Hlen Hi]].
    - apply list_elem_of_lookup_2, list_elem_of_In in Hi.
      rewrite forallb_forall in Hl1. apply Hl1 in Hi. congruence.
    - destruct (i - length l1)%nat as [|j] eqn:Hj; simpl in Hi.
      + injection Hi as <-. split; [lia | done].
      + apply list_elem_of_lookup_2, list_elem_of_In in Hi.
        rewrite forallb_forall in Hl2. apply Hl2 in Hi. congruence. }
  destruct Hpos as [-> ->].
  right. exists l1, (resume t (database s)).1, l2. simpl.
  split_and!; try done.
  - rewrite Hreq. rewrite insert_app_r_alt by lia.
    by replace (length l1 - length l1)%nat with 0%nat by lia.
  - by rewrite run_task_resume.
Qed.

Lemma one_running_turns ts s :
  one_at_a_time ts s = true → one_running s → one_running (turns ts s).
Proof.
  revert s. induction ts as [|t ts IH]; intros s; simpl; [done|].
  intros [Ht Hts]%andb_true_iff Hone. apply IH; [done|].
  destruct t as [req|i].
  - by apply one_running_arrives.
  - by apply one_running_resumes.
Qed.

Lemma one_running_start vs : one_running (start vs).
Proof.
  left. split; [done|].
  by apply (ids_in_order_same empty_world), ids_in_order_empty.
Qed.

(** X4. While requests are handled one at a time (a request arrives only
    when the earlier ones are answered), the routes keep the student ids
    in order: once every request is answered, no two stored students
    share a [studentId] and every [studentId] lies between 1 and the
    counter, whatever the store rejected.  When requests overlap this is
    lost: with a create between the count and the reset of a delete of
    the last student, and a store that accepts every write, two stored
    students end up with the same [studentId]. *)
Theorem student_ids_stay_unique :
  (∀ ts s,
     one_at_a_time ts s = true → idle s = true →
     ids_in_order (database s) →
     idle (turns ts s) = true →
     ids_in_order (database (turns ts s)))
  ∧ (∀ vs ts id1 id2 d1 d2 n1 n2,
       one_at_a_time ts (start vs) = true →
       idle (turns ts (start vs)) = true →
       students (database (turns ts (start vs))) !! id1 = Some d1 →
       students (database (turns ts (start vs))) !! id2 = Some d2 →
       d1 !! "studentId" = Some (Js.Num n1) →
       d2 !! "studentId" = Some (Js.Num n2) →
       1 ≤ n1 ∧ (id1 ≠ id2 → n1 ≠ n2))
  ∧ (one_at_a_time reset_race (start []) = false
     ∧ idle (turns reset_race (start [])) = true
     ∧ ∃ id1 id2 d1 d2 n,
         id1 ≠ id2
         ∧ students (database (turns reset_race (start []))) !! id1 = Some d1
         ∧ students (database (turns reset_race (start []))) !! id2 = Some d2
         ∧ d1 !! "studentId" = Some (Js.Num n)
         ∧ d2 !! "studentId" = Some (Js.Num n)).
Proof.
  split_and!.
  - intros ts s Hts Hidle Hinv Hend.
    apply one_running_idle; [done|].
    apply one_running_turns; [done|]. by apply idle_one_running.
  - intros vs ts id1 id2 d1 d2 n1 n2 Hts Hend Hd1 Hd2 Hn1 Hn2.
    pose proof (one_running_idle _ Hend
                  (one_running_turns ts _ Hts (one_running_start vs)))
      as (_ & Hrange & Huniq).
    split; [by apply (Hrange id1 d1 n1)|].
    intros Hne ->. by apply Hne, (Huniq id1 id2 d1 d2 (Js.Num n2)).
  - vm_compute. reflexivity.
  - vm_compute. reflexivity.
  - exists 0%N, 2%N, (new_student alan 2), (new_student alan 2), 2.
    split; [done|]. split_and!; vm_compute; reflexivity.
Qed.

(** ** Examples *)

Example trim_ex : Js.trim "  Ada Lovelace " = "Ada Lovelace".
Proof. reflexivity. Qed.

Example toLowerCase_ex : Js.toLowerCase "Ada@Example.ORG" = "ada@example.org".
Proof. reflexivity. Qed.

Example includes_ex :
  Js.includes id_exhausted_message "unique Student ID" = true
  ∧ Js.includes id_exhausted_message "A duplicate email was found" = false
  ∧ Js.includes duplicate_email_message "A duplicate email was found" = true.
Proof. repeat split; reflexivity. Qed.

(** 29 of 200 is 14.5 percent, but [29 / 200 * 100] is
    14.499999999999998 in binary64, and the rate is 14. *)
Example successRate_29_of_200 :
  Js.mul (Js.div (Js.of_Z 29) (Js.of_Z 200)) (Js.of_Z 100)
  = S754_finite false 8162774324609023 (-49)
  ∧ successRate 29 200 = Js.of_Z 14.
Proof. split; by vm_compute. Qed.

Example successRate_1_of_3 : successRate 1 3 = Js.of_Z 33.
Proof. by vm_compute. Qed.

Example successRate_all : successRate 3 3 = Js.of_Z 100.
Proof. by vm_compute. Qed.

(** ** The theorems at concrete requests *)

Lemma delete_resets_counter_iff_last_witness :
  students two_students !! 0%N = Some (new_student ada 1)
  ∧ ∃ w',
      delete_student 0 two_students =
      (Normal (mkResponse 200 (JsonMessage "Student deleted successfully")), w')
      ∧ students w' = delete 0%N (students two_students)
      ∧ (students w' = ∅ →
           counters w' !! "studentId"
           = (λ _, 0) <$> counters two_students !! "studentId"
           ∧ current_value w' "studentId" = 0
           ∧ ∀ name, name ≠ "studentId" →
               counters w' !! name = counters two_students !! name)
      ∧ (students w' ≠ ∅ → counters w' = counters two_students).
Proof.
  assert (H : students two_students !! 0%N = Some (new_student ada 1))
    by (vm_compute; reflexivity).
  split; [exact H|].
  exact (delete_resets_counter_iff_last 0 two_students _ H).
Defined.

Lemma nextId_strictly_increasing_witness :
  let ops := [ReqPostStudent ada; ReqDeleteStudent 0; CallNextId "courseId";
              ReqGetStats; CallNextId "studentId"] in
  no_reset ops (getNextSequenceValue "studentId" two_students).2 = true
  ∧ ∃ v1 w1 v2 w2,
      getNextSequenceValue "studentId" two_students = (Normal v1, w1)
      ∧ getNextSequenceValue "studentId" (run ops w1) = (Normal v2, w2)
      ∧ v1 < v2 ∧ v1 ≠ v2.
Proof.
  cbv zeta.
  assert (H : no_reset
                [ReqPostStudent ada; ReqDeleteStudent 0;
                 CallNextId "courseId"; ReqGetStats; CallNextId "studentId"]
                (getNextSequenceValue "studentId" two_students).2 = true)
    by (vm_compute; reflexivity).
  split; [exact H|].
  exact (nextId_strictly_increasing "studentId" _ two_students H).
Defined.

Lemma create_exhausted_witness :
  let errs := replicate 5 studentId_index_clash in
  let w := with_verdicts (λ _, Some <$> errs) two_students in
  ∃ w',
    retry_loop ada MAX_RETRIES 0 w =
      (Throw (Js.newError id_exhausted_message), w')
    ∧ post_student ada w =
      (Normal (mkResponse 500 (JsonError id_exhausted_message)), w')
    ∧ students w' = students w
    ∧ courses w' = courses w
    ∧ verdicts w' = []
    ∧ counters w' =
      <["studentId" := current_value w "studentId" + 5]> (counters w).
Proof.
  cbv zeta.
  apply (create_exhausted ada
           (with_verdicts (λ _, Some <$> replicate 5 studentId_index_clash)
              two_students)
           (replicate 5 studentId_index_clash) []).
  - reflexivity.
  - reflexivity.
  - repeat constructor.
  - reflexivity.
Defined.

Lemma create_retry_transparent_witness :
  let errs := replicate 2 studentId_index_clash in
  let w := with_verdicts (λ _, Some <$> errs) two_students in
  let _id := fresh (dom (students w)) in
  let student := new_student ada (current_value w "studentId" + 2 + 1) in
  ∃ w',
    post_student ada w =
      (Normal (mkResponse 201 (JsonStudent _id student)), w')
    ∧ students w !! _id = None
    ∧ students w' = <[_id := student]> (students w)
    ∧ student !! "studentId"
      = Some (Js.Num (current_value w "studentId" + 2 + 1))
    ∧ courses w' = courses w
    ∧ verdicts w' = []
    ∧ counters w' =
      <["studentId" := current_value w "studentId" + 2 + 1]> (counters w).
Proof.
  cbv zeta.
  apply (create_retry_transparent ada
           (with_verdicts (λ _, Some <$> replicate 2 studentId_index_clash)
              two_students)
           (replicate 2 studentId_index_clash) []).
  - reflexivity.
  - unfold MAX_RETRIES. simpl. lia.
  - repeat constructor.
  - reflexivity.
  - reflexivity.
Defined.

Lemma update_keeps_studentId_witness :
  let res := response_of (put_student 1 ada two_students).1 in
  let w' := (put_student 1 ada two_students).2 in
  put_student 1 ada two_students = (Normal res, w')
  ∧ statusCode res = 200
  ∧ ∃ d data,
      students two_students !! 1%N = Some d
      ∧ (updateData ada two_students).1 = Normal data
      ∧ dom data = update_fields
      ∧ ("studentId" ∉ dom data)
      ∧ body res = JsonStudent 1 (data ∪ d)
      ∧ students w' = <[1%N := data ∪ d]> (students two_students)
      ∧ (data ∪ d) !! "studentId" = d !! "studentId"
      ∧ counters w' = counters two_students.
Proof.
  cbv zeta.
  assert (Hrun : put_student 1 ada two_students =
                 (Normal (response_of (put_student 1 ada two_students).1),
                  (put_student 1 ada two_students).2))
    by (vm_compute; reflexivity).
  assert (Hok : statusCode (response_of (put_student 1 ada two_students).1)
                = 200) by (vm_compute; reflexivity).
  split; [exact Hrun|]. split; [exact Hok|].
  exact (update_keeps_studentId 1 ada two_students _ _ Hrun Hok).
Defined.

Lemma stats_success_rate_in_percent_witness :
  (0 < 200)%nat ∧ (29 ≤ 200)%nat ∧ Z.of_nat 200 < 2 ^ 53
  ∧ ∃ n, 0 ≤ n ≤ 100 ∧ successRate 29 200 = Js.of_Z n.
Proof.
  assert (H1 : (0 < 200)%nat) by lia.
  assert (H2 : (29 ≤ 200)%nat) by lia.
  assert (H3 : Z.of_nat 200 < 2 ^ 53) by (vm_compute; reflexivity).
  split; [exact H1|]. split; [exact H2|]. split; [exact H3|].
  exact (proj2 (proj2 stats_success_rate_in_percent) 29%nat 200%nat H1 H2 H3).
Defined.

Lemma first_id_after_reset_is_1_witness :
  students two_students !! 0%N = Some (new_student ada 1)
  ∧ delete 0%N (students (exec (ReqDeleteStudent 1) two_students)) = ∅
  ∧ (getNextSequenceValue "studentId"
       (delete_student 0 (exec (ReqDeleteStudent 1) two_students)).2).1
    = Normal 1.
Proof.
  assert (H1 : students two_students !! 0%N = Some (new_student ada 1))
    by (vm_compute; reflexivity).
  assert (H1' : students (exec (ReqDeleteStudent 1) two_students) !! 0%N
                = Some (new_student ada 1)) by (vm_compute; reflexivity).
  assert (H2 : delete 0%N (students (exec (ReqDeleteStudent 1) two_students))
               = ∅) by (vm_compute; reflexivity).
  split; [exact H1|]. split; [exact H2|].
  exact (proj1 (proj2 (proj2 (proj2 first_id_after_reset_is_1)))
           0%N (exec (ReqDeleteStudent 1) two_students) _ H1' H2).
Defined.

Lemma initialization_idempotent_witness :
  let init := Counter.upsert_setOnInsert "courseId" INITIAL_ID_VALUE in
  counters two_students !! "courseId" = None
  ∧ ∃ w',
      init two_students = (Normal tt, w')
      ∧ length (records_named "courseId" (counters w')) = 1%nat
      ∧ counters w' = <["courseId" := 0]> (counters two_students)
      ∧ records_named "courseId" (counters w') = [("courseId", 0)]
      ∧ init w' = (Normal tt, w').
Proof.
  cbv zeta.
  assert (H : counters two_students !! "courseId" = None)
    by (vm_compute; reflexivity).
  split; [exact H|].
  destruct (initialization_idempotent "courseId" two_students)
    as (w' & Hrun & Hone & _ & Hnew & _ & Hagain).
  destruct (Hnew H) as [Hcs Hrec].
  exists w'. repeat split; assumption.
Defined.

(** ** The further properties at concrete requests *)

Lemma create_bad_body_witness :
  reaches_save numeric_name = false
  ∧ ∃ message w',
      post_student numeric_name two_students =
        (Normal (mkResponse 400 (JsonError message)), w')
      ∧ students w' = students two_students
      ∧ courses w' = courses two_students
      ∧ verdicts w' = verdicts two_students
      ∧ counters w' =
        (if missing_required numeric_name then counters two_students
         else <["studentId" := current_value two_students "studentId" + 1]>
                (counters two_students))
      ∧ (missing_required numeric_name = true →
           message = required_message ∧ w' = two_students).
Proof.
  assert (H : reaches_save numeric_name = false) by (vm_compute; reflexivity).
  split; [exact H|]. exact (create_bad_body numeric_name two_students H).
Defined.

Lemma create_other_error_not_retried_witness :
  let w := with_verdicts
             (λ _, [Some studentId_index_clash; Some validation_error; None])
             two_students in
  Js.code_is validation_error 11000 = false
  ∧ ∃ w',
      post_student ada w =
        (Normal (mkResponse 400 (JsonError (Js.message validation_error))), w')
      ∧ students w' = students w
      ∧ courses w' = courses w
      ∧ verdicts w' = [None]
      ∧ counters w' = <["studentId" := 4]> (counters w).
Proof.
  cbv zeta.
  assert (H : Js.code_is validation_error 11000 = false)
    by (vm_compute; reflexivity).
  split; [exact H|].
  apply (create_other_error_not_retried ada
           (with_verdicts
              (λ _, [Some studentId_index_clash; Some validation_error; None])
              two_students)
           [studentId_index_clash] validation_error [None]).
  - reflexivity.
  - unfold MAX_RETRIES. simpl. lia.
  - repeat constructor.
  - reflexivity.
  - exact H.
Defined.

Lemma create_email_conflict_not_retried_witness :
  let w := with_verdicts
             (λ _, [Some studentId_index_clash; Some studentId_index_clash;
                    Some email_index_clash; None])
             two_students in
  other_conflict "email" email_index_clash = true
  ∧ ∃ w',
      post_student ada w =
        (Normal (mkResponse 400 (JsonError duplicate_email_message)), w')
      ∧ students w' = students w
      ∧ courses w' = courses w
      ∧ verdicts w' = [None]
      ∧ counters w' = <["studentId" := 5]> (counters w).
Proof.
  cbv zeta.
  assert (H : other_conflict "email" email_index_clash = true)
    by (vm_compute; reflexivity).
  split; [exact H|].
  apply (create_email_conflict_not_retried ada
           (with_verdicts
              (λ _, [Some studentId_index_clash; Some studentId_index_clash;
                     Some email_index_clash; None])
              two_students)
           [studentId_index_clash; studentId_index_clash]
           email_index_clash [None]).
  - reflexivity.
  - unfold MAX_RETRIES. simpl. lia.
  - repeat constructor.
  - reflexivity.
  - exact H.
Defined.

Lemma create_then_get_witness :
  let res := response_of (post_student alan two_students).1 in
  let w' := (post_student alan two_students).2 in
  post_student alan two_students = (Normal res, w')
  ∧ statusCode res = 201
  ∧ ∃ _id student,
      body res = JsonStudent _id student
      ∧ get_student _id two_students =
        (Normal (mkResponse 404 (JsonError "Student not found")), two_students)
      ∧ get_student _id w' =
        (Normal (mkResponse 200 (JsonStudent _id student)), w')
      ∧ students two_students ⊆ students w'
      ∧ size (students w') = S (size (students two_students)).
Proof.
  cbv zeta.
  assert (Hrun : post_student alan two_students =
                 (Normal (response_of (post_student alan two_students).1),
                  (post_student alan two_students).2))
    by (vm_compute; reflexivity).
  assert (Hok : statusCode (response_of (post_student alan two_students).1)
                = 201) by (vm_compute; reflexivity).
  split; [exact Hrun|]. split; [exact Hok|].
  exact (create_then_get alan two_students _ _ Hrun Hok).
Defined.

Lemma delete_then_gone_witness :
  let res := response_of (delete_student 0 two_students).1 in
  let w' := (delete_student 0 two_students).2 in
  delete_student 0 two_students = (Normal res, w')
  ∧ statusCode res = 200
  ∧ get_student 0 w' =
    (Normal (mkResponse 404 (JsonError "Student not found")), w')
  ∧ delete_student 0 w' =
    (Normal (mkResponse 404 (JsonError "Student not found")), w')
  ∧ S (size (students w')) = size (students two_students).
Proof.
  cbv zeta.
  assert (Hrun : delete_student 0 two_students =
                 (Normal (response_of (delete_student 0 two_students).1),
                  (delete_student 0 two_students).2))
    by (vm_compute; reflexivity).
  assert (Hok : statusCode (response_of (delete_student 0 two_students).1)
                = 200) by (vm_compute; reflexivity).
  split; [exact Hrun|]. split; [exact Hok|].
  exact (delete_then_gone 0 two_students _ _ Hrun Hok).
Defined.

Lemma stats_follow_students_witness :
  let res := response_of (post_student alan two_students).1 in
  let w' := (post_student alan two_students).2 in
  post_student alan two_students = (Normal res, w')
  ∧ statusCode res = 201
  ∧ totalStudents_of (get_stats two_students).1 = Some 2%nat
  ∧ totalStudents_of (get_stats w').1
    = S <$> totalStudents_of (get_stats two_students).1.
Proof.
  cbv zeta.
  assert (Hrun : post_student alan two_students =
                 (Normal (response_of (post_student alan two_students).1),
                  (post_student alan two_students).2))
    by (vm_compute; reflexivity).
  assert (Hok : statusCode (response_of (post_student alan two_students).1)
                = 201) by (vm_compute; reflexivity).
  split; [exact Hrun|]. split; [exact Hok|].
  split; [vm_compute; reflexivity|].
  exact (proj1 stats_follow_students alan two_students _ _ Hrun Hok).
Defined.

Lemma successRate_none_and_all_witness :
  (0 < 3)%nat ∧ Z.of_nat 3 < 2 ^ 53
  ∧ successRate 0 3 = Js.of_Z 0 ∧ successRate 3 3 = Js.of_Z 100.
Proof.
  assert (H1 : (0 < 3)%nat) by lia.
  assert (H2 : Z.of_nat 3 < 2 ^ 53) by (vm_compute; reflexivity).
  split; [exact H1|]. split; [exact H2|].
  exact (successRate_none_and_all 3%nat H1 H2).
Defined.

Lemma legacy_create_is_create_without_id_witness :
  reaches_save ada = true
  ∧ accepts_next (verdicts two_students) = true
  ∧ ∃ res w' _id student,
      legacy_post_student ada two_students = (Normal res, w')
      ∧ counters w' = counters two_students
      ∧ (post_student ada two_students).1
        = Normal (mkResponse 201 (JsonStudent _id student))
      ∧ res = mkResponse 201 (JsonStudent _id (delete "studentId" student))
      ∧ students w' = <[_id := delete "studentId" student]>
                        (students two_students).
Proof.
  assert (H : reaches_save ada = true) by (vm_compute; reflexivity).
  assert (Hacc : accepts_next (verdicts two_students) = true)
    by (vm_compute; reflexivity).
  split; [exact H|]. split; [exact Hacc|].
  destruct (legacy_create_is_create_without_id ada two_students H)
    as (res & w' & Hrun & Hcs & _ & _ & _ & Hok).
  destruct (Hok Hacc) as (_id & student & Hpost & Hres & Hst & _).
  exists res, w', _id, student. repeat split; assumption.
Defined.

Lemma delete_unknown_is_not_found_witness :
  (∀ _id, ObjectId.cast id_7 = Some _id → students two_students !! _id = None)
  ∧ delete_student_route id_7 two_students =
    (Normal (mkResponse 404 (JsonError "Student not found")), two_students).
Proof.
  assert (H : ∀ _id, ObjectId.cast id_7 = Some _id →
                     students two_students !! _id = None).
  { intros _id Hcast. vm_compute in Hcast. injection Hcast as <-.
    vm_compute. reflexivity. }
  split; [exact H|].
  exact (delete_unknown_is_not_found id_7 two_students H).
Defined.

Lemma student_ids_stay_unique_witness :
  let ts := [Arrives (PostStudent ada); Resumes 0; Resumes 0; Resumes 0;
             Arrives (PostStudent alan); Resumes 1; Resumes 1; Resumes 1;
             Arrives (DeleteStudent id_0); Resumes 2; Resumes 2;
             Arrives GetStats; Resumes 3; Resumes 3; Resumes 3;
             Arrives (PostStudent ada); Resumes 4; Resumes 4; Resumes 4] in
  one_at_a_time ts (start []) = true
  ∧ idle (turns ts (start [])) = true
  ∧ students (database (turns ts (start []))) !! 1%N
    = Some (new_student alan 2)
  ∧ students (database (turns ts (start []))) !! 2%N
    = Some (new_student ada 3)
  ∧ 1 ≤ 2 ∧ (1%N ≠ 2%N → 2 ≠ 3).
Proof.
  cbv zeta.
  set (ts := [Arrives (PostStudent ada); Resumes 0; Resumes 0; Resumes 0;
              Arrives (PostStudent alan); Resumes 1; Resumes 1; Resumes 1;
              Arrives (DeleteStudent id_0); Resumes 2; Resumes 2;
              Arrives GetStats; Resumes 3; Resumes 3; Resumes 3;
              Arrives (PostStudent ada); Resumes 4; Resumes 4; Resumes 4]).
  assert (H1 : one_at_a_time ts (start []) = true)
    by (vm_compute; reflexivity).
  assert (H2 : idle (turns ts (start [])) = true)
    by (vm_compute; reflexivity).
  assert (H3 : students (database (turns ts (start []))) !! 1%N
               = Some (new_student alan 2)) by (vm_compute; reflexivity).
  assert (H4 : students (database (turns ts (start []))) !! 2%N
               = Some (new_student ada 3)) by (vm_compute; reflexivity).
  split; [exact H1|]. split; [exact H2|]. split; [exact H3|].
  split; [exact H4|].
  exact (proj1 (proj2 student_ids_stay_unique) [] ts 1%N 2%N _ _ 2 3
           H1 H2 H3 H4 eq_refl eq_refl).
Defined.

Lemma update_idempotent_witness :
  let res := response_of (put_student_route 100 id_1 ada two_students).1 in
  let w1 := (put_student_route 100 id_1 ada two_students).2 in
  put_student_route 100 id_1 ada two_students = (Normal res, w1)
  ∧ statusCode res = 200
  ∧ accepts_next (verdicts w1) = true
  ∧ ∃ _id student w2,
      ObjectId.cast id_1 = Some _id
      ∧ res = mkResponse 200 (JsonStudent _id student)
      ∧ students w1 !! _id = Some student
      ∧ student !! "updatedAt" = Some (Js.Date (Js.Num 100))
      ∧ put_student_route 200 id_1 ada w1 =
        (Normal (mkResponse 200
                   (JsonStudent _id
                      (<["updatedAt" := Js.Date (Js.Num 200)]> student))), w2)
      ∧ students w2 =
        <[_id := <["updatedAt" := Js.Date (Js.Num 200)]> student]>
          (students w1)
      ∧ counters w2 = counters w1
      ∧ courses w2 = courses w1.
Proof.
  cbv zeta.
  assert (Hrun : put_student_route 100 id_1 ada two_students =
                 (Normal (response_of
                            (put_student_route 100 id_1 ada two_students).1),
                  (put_student_route 100 id_1 ada two_students).2))
    by (vm_compute; reflexivity).
  assert (Hok : statusCode
                  (response_of
                     (put_student_route 100 id_1 ada two_students).1)
                = 200) by (vm_compute; reflexivity).
  assert (Hacc : accepts_next
                   (verdicts (put_student_route 100 id_1 ada two_students).2)
                 = true) by (vm_compute; reflexivity).
  split; [exact Hrun|]. split; [exact Hok|]. split; [exact Hacc|].
  exact (update_idempotent 100 200 id_1 ada two_students _ _ Hrun Hok Hacc).
Defined.

Lemma delete_course_touches_courses_only_witness :
  ∃ res w',
    delete_course_route id_0 two_courses = (Normal res, w')
    ∧ statusCode res = 200
    ∧ students w' = students two_courses
    ∧ courses w' = delete 0%N (courses two_courses)
    ∧ activeCourses_of (get_stats two_courses).1 = Some 1%nat
    ∧ activeCourses_of (get_stats w').1 = Some 0%nat.
Proof.
  destruct (delete_course_touches_courses_only id_0 two_courses)
    as (res & w' & Hrun & Hst & _ & _ & _ & Hcase).
  exists res, w'.
  assert (Hw : w' = (delete_course_route id_0 two_courses).2)
    by (by rewrite Hrun).
  assert (Hr : res = response_of (delete_course_route id_0 two_courses).1)
    by (by rewrite Hrun).
  split; [exact Hrun|]. split; [by rewrite Hr|]. split; [exact Hst|].
  split; [rewrite Hw; vm_compute; reflexivity|].
  split; [vm_compute; reflexivity|].
  rewrite Hw. vm_compute. reflexivity.
Defined.

Lemma search_total_on_strings_witness :
  ascii_lowering Js.toLowerCase
  ∧ Forall (λ student, displayable student = true) loaded_students
  ∧ ∃ shown rows,
      filterStudents id_toString id_toLocaleDateString Js.toLowerCase
        loaded_students "LOGIC" = Normal rows
      ∧ Forall2 (λ student row,
                   createStudentRow id_toString id_toLocaleDateString
                     Js.toLowerCase student = Normal row) shown rows
      ∧ shown `sublist_of` loaded_students
      ∧ ("LOGIC" = "" → shown = loaded_students).
Proof.
  assert (H1 : ascii_lowering Js.toLowerCase) by (intros s _; reflexivity).
  assert (H2 : Forall (λ student, displayable student = true)
                 loaded_students) by (repeat constructor).
  split; [exact H1|]. split; [exact H2|].
  exact (search_total_on_strings id_toString id_toLocaleDateString
           Js.toLowerCase loaded_students "LOGIC" H1 H2).
Defined.

